(** * dir-tree: a shallow embedding of the tree builder and its callers

    The development follows the Go packages of the repository:
    [configs] (cfg.go), [tree] (tree.go), [formatter] (formatter.go),
    [dirtree] (dirtree.go) and [cmd] (main.go).

    Conventions.
    - A Go [string] and a [[]byte] are [string] (a sequence of bytes).
    - A Go [int] / [int64] is a [Z] in the 64-bit signed range; the only
      arithmetic of the program, [currentDepth+1] and [level+1], is written
      with its wrap-around ([int_add]).
    - A library call returning [(T, error)] whose value is used only when
      the error is nil is a [result T].  The builder's own return value, a
      node pointer and an error, stays a pair of options, so that a node
      together with an error is expressible.
    - A pointer to a [Node] is an [option Node]; [None] is [nil].
    - The file system and the library functions that the program calls
      ([os], [path/filepath], [regexp], [strings.ToLower], the encoders)
      are parameters, bundled in records.  The file system is taken to be
      unchanged during one build.
    - [buildTreeRecursive] recurses on the file system, not on data, so it
      takes a bound on the number of nested calls; [None] means that the
      bound was reached. *)

From Stdlib Require Import ZArith List String Ascii Bool Lia.
From Stdlib Require Import DecimalString.
Import ListNotations.
Local Open Scope string_scope.
Local Open Scope Z_scope.

(* ================================================================= *)
(** ** Go basics *)

Definition error := string.
Definition bytes := string.

Inductive result (A : Type) : Type :=
| Ok (a : A)
| Err (e : error).
Arguments Ok {A} a.
Arguments Err {A} e.

(** A computation that may panic (nil dereference, negative repeat count). *)
Inductive run (A : Type) : Type :=
| Ret (a : A)
| Panic.
Arguments Ret {A} a.
Arguments Panic {A}.

Definition int_max : Z := 2 ^ 63 - 1.
Definition int_min : Z := - 2 ^ 63.
Definition wrap_int (z : Z) : Z := (z + 2 ^ 63) mod 2 ^ 64 - 2 ^ 63.
Definition int_add (a b : Z) : Z := wrap_int (a + b).

(** [strings.HasPrefix] *)
Definition HasPrefix (s p : string) : bool := String.prefix p s.

(** [strings.Repeat] for a count that is not negative. *)
Fixpoint repeat_string (s : string) (n : nat) : string :=
  match n with
  | O => ""
  | S n' => s ++ repeat_string s n'
  end.

(** [strings.Repeat]: panics on a negative count.  The library also
    panics when the length [len(s) * count] does not fit an [int]; for the
    strings of one and two bytes repeated in this program that needs a
    count of [2^62] or more, where this definition still returns. *)
Definition Repeat (s : string) (count : Z) : run string :=
  if count <? 0 then Panic else Ret (repeat_string s (Z.to_nat count)).

(** [strings.Join] *)
Fixpoint strings_Join (elems : list string) (sep : string) : string :=
  match elems with
  | [] => ""
  | [e] => e
  | e :: rest => e ++ sep ++ strings_Join rest sep
  end.

(** [%d] of [fmt.Sprintf] *)
Definition sprint_d (z : Z) : string := NilZero.string_of_int (Z.to_int z).

(** [filepath.Ext] on Unix: the suffix that starts at the last dot of the
    last path element, empty if that element has no dot.  The source scans
    the bytes from the end and stops at a separator; scanning from the
    front, a dot opens a candidate and a separator discards it. *)
Fixpoint ext_from (s : string) (cand : string) : string :=
  match s with
  | EmptyString => cand
  | String c rest =>
      if Ascii.eqb c "/" then ext_from rest ""
      else if Ascii.eqb c "." then ext_from rest s
      else ext_from rest cand
  end.

Definition Ext (path : string) : string := ext_from path "".

(* ================================================================= *)
(** ** Package os: the part of the interface the program uses *)

Module os.

(** [fs.ModeSymlink] and [fs.ModeDir], bits of a [FileMode] (uint32). *)
Definition ModeDir : Z := Z.shiftl 1 31.
Definition ModeSymlink : Z := Z.shiftl 1 27.

(** [os.FileInfo] is an interface; the program calls four of its methods,
    which are getters. *)
Record FileInfo : Type := {
  Name : string;
  Size : Z;
  Mode : Z;
  IsDir : bool
}.

(** [os.DirEntry]: only [Info()] is called. *)
Record DirEntry : Type := {
  Info : result FileInfo
}.

(** The file system as the program observes it. *)
Record FileSystem : Type := {
  Stat : string -> result FileInfo;
  ReadDir : string -> result (list DirEntry);
  EvalSymlinks : string -> result string   (* path/filepath *)
}.

End os.

(** Library functions that are pure but too large to restate:
    [filepath.Join], [strings.ToLower] and package [regexp].
    [regexp.MatchString] itself is short and is written out below. *)
Record GoLib : Type := {
  filepath_Join : string -> string -> string;
  strings_ToLower : string -> string;
  Regexp : Type;
  regexp_Compile : string -> result Regexp;
  Regexp_MatchString : Regexp -> string -> bool
}.

(** [regexp.MatchString(pattern, s)]: compile, then search. *)
Definition regexp_MatchString (L : GoLib) (pattern s : string) : bool * option error :=
  match regexp_Compile L pattern with
  | Err e => (false, Some e)
  | Ok re => (Regexp_MatchString L re s, None)
  end.

(** Two more library functions taken as parameters: they work on Unicode
    code points.  [strings.Split] with the separator [","] is on bytes and
    is written out. *)
Record GoText : Type := {
  strings_EqualFold : string -> string -> bool;
  strings_TrimSpace : string -> string
}.

(** [strings.Split(s, ",")]: the pieces between the commas; one piece more
    than there are commas. *)
Fixpoint Split_comma (s : string) : list string :=
  match s with
  | EmptyString => [""]
  | String c rest =>
      if Ascii.eqb c "," then "" :: Split_comma rest
      else
        match Split_comma rest with
        | piece :: pieces => String c piece :: pieces
        | [] => [String c ""]
        end
  end.

(* ================================================================= *)
(** ** Package configs (cfg.go) *)

Module configs.

Definition OutputFormat := string.
Definition JSON : OutputFormat := "json".
Definition YAML : OutputFormat := "yaml".
Definition XML : OutputFormat := "xml".
Definition TXT : OutputFormat := "txt".

Record FormatCfg : Type := {
  Type_ : OutputFormat;
  OutputPath : string;
  Indent : Z;
  ExcludeNodeFields : list string
}.

Record Config : Type := {
  Path : string;
  ExcludeTypes : list string;
  ExcludePaths : list string;
  IncludeFiles : bool;
  MaxDepth : Z;
  FollowLinks : bool;
  Format : FormatCfg
}.

(** [Validate]: [None] is a nil error. *)
Definition Validate (c : Config) : option error :=
  if String.eqb (Path c) "" then Some "path cannot be empty"
  else if MaxDepth c <? -1 then Some "max depth cannot be less than -1"
  else
    let t := Type_ (Format c) in
    if String.eqb t JSON || String.eqb t YAML || String.eqb t XML || String.eqb t TXT
    then None
    else Some ("unsupported output format: " ++ t).

(** [ConfigBuilder]: the builder holds one [Config]; a setter changes it
    and returns the builder. *)
Record ConfigBuilder : Type := {
  config : Config
}.

(** [New] *)
Definition New : ConfigBuilder :=
  {| config :=
       {| Path := "."; ExcludeTypes := []; ExcludePaths := [];
          IncludeFiles := true; MaxDepth := 1; FollowLinks := false;
          Format := {| Type_ := JSON; OutputPath := "output-dir"; Indent := 2;
                       ExcludeNodeFields := ["size"; "is_hidden"; "type"; "path"] |} |} |}.

Definition setFormat (b : ConfigBuilder) (f : FormatCfg) : ConfigBuilder :=
  {| config :=
       {| Path := Path (config b); ExcludeTypes := ExcludeTypes (config b);
          ExcludePaths := ExcludePaths (config b);
          IncludeFiles := IncludeFiles (config b); MaxDepth := MaxDepth (config b);
          FollowLinks := FollowLinks (config b); Format := f |} |}.

(** [WithPath] *)
Definition WithPath (b : ConfigBuilder) (path : string) : ConfigBuilder :=
  {| config :=
       {| Path := path; ExcludeTypes := ExcludeTypes (config b);
          ExcludePaths := ExcludePaths (config b);
          IncludeFiles := IncludeFiles (config b); MaxDepth := MaxDepth (config b);
          FollowLinks := FollowLinks (config b); Format := Format (config b) |} |}.

(** [WithMaxDepth] *)
Definition WithMaxDepth (b : ConfigBuilder) (maxDepth : Z) : ConfigBuilder :=
  {| config :=
       {| Path := Path (config b); ExcludeTypes := ExcludeTypes (config b);
          ExcludePaths := ExcludePaths (config b);
          IncludeFiles := IncludeFiles (config b); MaxDepth := maxDepth;
          FollowLinks := FollowLinks (config b); Format := Format (config b) |} |}.

(** [WithIncludeFiles] *)
Definition WithIncludeFiles (b : ConfigBuilder) (includeFiles : bool) : ConfigBuilder :=
  {| config :=
       {| Path := Path (config b); ExcludeTypes := ExcludeTypes (config b);
          ExcludePaths := ExcludePaths (config b);
          IncludeFiles := includeFiles; MaxDepth := MaxDepth (config b);
          FollowLinks := FollowLinks (config b); Format := Format (config b) |} |}.

(** [WithFollowLinks] *)
Definition WithFollowLinks (b : ConfigBuilder) (followLinks : bool) : ConfigBuilder :=
  {| config :=
       {| Path := Path (config b); ExcludeTypes := ExcludeTypes (config b);
          ExcludePaths := ExcludePaths (config b);
          IncludeFiles := IncludeFiles (config b); MaxDepth := MaxDepth (config b);
          FollowLinks := followLinks; Format := Format (config b) |} |}.

(** [WithExcludePaths] *)
Definition WithExcludePaths (b : ConfigBuilder) (excludePaths : list string)
  : ConfigBuilder :=
  {| config :=
       {| Path := Path (config b); ExcludeTypes := ExcludeTypes (config b);
          ExcludePaths := excludePaths;
          IncludeFiles := IncludeFiles (config b); MaxDepth := MaxDepth (config b);
          FollowLinks := FollowLinks (config b); Format := Format (config b) |} |}.

(** [WithExcludeTypes] *)
Definition WithExcludeTypes (b : ConfigBuilder) (excludeTypes : list string)
  : ConfigBuilder :=
  {| config :=
       {| Path := Path (config b); ExcludeTypes := excludeTypes;
          ExcludePaths := ExcludePaths (config b);
          IncludeFiles := IncludeFiles (config b); MaxDepth := MaxDepth (config b);
          FollowLinks := FollowLinks (config b); Format := Format (config b) |} |}.

(** [WithFormat] *)
Definition WithFormat (b : ConfigBuilder) (format : OutputFormat) : ConfigBuilder :=
  setFormat b {| Type_ := format; OutputPath := OutputPath (Format (config b));
                 Indent := Indent (Format (config b));
                 ExcludeNodeFields := ExcludeNodeFields (Format (config b)) |}.

(** [WithOutputPath] *)
Definition WithOutputPath (b : ConfigBuilder) (outputPath : string) : ConfigBuilder :=
  setFormat b {| Type_ := Type_ (Format (config b)); OutputPath := outputPath;
                 Indent := Indent (Format (config b));
                 ExcludeNodeFields := ExcludeNodeFields (Format (config b)) |}.

(** [WithIndent] *)
Definition WithIndent (b : ConfigBuilder) (indent : Z) : ConfigBuilder :=
  setFormat b {| Type_ := Type_ (Format (config b));
                 OutputPath := OutputPath (Format (config b)); Indent := indent;
                 ExcludeNodeFields := ExcludeNodeFields (Format (config b)) |}.

(** [WithExcludeNodeFields] *)
Definition WithExcludeNodeFields (b : ConfigBuilder) (fields : list string)
  : ConfigBuilder :=
  setFormat b {| Type_ := Type_ (Format (config b));
                 OutputPath := OutputPath (Format (config b));
                 Indent := Indent (Format (config b)); ExcludeNodeFields := fields |}.

(** [AddExcludePath] *)
Definition AddExcludePath (b : ConfigBuilder) (path : string) : ConfigBuilder :=
  WithExcludePaths b (ExcludePaths (config b) ++ [path])%list.

(** [AddExcludeType] *)
Definition AddExcludeType (b : ConfigBuilder) (fileType : string) : ConfigBuilder :=
  WithExcludeTypes b (ExcludeTypes (config b) ++ [fileType])%list.

(** [AddExcludeNodeField] *)
Definition AddExcludeNodeField (b : ConfigBuilder) (field : string) : ConfigBuilder :=
  WithExcludeNodeFields b (ExcludeNodeFields (Format (config b)) ++ [field])%list.

(** [Build]: a new [Config], field by field, the slices copied. *)
Definition Build (b : ConfigBuilder) : Config :=
  {| Path := Path (config b);
     ExcludeTypes := ([] ++ ExcludeTypes (config b))%list;
     ExcludePaths := ([] ++ ExcludePaths (config b))%list;
     IncludeFiles := IncludeFiles (config b);
     MaxDepth := MaxDepth (config b);
     FollowLinks := FollowLinks (config b);
     Format := {| Type_ := Type_ (Format (config b));
                  OutputPath := OutputPath (Format (config b));
                  Indent := Indent (Format (config b));
                  ExcludeNodeFields :=
                    ([] ++ ExcludeNodeFields (Format (config b)))%list |} |}.

Section WithText.
Variable T : GoText.

(** [hasExtension] of cfg.go: the last [len(ext)] bytes of [path], compared
    without regard to case. *)
Definition hasExtension (path ext : string) : bool :=
  if (String.length path <? String.length ext)%nat then false
  else strings_EqualFold T
         (substring (String.length path - String.length ext) (String.length ext) path)
         ext.

(** [GetOutputPath] *)
Definition GetOutputPath (f : FormatCfg) : string :=
  if String.eqb (OutputPath f) "" then ""
  else
    let ext := "." ++ Type_ f in
    if negb (hasExtension (OutputPath f) ext) then OutputPath f ++ ext
    else OutputPath f.

(** The loop of [parseCommaSeparated]. *)
Fixpoint rangeParts (parts : list string) (result : list string) : list string :=
  match parts with
  | [] => result
  | part :: rest =>
      let trimmed := strings_TrimSpace T part in
      if negb (String.eqb trimmed "") then rangeParts rest (result ++ [trimmed])%list
      else rangeParts rest result
  end.

(** [parseCommaSeparated] of cli.go *)
Definition parseCommaSeparated (input : string) : list string :=
  if String.eqb input "" then []
  else rangeParts (Split_comma input) [].

End WithText.

End configs.

(* ================================================================= *)
(** ** Package tree (tree.go) *)

Module tree.

Definition FileType := string.
Definition Directory : FileType := "directory".
Definition File : FileType := "file".
Definition Symlink : FileType := "symlink".

#[local] Unset Elimination Schemes.
Inductive Node : Type := mkNode {
  Name : string;
  Path : string;
  Type_ : FileType;
  Size : Z;
  Children : list (option Node);
  IsHidden : bool
}.
#[local] Set Elimination Schemes.

(** [Path_] is the field [Path]; the name is taken by [Node]. *)
Record BuildOptions : Type := {
  Path_ : string;
  MaxDepth : Z;
  ExcludePaths : list string;
  ExcludeTypes : list string;
  IncludeFiles : bool;
  FollowLinks : bool
}.

(** [isHiddenFile] *)
Definition isHiddenFile (name : string) : bool := HasPrefix name ".".

Section WithLib.
Variable L : GoLib.

(** [isExcludedPath] *)
Fixpoint isExcludedPath (path : string) (excludePatterns : list string) : bool :=
  match excludePatterns with
  | [] => false
  | pattern :: rest =>
      let '(matched, err) := regexp_MatchString L pattern path in
      match err with
      | None => if matched then true else isExcludedPath path rest
      | Some _ => isExcludedPath path rest
      end
  end.

(** The loop of [isExcludedType], [ext] already lowered. *)
Fixpoint rangeExcludeTypes (ext : string) (excludeTypes : list string) : bool :=
  match excludeTypes with
  | [] => false
  | excludedExt :: rest =>
      if String.eqb (strings_ToLower L excludedExt) ext then true
      else rangeExcludeTypes ext rest
  end.

(** [isExcludedType] *)
Definition isExcludedType (path : string) (excludeTypes : list string) : bool :=
  let ext := strings_ToLower L (Ext path) in
  rangeExcludeTypes ext excludeTypes.

Variable fs : os.FileSystem.

(** Lines 65-92 of [buildTreeRecursive]: the type and the size given to
    the node. *)
Definition nodeTypeAndSize (currentPath : string) (info : os.FileInfo)
           (opts : BuildOptions) : FileType * Z :=
  if os.IsDir info then (Directory, 0)
  else if negb (Z.land (os.Mode info) os.ModeSymlink =? 0) then
    if FollowLinks opts then
      match os.EvalSymlinks fs currentPath with
      | Ok targetPath =>
          match os.Stat fs targetPath with
          | Ok targetInfo =>
              if os.IsDir targetInfo then (Directory, 0)
              else (File, os.Size targetInfo)
          | Err _ => (Symlink, os.Size info)
          end
      | Err _ => (Symlink, os.Size info)
      end
    else (Symlink, os.Size info)
  else (File, os.Size info).

(** Lines 104-123: the entries to range over, or the error returned.
    [node.Type] is [Directory] when this code runs, so the first branch
    is written as in the source although its test cannot hold. *)
Definition readEntries (currentPath : string) (nodeType : FileType)
           (opts : BuildOptions) : list os.DirEntry * option error :=
  if FollowLinks opts && String.eqb nodeType Symlink then
    match os.EvalSymlinks fs currentPath with
    | Ok targetPath =>
        match os.ReadDir fs targetPath with
        | Err e => ([], Some ("error reading directory " ++ targetPath ++ ": " ++ e))
        | Ok entries => (entries, None)
        end
    | Err _ => ([], None)
    end
  else
    match os.ReadDir fs currentPath with
    | Err e => ([], Some ("error reading directory " ++ currentPath ++ ": " ++ e))
    | Ok entries => (entries, None)
    end.

(** Lines 125-145: the loop over the entries.  [recur] is the recursive
    call; [children] is [node.Children] so far.  The result is the final
    [node.Children], or the error with which the function returns. *)
Fixpoint rangeEntries
         (recur : string -> os.FileInfo -> Z -> option (option Node * option error))
         (currentPath : string) (opts : BuildOptions) (currentDepth : Z)
         (entries : list os.DirEntry) (children : list (option Node))
  : option (result (list (option Node))) :=
  match entries with
  | [] => Some (Ok children)
  | entry :: rest =>
      match os.Info entry with
      | Err _ => rangeEntries recur currentPath opts currentDepth rest children
      | Ok entryInfo =>
          let fullPath := filepath_Join L currentPath (os.Name entryInfo) in
          if negb (IncludeFiles opts) && negb (os.IsDir entryInfo) then
            rangeEntries recur currentPath opts currentDepth rest children
          else
            match recur fullPath entryInfo (int_add currentDepth 1) with
            | None => None
            | Some (_, Some err) => Some (Err err)
            | Some (Some child, None) =>
                rangeEntries recur currentPath opts currentDepth rest
                             (children ++ [Some child])
            | Some (None, None) =>
                rangeEntries recur currentPath opts currentDepth rest children
            end
      end
  end.

(** [buildTreeRecursive]; [fuel] bounds the nesting of calls. *)
Fixpoint buildTreeRecursive (fuel : nat) (currentPath : string) (info : os.FileInfo)
         (opts : BuildOptions) (currentDepth : Z)
  : option (option Node * option error) :=
  match fuel with
  | O => None
  | S fuel' =>
      if negb (MaxDepth opts =? -1) && (currentDepth >? MaxDepth opts) then
        Some (None, None)
      else if isExcludedPath currentPath (ExcludePaths opts) then
        Some (None, None)
      else
        let '(nodeType, nodeSize) := nodeTypeAndSize currentPath info opts in
        if String.eqb nodeType File && isExcludedType currentPath (ExcludeTypes opts) then
          Some (None, None)
        else
          let hidden := isHiddenFile (os.Name info) in
          if String.eqb nodeType Directory then
            match readEntries currentPath nodeType opts with
            | (_, Some err) => Some (None, Some err)
            | (entries, None) =>
                match rangeEntries
                        (fun p i d => buildTreeRecursive fuel' p i opts d)
                        currentPath opts currentDepth entries [] with
                | None => None
                | Some (Err err) => Some (None, Some err)
                | Some (Ok children) =>
                    Some (Some (mkNode (os.Name info) currentPath nodeType
                                       nodeSize children hidden), None)
                end
            end
          else
            Some (Some (mkNode (os.Name info) currentPath nodeType
                               nodeSize [] hidden), None)
  end.

(** [BuildTree] *)
Definition BuildTree (fuel : nat) (opts : BuildOptions)
  : option (option Node * option error) :=
  match os.Stat fs (Path_ opts) with
  | Err e => Some (None, Some ("error accessing path " ++ Path_ opts ++ ": " ++ e))
  | Ok info => buildTreeRecursive fuel (Path_ opts) info opts 0
  end.

End WithLib.

End tree.

(* ================================================================= *)
(** ** Package formatter (formatter.go) *)

Module formatter.

(** [contains] *)
Fixpoint contains (slice : list string) (item : string) : bool :=
  match slice with
  | [] => false
  | s :: rest => if String.eqb s item then true else contains rest item
  end.

#[local] Unset Elimination Schemes.
Inductive filteredNode : Type := mkFiltered {
  Name : string;
  Path : string;
  Type_ : tree.FileType;
  Size : Z;
  Children : list (option filteredNode);
  IsHidden : bool
}.
#[local] Set Elimination Schemes.

(** [createFilteredNode] on a node that is not nil.  A field that is not
    copied keeps its zero value. *)
Fixpoint createFilteredNode_at (node : tree.Node) (excludeFields : list string)
  : filteredNode :=
  mkFiltered
    (if negb (contains excludeFields "name") then tree.Name node else "")
    (if negb (contains excludeFields "path") then tree.Path node else "")
    (if negb (contains excludeFields "type") then tree.Type_ node else "")
    (if negb (contains excludeFields "size") then tree.Size node else 0)
    (if negb (contains excludeFields "children") then
       (fix range (cs : list (option tree.Node)) : list (option filteredNode) :=
          match cs with
          | [] => []
          | None :: rest => range rest
          | Some child :: rest =>
              Some (createFilteredNode_at child excludeFields) :: range rest
          end) (tree.Children node)
     else [])
    (if negb (contains excludeFields "is_hidden") then tree.IsHidden node else false).

(** [createFilteredNode]: nil for nil. *)
Definition createFilteredNode (node : option tree.Node) (excludeFields : list string)
  : option filteredNode :=
  match node with
  | None => None
  | Some n => Some (createFilteredNode_at n excludeFields)
  end.

(** The [interface{}] handed to an encoder: one of the two pointer types,
    nil or not. *)
Inductive data : Type :=
| OfNode (n : option tree.Node)
| OfFiltered (n : option filteredNode).

(** [encoding/json], [gopkg.in/yaml.v2] and [encoding/xml]. *)
Record Encoders : Type := {
  json_Marshal : data -> bytes * option error;
  json_MarshalIndent : data -> string -> string -> bytes * option error;
  yaml_Marshal : data -> bytes * option error;
  xml_MarshalIndent : data -> string -> string -> bytes * option error
}.

Definition newline : string := String (ascii_of_nat 10) EmptyString.

(** The three prefixes of [formatTXT], byte for byte as the string literals
    of formatter.go hold them (pictographs that were decoded with a wrong
    character set and stored again in UTF-8), each followed by a space. *)
Definition utf8 (bs : list nat) : string :=
  fold_right (fun b s => String (ascii_of_nat b) s) EmptyString bs.
Definition prefixDirectory : string :=
  utf8 [195; 176; 197; 184; 226; 128; 156; 32]%nat.
Definition prefixFile : string :=
  utf8 [195; 176; 197; 184; 226; 128; 156; 226; 128; 158; 32]%nat.
Definition prefixSymlink : string :=
  utf8 [195; 176; 197; 184; 226; 128; 157; 226; 128; 148; 32]%nat.

Section WithEncoders.
Variable E : Encoders.

(** The [data] of the three structured formats. *)
Definition filteredData (node : option tree.Node) (cfg : configs.FormatCfg) : data :=
  if (0 <? Z.of_nat (List.length (configs.ExcludeNodeFields cfg)))
  then OfFiltered (createFilteredNode node (configs.ExcludeNodeFields cfg))
  else OfNode node.

(** [formatJSON] *)
Definition formatJSON (node : option tree.Node) (cfg : configs.FormatCfg)
  : run (bytes * option error) :=
  let data := filteredData node cfg in
  if configs.Indent cfg >? 0 then
    match Repeat " " (configs.Indent cfg) with
    | Panic => Panic
    | Ret indent => Ret (json_MarshalIndent E data "" indent)
    end
  else Ret (json_Marshal E data).

(** [formatYAML] *)
Definition formatYAML (node : option tree.Node) (cfg : configs.FormatCfg)
  : run (bytes * option error) :=
  Ret (yaml_Marshal E (filteredData node cfg)).

(** [formatXML] *)
Definition formatXML (node : option tree.Node) (cfg : configs.FormatCfg)
  : run (bytes * option error) :=
  Ret (xml_MarshalIndent E (filteredData node cfg) "" "  ").

(** [formatTXT] on a node that is not nil.  A nil child is handed to the
    recursive call, which reads [node.Type]: a panic. *)
Fixpoint formatTXT_at (node : tree.Node) (level : Z) (cfg : configs.FormatCfg)
  : run bytes :=
  match Repeat "  " level with
  | Panic => Panic
  | Ret indent =>
      let excl := configs.ExcludeNodeFields cfg in
      let prefix :=
        if String.eqb (tree.Type_ node) tree.File then prefixFile
        else if String.eqb (tree.Type_ node) tree.Symlink then prefixSymlink
        else prefixDirectory in
      let parts := [prefix] in
      let parts :=
        if negb (contains excl "name") then (parts ++ [tree.Name node])%list
        else parts in
      let parts :=
        if negb (contains excl "size") && String.eqb (tree.Type_ node) tree.File
           && (tree.Size node >? 0)
        then (parts ++ [("(" ++ sprint_d (tree.Size node) ++ " bytes)")%string])%list
        else parts in
      let parts :=
        if negb (contains excl "is_hidden") && tree.IsHidden node
        then (parts ++ ["[hidden]"])%list
        else parts in
      let line := indent ++ strings_Join parts " " ++ newline in
      if negb (contains excl "children") then
        (fix range (cs : list (option tree.Node)) (result : string) : run bytes :=
           match cs with
           | [] => Ret result
           | None :: _ => Panic
           | Some child :: rest =>
               match formatTXT_at child (int_add level 1) cfg with
               | Panic => Panic
               | Ret b => range rest (result ++ b)
               end
           end) (tree.Children node) line
      else Ret line
  end.

(** [formatTXT]: there is no nil test, and the first read of the node,
    [node.Type], panics on a nil pointer. *)
Definition formatTXT (node : option tree.Node) (level : Z) (cfg : configs.FormatCfg)
  : run bytes :=
  match node with
  | None => Panic
  | Some n => formatTXT_at n level cfg
  end.

(** [Format]; [cfg] is the configuration behind the pointer. *)
Definition Format (tree : option tree.Node) (cfg : configs.FormatCfg)
  : run (bytes * option error) :=
  let t := configs.Type_ cfg in
  if String.eqb t configs.JSON then formatJSON tree cfg
  else if String.eqb t configs.YAML then formatYAML tree cfg
  else if String.eqb t configs.XML then formatXML tree cfg
  else if String.eqb t configs.TXT then
    match formatTXT tree 0 cfg with
    | Panic => Panic
    | Ret b => Ret (b, None)
    end
  else Ret ("", Some ("unsupported format: " ++ t)).

End WithEncoders.

End formatter.

(* ================================================================= *)
(** ** Package dirtree (dirtree.go) and the command (main.go) *)

Module dirtree.

Section WithWorld.
Variable L : GoLib.
Variable fs : os.FileSystem.
Variable E : formatter.Encoders.

(** [Generate] *)
Definition Generate (fuel : nat) (cfg : configs.Config)
  : option (run (bytes * option error)) :=
  match tree.BuildTree L fs fuel
          {| tree.Path_ := configs.Path cfg;
             tree.MaxDepth := configs.MaxDepth cfg;
             tree.ExcludePaths := configs.ExcludePaths cfg;
             tree.ExcludeTypes := configs.ExcludePaths cfg;
             tree.IncludeFiles := configs.IncludeFiles cfg;
             tree.FollowLinks := configs.FollowLinks cfg |} with
  | None => None
  | Some (_, Some err) => Some (Ret ("", Some err))
  | Some (root, None) => Some (formatter.Format E root (configs.Format cfg))
  end.

(** The assignments [cfg.MaxDepth = maxDepth] and [cfg.Format.Type = t]. *)
Definition assignMaxDepthAndType (cfg : configs.Config) (maxDepth : Z)
           (t : configs.OutputFormat) : configs.Config :=
  {| configs.Path := configs.Path cfg;
     configs.ExcludeTypes := configs.ExcludeTypes cfg;
     configs.ExcludePaths := configs.ExcludePaths cfg;
     configs.IncludeFiles := configs.IncludeFiles cfg;
     configs.MaxDepth := maxDepth;
     configs.FollowLinks := configs.FollowLinks cfg;
     configs.Format :=
       {| configs.Type_ := t;
          configs.OutputPath := configs.OutputPath (configs.Format cfg);
          configs.Indent := configs.Indent (configs.Format cfg);
          configs.ExcludeNodeFields :=
            configs.ExcludeNodeFields (configs.Format cfg) |} |}.

(** [GenerateJSON] *)
Definition GenerateJSON (fuel : nat) (path : string) (maxDepth : Z)
  : option (run (bytes * option error)) :=
  let cfg := configs.Build (configs.WithPath configs.New path) in
  Generate fuel (assignMaxDepthAndType cfg maxDepth configs.JSON).


Variable T : GoText.

(** The outcome of [os.WriteFile(name, data, 0644)]; an error does not
    tell whether the file was created or truncated before. *)
Variable writeFile : string -> bytes -> option error.

(** [GenerateToFile]: the calls of [os.WriteFile] it makes (name, data and
    mode) and the error it returns. *)
Definition GenerateToFile (fuel : nat) (cfg : configs.Config)
  : option (run (list (string * bytes * Z) * option error)) :=
  match Generate fuel cfg with
  | None => None
  | Some Panic => Some Panic
  | Some (Ret (_, Some err)) => Some (Ret ([], Some err))
  | Some (Ret (data, None)) =>
      let outputPath := configs.GetOutputPath T (configs.Format cfg) in
      if String.eqb outputPath "" then
        Some (Ret ([], Some "output path is required for file generation"))
      else
        Some (Ret ([(outputPath, data, 420)], writeFile outputPath data))
  end.

End WithWorld.

End dirtree.

Module cmd.

(** How the process ends: [log.Fatalf] with a message, or the output
    handed to [saveOutput]. *)
Inductive exit : Type :=
| Fatal (msg : string)
| Output (data : bytes).

(** [hasExtension] of main.go: the last [len(ext)] bytes of [path] are
    [ext]. *)
Definition hasExtension (path ext : string) : bool :=
  (String.length ext <=? String.length path)%nat
  && String.eqb (substring (String.length path - String.length ext)
                           (String.length ext) path) ext.

(** What [saveOutput] does to the outside: lines printed and the call of
    [os.WriteFile]. *)
Inductive event : Type :=
| Printed (text : string)
| WriteFileCalled (name : string) (data : bytes) (perm : Z).

(** [saveOutput]; [writeFile] is the outcome of [os.WriteFile]. *)
Definition saveOutput (writeFile : string -> bytes -> option error)
           (data : bytes) (format : configs.FormatCfg) : list event * option error :=
  let outputPath := configs.OutputPath format in
  if String.eqb outputPath "" then
    ([Printed (data ++ formatter.newline)], None)
  else
    let ext := "." ++ configs.Type_ format in
    let outputPath :=
      if negb (hasExtension outputPath ext) then outputPath ++ ext else outputPath in
    match writeFile outputPath data with
    | Some err => ([WriteFileCalled outputPath data 420], Some err)
    | None =>
        ([WriteFileCalled outputPath data 420;
          Printed ("Tree successfully written to: " ++ outputPath ++ formatter.newline)],
         None)
    end.

Section WithWorld.
Variable L : GoLib.
Variable fs : os.FileSystem.
Variable E : formatter.Encoders.

(** [main] from the result of [configs.ParseConfig] up to the call of
    [saveOutput]. *)
Definition main (fuel : nat) (parsed : result configs.Config) : option (run exit) :=
  match parsed with
  | Err e => Some (Ret (Fatal ("Error parsing config: " ++ e)))
  | Ok cfg =>
      match configs.Validate cfg with
      | Some e => Some (Ret (Fatal ("Config validation failed: " ++ e)))
      | None =>
          match tree.BuildTree L fs fuel
                  {| tree.Path_ := configs.Path cfg;
                     tree.MaxDepth := configs.MaxDepth cfg;
                     tree.ExcludePaths := configs.ExcludePaths cfg;
                     tree.ExcludeTypes := configs.ExcludePaths cfg;
                     tree.IncludeFiles := configs.IncludeFiles cfg;
                     tree.FollowLinks := configs.FollowLinks cfg |} with
          | None => None
          | Some (_, Some err) => Some (Ret (Fatal ("Error building tree: " ++ err)))
          | Some (root, None) =>
              match formatter.Format E root (configs.Format cfg) with
              | Panic => Some Panic
              | Ret (_, Some err) => Some (Ret (Fatal ("Error formatting tree: " ++ err)))
              | Ret (formattedOutput, None) => Some (Ret (Output formattedOutput))
              end
          end
      end
  end.

End WithWorld.

End cmd.

(* ================================================================= *)
(** ** A concrete world for examples

    Instances of the parameters on which the definitions above can be
    evaluated.  Each agrees with the Go library on the inputs used in this
    file: ASCII strings, clean directory paths, plain entry names. *)

Module Sample.

(** [strings.ToLower] on ASCII. *)
Definition lower_ascii (c : ascii) : ascii :=
  let n := nat_of_ascii c in
  if ((65 <=? n) && (n <=? 90))%nat then ascii_of_nat (n + 32) else c.

Fixpoint ToLower (s : string) : string :=
  match s with
  | EmptyString => EmptyString
  | String c rest => String (lower_ascii c) (ToLower rest)
  end.

(** [filepath.Join] of a clean, non-empty directory path that does not
    end in a separator and one plain name. *)
Definition Join (dir name : string) : string := dir ++ "/" ++ name.

(** A fragment of the regexp syntax: literal bytes and [.], each with an
    optional star, between an optional [^] and an optional [$].  Every
    other pattern is refused; one of those, "[", is refused by package
    regexp as well, the others are not used. *)
Inductive atom : Type :=
| Lit (c : ascii)
| AnyChar.

Inductive item : Type :=
| One (a : atom)
| Star (a : atom).

Record pattern : Type := {
  fromStart : bool;
  items : list item;
  toEnd : bool
}.

Definition is_meta (c : ascii) : bool :=
  existsb (Ascii.eqb c)
          ["\"; "+"; "*"; "?"; "("; ")"; "|"; "["; "]"; "{"; "}"; "^"; "$"]%char.

Definition atom_of (c : ascii) : option atom :=
  if Ascii.eqb c "." then Some AnyChar
  else if is_meta c then None
  else Some (Lit c).

Fixpoint parse_body (s : string) : option (list item * bool) :=
  match s with
  | EmptyString => Some ([], false)
  | String c rest =>
      if Ascii.eqb c "$" then
        match rest with
        | EmptyString => Some ([], true)
        | _ => None
        end
      else
        match atom_of c with
        | None => None
        | Some a =>
            match rest with
            | String "*" rest' =>
                match parse_body rest' with
                | Some (its, e) => Some (Star a :: its, e)
                | None => None
                end
            | _ =>
                match parse_body rest with
                | Some (its, e) => Some (One a :: its, e)
                | None => None
                end
            end
        end
  end.

Definition Compile (p : string) : result pattern :=
  let '(anchored, body) :=
    match p with
    | String "^" rest => (true, rest)
    | _ => (false, p)
    end in
  match parse_body body with
  | Some (its, e) => Ok {| fromStart := anchored; items := its; toEnd := e |}
  | None => Err ("error parsing regexp: " ++ p)
  end.

Definition atom_match (a : atom) (c : ascii) : bool :=
  match a with
  | Lit c' => Ascii.eqb c c'
  | AnyChar => negb (Ascii.eqb c (ascii_of_nat 10))
  end.

Fixpoint match_here (its : list item) (e : bool) (text : string) : bool :=
  match its with
  | [] => if e then String.eqb text "" else true
  | One a :: rest =>
      match text with
      | EmptyString => false
      | String c t => atom_match a c && match_here rest e t
      end
  | Star a :: rest =>
      (fix star (text : string) : bool :=
         match_here rest e text ||
         match text with
         | EmptyString => false
         | String c t => atom_match a c && star t
         end) text
  end.

Fixpoint search (its : list item) (e : bool) (text : string) : bool :=
  match_here its e text ||
  match text with
  | EmptyString => false
  | String _ t => search its e t
  end.

Definition MatchString (re : pattern) (s : string) : bool :=
  if fromStart re then match_here (items re) (toEnd re) s
  else search (items re) (toEnd re) s.

Definition lib : GoLib := {|
  filepath_Join := Join;
  strings_ToLower := ToLower;
  Regexp := pattern;
  regexp_Compile := Compile;
  Regexp_MatchString := MatchString
|}.

(** [strings.EqualFold] and [strings.TrimSpace] on ASCII. *)
Definition EqualFold (a b : string) : bool := String.eqb (ToLower a) (ToLower b).

Definition isSpace (c : ascii) : bool :=
  let n := nat_of_ascii c in
  ((9 <=? n) && (n <=? 13) || (n =? 32))%nat.

Fixpoint trimLeft (s : string) : string :=
  match s with
  | EmptyString => EmptyString
  | String c rest => if isSpace c then trimLeft rest else s
  end.

Fixpoint trimRight (s : string) : string :=
  match s with
  | EmptyString => EmptyString
  | String c rest =>
      let rest' := trimRight rest in
      if isSpace c && String.eqb rest' "" then EmptyString else String c rest'
  end.

Definition TrimSpace (s : string) : string := trimRight (trimLeft s).

Definition text : GoText := {|
  strings_EqualFold := EqualFold;
  strings_TrimSpace := TrimSpace
|}.

(** Encoders for the examples: each one refuses its value, as
    encoding/json does for a value it cannot represent.  The text format
    uses none of them. *)
Definition encoders : formatter.Encoders := {|
  formatter.json_Marshal := fun _ => (EmptyString, Some "unsupported value"%string);
  formatter.json_MarshalIndent := fun _ _ _ => (EmptyString, Some "unsupported value"%string);
  formatter.yaml_Marshal := fun _ => (EmptyString, Some "unsupported value"%string);
  formatter.xml_MarshalIndent := fun _ _ _ => (EmptyString, Some "unsupported value"%string)
|}.

(** File systems given by tables; a path that is not listed does not
    exist. *)
Fixpoint lookup {A : Type} (tbl : list (string * A)) (path : string) : result A :=
  match tbl with
  | [] => Err "no such file or directory"
  | (p, a) :: rest => if String.eqb p path then Ok a else lookup rest path
  end.

Definition tableFS (stat : list (string * os.FileInfo))
           (dirs : list (string * list os.DirEntry))
           (links : list (string * string)) : os.FileSystem :=
  {| os.Stat := lookup stat;
     os.ReadDir := lookup dirs;
     os.EvalSymlinks := lookup links |}.

Definition dirInfo (name : string) : os.FileInfo :=
  {| os.Name := name; os.Size := 4096;
     os.Mode := Z.lor os.ModeDir 493; os.IsDir := true |}.

Definition fileInfo (name : string) (size : Z) : os.FileInfo :=
  {| os.Name := name; os.Size := size; os.Mode := 420; os.IsDir := false |}.

Definition linkInfo (name : string) (size : Z) : os.FileInfo :=
  {| os.Name := name; os.Size := size;
     os.Mode := Z.lor os.ModeSymlink 511; os.IsDir := false |}.

Definition entry (i : os.FileInfo) : os.DirEntry := {| os.Info := Ok i |}.

(** The scenario of the specification: [root] holds [a.txt] (10 bytes),
    [b.go] (5 bytes) and [sub], which holds [c.go]. *)
Definition scenarioFS : os.FileSystem :=
  tableFS
    [("root", dirInfo "root")]
    [("root", [entry (fileInfo "a.txt" 10); entry (fileInfo "b.go" 5);
               entry (dirInfo "sub")]);
     ("root/sub", [entry (fileInfo "c.go" 7)])]
    [].

Definition scenarioOpts (maxDepth : Z) (types : list string) : tree.BuildOptions :=
  {| tree.Path_ := "root"; tree.MaxDepth := maxDepth;
     tree.ExcludePaths := []; tree.ExcludeTypes := types;
     tree.IncludeFiles := true; tree.FollowLinks := false |}.

(** A single Go file as the root. *)
Definition fileRootFS : os.FileSystem :=
  tableFS [("main.go", fileInfo "main.go" 12)] [] [].

Definition fileRootOpts : tree.BuildOptions :=
  {| tree.Path_ := "main.go"; tree.MaxDepth := -1;
     tree.ExcludePaths := []; tree.ExcludeTypes := [".go"];
     tree.IncludeFiles := true; tree.FollowLinks := false |}.

(** [root] holds [report.go] and the symlink [latest], which points to
    [report.go]. *)
Definition linkToFileFS : os.FileSystem :=
  tableFS
    [("root", dirInfo "root"); ("root/report.go", fileInfo "report.go" 5)]
    [("root", [entry (fileInfo "report.go" 5); entry (linkInfo "latest" 9)])]
    [("root/latest", "root/report.go")].

Definition linkToFileOpts : tree.BuildOptions :=
  {| tree.Path_ := "root"; tree.MaxDepth := -1;
     tree.ExcludePaths := []; tree.ExcludeTypes := [".go"];
     tree.IncludeFiles := true; tree.FollowLinks := true |}.

(** [root] holds the file [a.txt], the directory [sub] and the symlink
    [link], which points to [sub]. *)
Definition linkToDirFS : os.FileSystem :=
  tableFS
    [("root", dirInfo "root"); ("root/sub", dirInfo "sub")]
    [("root", [entry (fileInfo "a.txt" 10); entry (dirInfo "sub");
               entry (linkInfo "link" 3)]);
     ("root/sub", []); ("root/link", [])]
    [("root/link", "root/sub")].

Definition linkToDirOpts (includeFiles : bool) : tree.BuildOptions :=
  {| tree.Path_ := "root"; tree.MaxDepth := -1;
     tree.ExcludePaths := []; tree.ExcludeTypes := [];
     tree.IncludeFiles := includeFiles; tree.FollowLinks := true |}.

(** [root] holds the directory [locked], which cannot be listed. *)
Definition lockedFS : os.FileSystem :=
  {| os.Stat := lookup [("root", dirInfo "root")];
     os.ReadDir := fun p =>
       if String.eqb p "root/locked" then Err "permission denied"
       else lookup [("root", [entry (dirInfo "locked")])] p;
     os.EvalSymlinks := lookup [] |}.

Definition lockedOpts : tree.BuildOptions :=
  {| tree.Path_ := "root"; tree.MaxDepth := 1;
     tree.ExcludePaths := []; tree.ExcludeTypes := [];
     tree.IncludeFiles := true; tree.FollowLinks := false |}.

(** A symlink cycle: the directory [a] holds the symlink [loop], which
    points back to [a].  The paths are [a], [a/loop], [a/loop/loop] and so
    on; each of them resolves to [a].  The kernel follows at most 40 links
    while it resolves one path, so [os.Stat] and [os.ReadDir] fail on a
    path that crosses more; [filepath.EvalSymlinks] walks the links itself
    and gives up after 255. *)
Definition cyclePath (n : nat) : string := "a" ++ repeat_string "/loop" n.

(** The number of links on a path of the cycle. *)
Definition cycleLinks (p : string) : option nat :=
  find (fun n => String.eqb p (cyclePath n)) (seq 0 (S (String.length p))).

Definition tooManyLinks (op p : string) : error :=
  op ++ " " ++ p ++ ": too many levels of symbolic links".

Definition cycleFS : os.FileSystem :=
  {| os.Stat := fun p =>
       match cycleLinks p with
       | Some O => Ok (dirInfo "a")
       | Some n => if (n <=? 40)%nat then Ok (dirInfo "loop")
                   else Err (tooManyLinks "stat" p)
       | None => Err "no such file or directory"
       end;
     os.ReadDir := fun p =>
       match cycleLinks p with
       | Some n => if (n <=? 40)%nat then Ok [entry (linkInfo "loop" 1)]
                   else Err (tooManyLinks "open" p)
       | None => Err "no such file or directory"
       end;
     os.EvalSymlinks := fun p =>
       match cycleLinks p with
       | Some n => if (n <=? 255)%nat then Ok "a"
                   else Err "EvalSymlinks: too many links"
       | None => Err "no such file or directory"
       end |}.

Definition cycleOpts (maxDepth : Z) : tree.BuildOptions :=
  {| tree.Path_ := "a"; tree.MaxDepth := maxDepth;
     tree.ExcludePaths := []; tree.ExcludeTypes := [];
     tree.IncludeFiles := true; tree.FollowLinks := true |}.

End Sample.


(* ================================================================= *)
(** ** Vocabulary of the properties *)

Import tree.

(** The depth check of line 51. *)
Definition depthExceeded (opts : BuildOptions) (currentDepth : Z) : bool :=
  negb (MaxDepth opts =? -1) && (currentDepth >? MaxDepth opts).

(** An entry is removed by the depth rule, by the path-exclusion rule or,
    once classified as a file, by the type-exclusion rule. *)
Definition filteredOut (L : GoLib) (fs : os.FileSystem) (currentPath : string)
           (info : os.FileInfo) (opts : BuildOptions) (currentDepth : Z) : bool :=
  depthExceeded opts currentDepth
  || isExcludedPath L currentPath (ExcludePaths opts)
  || (String.eqb (fst (nodeTypeAndSize fs currentPath info opts)) File
      && isExcludedType L currentPath (ExcludeTypes opts)).

(** [cfg] with another list of excluded extensions. *)
Definition withExcludeTypes (cfg : configs.Config) (types : list string) : configs.Config :=
  {| configs.Path := configs.Path cfg;
     configs.ExcludeTypes := types;
     configs.ExcludePaths := configs.ExcludePaths cfg;
     configs.IncludeFiles := configs.IncludeFiles cfg;
     configs.MaxDepth := configs.MaxDepth cfg;
     configs.FollowLinks := configs.FollowLinks cfg;
     configs.Format := configs.Format cfg |}.

(** The entry is handed to the recursive call: its metadata can be read
    and the include-files test lets it pass. *)
Definition descended (opts : BuildOptions) (entry : os.DirEntry)
           (entryInfo : os.FileInfo) : Prop :=
  os.Info entry = Ok entryInfo /\
  negb (IncludeFiles opts) && negb (os.IsDir entryInfo) = false.

(** [at_depth j t m]: the node [m] occurs in the tree [t], [j] levels below
    its root. *)
Inductive at_depth : nat -> Node -> Node -> Prop :=
| at_depth_root t : at_depth O t t
| at_depth_child j t c m :
    In (Some c) (Children t) -> at_depth j c m -> at_depth (S j) t m.

(** [issues L fs opts fuel p i d fuel' p' i' d']: the call of
    [buildTreeRecursive] on [p], [i], [d] comes, through the loops of the
    calls between them, to the call on [p'], [i'], [d']: every entry that is
    ranged over before the one descended into is finished without an
    error. *)
Inductive issues (L : GoLib) (fs : os.FileSystem) (opts : BuildOptions)
  : nat -> string -> os.FileInfo -> Z -> nat -> string -> os.FileInfo -> Z -> Prop :=
| issues_here fuel p i d : issues L fs opts fuel p i d fuel p i d
| issues_below fuel p i d before entry after entryInfo kids fuel' p' i' d' :
    filteredOut L fs p i opts d = false ->
    fst (nodeTypeAndSize fs p i opts) = Directory ->
    os.ReadDir fs p = Ok (before ++ entry :: after)%list ->
    rangeEntries L (fun q j e => buildTreeRecursive L fs fuel q j opts e)
                 p opts d before [] = Some (Ok kids) ->
    os.Info entry = Ok entryInfo ->
    negb (IncludeFiles opts) && negb (os.IsDir entryInfo) = false ->
    issues L fs opts fuel (filepath_Join L p (os.Name entryInfo)) entryInfo
           (int_add d 1) fuel' p' i' d' ->
    issues L fs opts (S fuel) p i d fuel' p' i' d'.

(** [nests L fs n p]: below [p] there is a chain of [n] listings, each
    step from a path that [os.ReadDir] can list to the joined path of one
    of its entries with readable metadata.  These are the only paths a
    build that starts at [p] can descend to. *)
Inductive nests (L : GoLib) (fs : os.FileSystem) : nat -> string -> Prop :=
| nests_here p : nests L fs O p
| nests_entry n p entries entry entryInfo :
    os.ReadDir fs p = Ok entries ->
    In entry entries ->
    os.Info entry = Ok entryInfo ->
    nests L fs n (filepath_Join L p (os.Name entryInfo)) ->
    nests L fs (S n) p.

(** [Subseq xs ys]: [xs] is [ys] with some elements left out, the order
    kept. *)
Inductive Subseq {A : Type} : list A -> list A -> Prop :=
| Subseq_nil : Subseq [] []
| Subseq_skip x xs ys : Subseq xs ys -> Subseq xs (x :: ys)
| Subseq_keep x xs ys : Subseq xs ys -> Subseq (x :: xs) (x :: ys).

(** The names of the entries of a listing whose metadata can be read, in
    the order of the listing. *)
Fixpoint entryNames (entries : list os.DirEntry) : list string :=
  match entries with
  | [] => []
  | entry :: rest =>
      match os.Info entry with
      | Ok entryInfo => os.Name entryInfo :: entryNames rest
      | Err _ => entryNames rest
      end
  end.

(** The names of the children of a node, a nil child left out. *)
Fixpoint childNames (children : list (option Node)) : list string :=
  match children with
  | [] => []
  | Some c :: rest => Name c :: childNames rest
  | None :: rest => childNames rest
  end.

Definition readable (entry : os.DirEntry) : bool :=
  match os.Info entry with
  | Ok _ => true
  | Err _ => false
  end.

(** The file system with the entries whose metadata cannot be read taken
    out of every listing. *)
Definition dropUnreadable (fs : os.FileSystem) : os.FileSystem :=
  {| os.Stat := os.Stat fs;
     os.ReadDir := fun p =>
       match os.ReadDir fs p with
       | Ok entries => Ok (filter readable entries)
       | Err e => Err e
       end;
     os.EvalSymlinks := os.EvalSymlinks fs |}.

(** The symlink at [p] stays a symlink: links are not followed, or the link
    cannot be resolved, or its target cannot be stat'ed. *)
Definition unresolved (fs : os.FileSystem) (p : string) (opts : BuildOptions) : Prop :=
  FollowLinks opts = false \/
  (exists e, os.EvalSymlinks fs p = Err e) \/
  (exists targetPath e,
      os.EvalSymlinks fs p = Ok targetPath /\ os.Stat fs targetPath = Err e).

(** The loop over the children in [formatTXT], [f] being the recursive
    call: a nil child or a panic of [f] ends it. *)
Fixpoint rangeChildren (f : Node -> run bytes) (cs : list (option Node))
         (result : string) : run bytes :=
  match cs with
  | [] => Ret result
  | None :: _ => Panic
  | Some child :: rest =>
      match f child with
      | Panic => Panic
      | Ret b => rangeChildren f rest (result ++ b)
      end
  end.

(** The six field names that [createFilteredNode] and [formatTXT] know. *)
Definition knownFields : list string :=
  ["name"; "path"; "type"; "size"; "is_hidden"; "children"].

(** A filtered node read back as a node, field by field. *)
Fixpoint unfiltered (f : formatter.filteredNode) : Node :=
  mkNode (formatter.Name f) (formatter.Path f) (formatter.Type_ f) (formatter.Size f)
         ((fix range (cs : list (option formatter.filteredNode)) : list (option Node) :=
             match cs with
             | [] => []
             | None :: rest => None :: range rest
             | Some c :: rest => Some (unfiltered c) :: range rest
             end) (formatter.Children f))
         (formatter.IsHidden f).

(** No nil pointer among the children, anywhere in the tree. *)
Definition noNilChild (t : Node) : Prop :=
  forall j m, at_depth j t m -> ~ In None (Children m).


(** The four selectors. *)
Definition supportedFormats : list configs.OutputFormat :=
  [configs.JSON; configs.YAML; configs.XML; configs.TXT].

(** No comma among the bytes of [s]. *)
Fixpoint noComma (s : string) : bool :=
  match s with
  | EmptyString => true
  | String c rest => negb (Ascii.eqb c ",") && noComma rest
  end.

(** [f] with another output path. *)
Definition withOutputPath (f : configs.FormatCfg) (outputPath : string)
  : configs.FormatCfg :=
  {| configs.Type_ := configs.Type_ f;
     configs.OutputPath := outputPath;
     configs.Indent := configs.Indent f;
     configs.ExcludeNodeFields := configs.ExcludeNodeFields f |}.

(** The name of the file that [saveOutput] hands to [os.WriteFile], if it
    calls it. *)
Definition writtenName (events : list cmd.event) : option string :=
  match events with
  | cmd.WriteFileCalled name _ _ :: _ => Some name
  | _ => None
  end.

(* ================================================================= *)
(** ** Integers *)

Lemma wrap_int_small z : int_min <= z <= int_max -> wrap_int z = z.
Proof.
  unfold wrap_int, int_min, int_max. intros H.
  rewrite Z.mod_small; lia.
Qed.

Lemma wrap_int_range z : int_min <= wrap_int z <= int_max.
Proof.
  unfold wrap_int, int_min, int_max.
  pose proof (Z.mod_pos_bound (z + 2 ^ 63) (2 ^ 64) ltac:(lia)). lia.
Qed.

Lemma int_add_1 d : int_min <= d < int_max -> int_add d 1 = d + 1.
Proof. intros H. unfold int_add. apply wrap_int_small. lia. Qed.

(** The two ways a node occurs in a tree. *)
Lemma at_depth_inv j t m :
  at_depth j t m ->
  (j = O /\ m = t) \/
  exists j' c, j = S j' /\ In (Some c) (Children t) /\ at_depth j' c m.
Proof.
  intros H. destruct H as [t|j t c m Hin Hc]; [now left|].
  right. now exists j, c.
Qed.

(* ================================================================= *)
(** ** The builder, one call at a time *)

Section OneCall.
Variable L : GoLib.
Variable fs : os.FileSystem.

Lemma buildTreeRecursive_S fuel currentPath info opts currentDepth :
  buildTreeRecursive L fs (S fuel) currentPath info opts currentDepth =
  if depthExceeded opts currentDepth then Some (None, None)
  else if isExcludedPath L currentPath (ExcludePaths opts) then Some (None, None)
  else
    let nodeType := fst (nodeTypeAndSize fs currentPath info opts) in
    let nodeSize := snd (nodeTypeAndSize fs currentPath info opts) in
    if String.eqb nodeType File && isExcludedType L currentPath (ExcludeTypes opts)
    then Some (None, None)
    else
      if String.eqb nodeType Directory then
        match readEntries fs currentPath nodeType opts with
        | (_, Some err) => Some (None, Some err)
        | (entries, None) =>
            match rangeEntries L
                    (fun p i d => buildTreeRecursive L fs fuel p i opts d)
                    currentPath opts currentDepth entries [] with
            | None => None
            | Some (Err err) => Some (None, Some err)
            | Some (Ok children) =>
                Some (Some (mkNode (os.Name info) currentPath nodeType nodeSize
                                   children (isHiddenFile (os.Name info))), None)
            end
        end
      else
        Some (Some (mkNode (os.Name info) currentPath nodeType nodeSize []
                           (isHiddenFile (os.Name info))), None).
Proof.
  unfold depthExceeded. cbn [buildTreeRecursive].
  destruct (nodeTypeAndSize fs currentPath info opts) as [ty sz].
  reflexivity.
Qed.

(** The node type is one of the three constants. *)
Lemma nodeType_cases currentPath info opts :
  let ty := fst (nodeTypeAndSize fs currentPath info opts) in
  ty = Directory \/ ty = File \/ ty = Symlink.
Proof.
  unfold nodeTypeAndSize.
  destruct (os.IsDir info); [now left|].
  destruct (negb _); [|now (right; left)].
  destruct (FollowLinks opts); [|now (right; right)].
  destruct (os.EvalSymlinks fs currentPath) as [tp|]; [|now (right; right)].
  destruct (os.Stat fs tp) as [ti|]; [|now (right; right)].
  destruct (os.IsDir ti); [now left|now (right; left)].
Qed.

(** When the node is a directory, the listing read is that of
    [currentPath]: the branch for symlinks is never taken. *)
Lemma readEntries_Directory currentPath opts :
  readEntries fs currentPath Directory opts =
  match os.ReadDir fs currentPath with
  | Err e => ([], Some ("error reading directory " ++ currentPath ++ ": " ++ e))
  | Ok entries => (entries, None)
  end.
Proof.
  unfold readEntries.
  replace (String.eqb Directory Symlink) with false by reflexivity.
  now rewrite andb_false_r.
Qed.

(** A filtered entry gives [(nil, nil)]. *)
Lemma filteredOut_nil_nil fuel currentPath info opts currentDepth :
  filteredOut L fs currentPath info opts currentDepth = true ->
  buildTreeRecursive L fs (S fuel) currentPath info opts currentDepth
  = Some (None, None).
Proof.
  unfold filteredOut. intros H. rewrite buildTreeRecursive_S.
  destruct (depthExceeded opts currentDepth); [reflexivity|].
  destruct (isExcludedPath L currentPath (ExcludePaths opts)); [reflexivity|].
  cbn [orb] in H. cbv zeta. now rewrite H.
Qed.

(** An entry that is not filtered gives a node or an error, never
    [(nil, nil)] and never both. *)
Lemma kept_node_or_error fuel currentPath info opts currentDepth node err :
  filteredOut L fs currentPath info opts currentDepth = false ->
  buildTreeRecursive L fs fuel currentPath info opts currentDepth = Some (node, err) ->
  (node <> None /\ err = None) \/ (node = None /\ err <> None).
Proof.
  unfold filteredOut. intros H.
  destruct fuel as [|fuel]; [discriminate|].
  rewrite buildTreeRecursive_S.
  apply orb_false_iff in H as [H Ht]. apply orb_false_iff in H as [Hd Hp].
  rewrite Hd, Hp. cbv zeta. rewrite Ht.
  destruct (String.eqb _ Directory).
  - destruct (readEntries _ _ _ _) as [entries [e|]].
    + intros [= <- <-]. right. split; congruence.
    + destruct (rangeEntries _ _ _ _ _ _ _) as [[kids|e]|]; [| |discriminate].
      * intros [= <- <-]. left. split; congruence.
      * intros [= <- <-]. right. split; congruence.
  - intros [= <- <-]. left. split; congruence.
Qed.

(** No call returns a node together with an error. *)
Lemma buildTreeRecursive_exclusive fuel currentPath info opts currentDepth node err :
  buildTreeRecursive L fs fuel currentPath info opts currentDepth = Some (node, err) ->
  node = None \/ err = None.
Proof.
  intros H.
  destruct (filteredOut L fs currentPath info opts currentDepth) eqn:Hf.
  - destruct fuel as [|fuel]; [discriminate|].
    rewrite (filteredOut_nil_nil _ _ _ _ _ Hf) in H. injection H as <- <-. now left.
  - destruct (kept_node_or_error _ _ _ _ _ _ _ Hf H) as [[_ ->]|[-> _]]; auto.
Qed.

End OneCall.

(* ================================================================= *)
(** ** The scenarios of the specification *)

Example scenario_unlimited :
  BuildTree Sample.lib Sample.scenarioFS 3 (Sample.scenarioOpts (-1) [])
  = Some (Some (mkNode "root" "root" Directory 0
            [Some (mkNode "a.txt" "root/a.txt" File 10 [] false);
             Some (mkNode "b.go" "root/b.go" File 5 [] false);
             Some (mkNode "sub" "root/sub" Directory 0
                     [Some (mkNode "c.go" "root/sub/c.go" File 7 [] false)] false)]
            false), None).
Proof. reflexivity. Qed.

Example scenario_without_go_files :
  BuildTree Sample.lib Sample.scenarioFS 3 (Sample.scenarioOpts (-1) [".go"])
  = Some (Some (mkNode "root" "root" Directory 0
            [Some (mkNode "a.txt" "root/a.txt" File 10 [] false);
             Some (mkNode "sub" "root/sub" Directory 0 [] false)]
            false), None).
Proof. reflexivity. Qed.

Example scenario_nonexistent_root :
  BuildTree Sample.lib Sample.scenarioFS 3
            {| Path_ := "/nonexistent"; MaxDepth := 1; ExcludePaths := [];
               ExcludeTypes := []; IncludeFiles := false; FollowLinks := false |}
  = Some (None, Some "error accessing path /nonexistent: no such file or directory").
Proof. reflexivity. Qed.

(* ================================================================= *)
(** ** Path exclusion *)

(** C8. For every path and every list of patterns, [isExcludedPath] is true
    exactly when some pattern of the list compiles and matches the path; a
    pattern that does not compile counts as a non-match, and the result is a
    plain boolean: no error leaves the function. *)
Theorem isExcludedPath_compiles_and_matches (L : GoLib) (path : string)
        (excludePatterns : list string) :
  isExcludedPath L path excludePatterns = true <->
  exists pattern re,
    In pattern excludePatterns /\
    regexp_Compile L pattern = Ok re /\
    Regexp_MatchString L re path = true.
Proof.
  induction excludePatterns as [|p rest IH]; cbn [isExcludedPath].
  - split; [discriminate|]. now intros (? & ? & [] & _).
  - unfold regexp_MatchString.
    destruct (regexp_Compile L p) as [re|e] eqn:Hc.
    + destruct (Regexp_MatchString L re path) eqn:Hm.
      * split; [|reflexivity]. intros _. exists p, re. cbn. auto.
      * rewrite IH. split.
        -- intros (q & r & Hin & H). exists q, r. cbn. tauto.
        -- intros (q & r & [<-|Hin] & Hq & Hr).
           ++ rewrite Hc in Hq. injection Hq as <-. congruence.
           ++ now exists q, r.
    + rewrite IH. split.
      * intros (q & r & Hin & H). exists q, r. cbn. tauto.
      * intros (q & r & [<-|Hin] & Hq & Hr); [congruence|]. now exists q, r.
Qed.

Lemma isExcludedPath_compiles_and_matches_witness :
  isExcludedPath Sample.lib "/home/user/test" ["["; ".*test.*"] = true /\
  exists pattern re,
    In pattern ["["; ".*test.*"] /\
    regexp_Compile Sample.lib pattern = Ok re /\
    Regexp_MatchString Sample.lib re "/home/user/test" = true.
Proof.
  split; [reflexivity|].
  apply (proj1 (isExcludedPath_compiles_and_matches
                  Sample.lib "/home/user/test" ["["; ".*test.*"])).
  reflexivity.
Defined.

(** The cases of [TestIsExcludedPath] in tree_test.go. *)
Example isExcludedPath_tests :
  isExcludedPath Sample.lib "/home/user/test" [".*test.*"] = true /\
  isExcludedPath Sample.lib "/home/user/docs" [".*test.*"] = false /\
  isExcludedPath Sample.lib "/home/user/temp" [".*test.*"; ".*temp.*"] = true /\
  isExcludedPath Sample.lib "/home/user/test" ["["] = false /\
  isExcludedPath Sample.lib "/home/user/test" [] = false.
Proof. repeat split. Qed.

(** The cases of [TestIsExcludedType] and [TestIsHiddenFile]. *)
Example isExcludedType_tests :
  isExcludedType Sample.lib "file.go" [".go"; ".txt"] = true /\
  isExcludedType Sample.lib "file.py" [".go"; ".txt"] = false /\
  isExcludedType Sample.lib "file.GO" [".go"] = true /\
  isExcludedType Sample.lib "README" [".go"] = false /\
  isExcludedType Sample.lib "file.go" [] = false.
Proof. repeat split. Qed.

Example isHiddenFile_tests :
  isHiddenFile ".hidden" = true /\ isHiddenFile "visible" = false /\
  isHiddenFile "" = false /\ isHiddenFile "." = true /\
  isHiddenFile ".." = true /\ isHiddenFile "file.txt" = false /\
  isHiddenFile ".file.txt" = true.
Proof. repeat split. Qed.

(* ================================================================= *)
(** ** The return contract *)

(** C7. [BuildTree] never returns a node together with an error: with an
    error the node is nil.  An entry removed by the depth, the
    path-exclusion or the type-exclusion rule makes the recursive builder
    return [(nil, nil)], not an error. *)
Theorem BuildTree_node_and_error_exclusive (L : GoLib) (fs : os.FileSystem)
        (fuel : nat) (opts : BuildOptions) (node : option Node) (err : option error) :
  BuildTree L fs fuel opts = Some (node, err) ->
  (node = None \/ err = None) /\
  (err <> None -> node = None) /\
  (forall fuel' currentPath info currentDepth,
      filteredOut L fs currentPath info opts currentDepth = true ->
      buildTreeRecursive L fs (S fuel') currentPath info opts currentDepth
      = Some (None, None)).
Proof.
  intros H.
  assert (Hx : node = None \/ err = None).
  { unfold BuildTree in H. destruct (os.Stat fs (Path_ opts)) as [info|e].
    - eapply buildTreeRecursive_exclusive; eassumption.
    - injection H as <- <-. now left. }
  split; [exact Hx|]. split.
  - intros Hne. destruct Hx; [assumption|contradiction].
  - intros. now apply filteredOut_nil_nil.
Qed.

Lemma BuildTree_node_and_error_exclusive_witness :
  BuildTree Sample.lib Sample.lockedFS 2 Sample.lockedOpts
  = Some (None, Some "error reading directory root/locked: permission denied") /\
  (forall fuel' currentPath info currentDepth,
      filteredOut Sample.lib Sample.lockedFS currentPath info
                  Sample.lockedOpts currentDepth = true ->
      buildTreeRecursive Sample.lib Sample.lockedFS (S fuel') currentPath info
                         Sample.lockedOpts currentDepth = Some (None, None)).
Proof.
  split; [reflexivity|].
  exact (proj2 (proj2 (BuildTree_node_and_error_exclusive
                         Sample.lib Sample.lockedFS 2 Sample.lockedOpts
                         None _ eq_refl))).
Defined.

(* ================================================================= *)
(** ** The root entry *)

(** C2, as stated, fails: the root goes through the same three checks as
    every other entry.  The root [main.go] stats successfully, [.go] is an
    excluded extension, and the build returns [(nil, nil)]. *)
Lemma BuildTree_root_excluded_by_type :
  os.Stat Sample.fileRootFS (Path_ Sample.fileRootOpts)
  = Ok (Sample.fileInfo "main.go" 12) /\
  (forall fuel,
      BuildTree Sample.lib Sample.fileRootFS (S fuel) Sample.fileRootOpts
      = Some (None, None)).
Proof. split; [reflexivity|]. intros fuel. reflexivity. Qed.

(** The same with a path pattern that matches the root. *)
Example BuildTree_root_excluded_by_path :
  BuildTree Sample.lib Sample.scenarioFS 5
            {| Path_ := "root"; MaxDepth := -1; ExcludePaths := ["^ro*t$"];
               ExcludeTypes := []; IncludeFiles := true; FollowLinks := false |}
  = Some (None, None).
Proof. reflexivity. Qed.

(** C2, amended. For every [BuildOptions] whose root path stats
    successfully: if the root is removed by the depth check ([MaxDepth] is
    neither -1 nor at least 0), by a path-exclusion pattern or, as a file,
    by an excluded extension, [BuildTree] returns [(nil, nil)]; if it is
    not, every result of [BuildTree] is a non-nil root without an error, or
    nil with an error. *)
Theorem BuildTree_root_subject_to_filters (L : GoLib) (fs : os.FileSystem)
        (opts : BuildOptions) (info : os.FileInfo) :
  os.Stat fs (Path_ opts) = Ok info ->
  (filteredOut L fs (Path_ opts) info opts 0 = true ->
   forall fuel, BuildTree L fs (S fuel) opts = Some (None, None)) /\
  (filteredOut L fs (Path_ opts) info opts 0 = false ->
   forall fuel node err,
     BuildTree L fs fuel opts = Some (node, err) ->
     (node <> None /\ err = None) \/ (node = None /\ err <> None)).
Proof.
  intros Hs. unfold BuildTree. rewrite Hs. split.
  - intros Hf fuel. now apply filteredOut_nil_nil.
  - intros Hf fuel node err. now apply kept_node_or_error.
Qed.

Lemma BuildTree_root_subject_to_filters_witness :
  os.Stat Sample.scenarioFS "root" = Ok (Sample.dirInfo "root") /\
  filteredOut Sample.lib Sample.scenarioFS "root" (Sample.dirInfo "root")
              (Sample.scenarioOpts 1 []) 0 = false /\
  (forall fuel node err,
     BuildTree Sample.lib Sample.scenarioFS fuel (Sample.scenarioOpts 1 [])
     = Some (node, err) ->
     (node <> None /\ err = None) \/ (node = None /\ err <> None)).
Proof.
  split; [reflexivity|]. split; [reflexivity|].
  exact (proj2 (BuildTree_root_subject_to_filters
                  Sample.lib Sample.scenarioFS (Sample.scenarioOpts 1 [])
                  (Sample.dirInfo "root") eq_refl) eq_refl).
Defined.

(* ================================================================= *)
(** ** The formatter on a nil tree *)

(** C1 at the selector [txt]: [Format] on a nil root panics, whatever the
    rest of the configuration; [formatTXT] reads [node.Type] without a nil
    test.  With the three other selectors no panic arises in this package:
    the result is what the encoder returns for a nil pointer. *)
Theorem Format_nil_TXT_panics (E : formatter.Encoders) (outputPath : string) (indent : Z)
        (excludeNodeFields : list string) :
  let cfg t := {| configs.Type_ := t; configs.OutputPath := outputPath;
                  configs.Indent := indent;
                  configs.ExcludeNodeFields := excludeNodeFields |} in
  formatter.Format E None (cfg configs.TXT) = Panic /\
  (exists out, formatter.Format E None (cfg configs.JSON) = Ret out) /\
  (exists out, formatter.Format E None (cfg configs.YAML) = Ret out) /\
  (exists out, formatter.Format E None (cfg configs.XML) = Ret out).
Proof.
  cbv zeta. split; [reflexivity|]. split; [|split].
  - unfold formatter.Format, formatter.formatJSON. cbn [configs.Type_ configs.Indent].
    replace (String.eqb configs.JSON configs.JSON) with true by reflexivity.
    destruct (indent >? 0) eqn:Hi; [|eauto].
    unfold Repeat. replace (indent <? 0) with false by lia. eauto.
  - unfold formatter.Format, formatter.formatYAML. cbn. eauto.
  - unfold formatter.Format, formatter.formatXML. cbn. eauto.
Qed.

(** [dirtree.Generate] hands a nil root to [Format] when the root is
    filtered out; with the selector [txt] the call panics. *)
Example Generate_TXT_filtered_root_panics (E : formatter.Encoders) :
  dirtree.Generate Sample.lib Sample.fileRootFS E 1
    {| configs.Path := "main.go"; configs.ExcludeTypes := [];
       configs.ExcludePaths := ["main"]; configs.IncludeFiles := true;
       configs.MaxDepth := 1; configs.FollowLinks := false;
       configs.Format := {| configs.Type_ := configs.TXT; configs.OutputPath := "";
                            configs.Indent := 2;
                            configs.ExcludeNodeFields := [] |} |}
  = Some Panic.
Proof. reflexivity. Qed.

(** [formatTXT] on a tree that is not nil: the line of a file with a size. *)
Example formatTXT_file_line (E : formatter.Encoders) :
  formatter.formatTXT (Some (mkNode "a.txt" "root/a.txt" File 10 [] false)) 1
            {| configs.Type_ := configs.TXT; configs.OutputPath := "";
               configs.Indent := 2; configs.ExcludeNodeFields := [] |}
  = Ret ("  " ++ formatter.prefixFile ++ " a.txt (10 bytes)" ++ formatter.newline)%string.
Proof. reflexivity. Qed.

(* ================================================================= *)
(** ** The options built by the entry points *)

(** C3. For every [Config], [dirtree.Generate] and [main] build the tree
    with options whose [ExcludeTypes] and [ExcludePaths] are both
    [cfg.ExcludePaths]; their results do not depend on [cfg.ExcludeTypes],
    which is not forwarded. *)
Theorem Generate_forwards_ExcludePaths_as_ExcludeTypes
        (L : GoLib) (fs : os.FileSystem) (E : formatter.Encoders) (fuel : nat)
        (cfg : configs.Config) :
  (forall types,
      dirtree.Generate L fs E fuel (withExcludeTypes cfg types)
      = dirtree.Generate L fs E fuel cfg /\
      cmd.main L fs E fuel (Ok (withExcludeTypes cfg types))
      = cmd.main L fs E fuel (Ok cfg)) /\
  exists opts,
    ExcludeTypes opts = configs.ExcludePaths cfg /\
    ExcludePaths opts = configs.ExcludePaths cfg /\
    dirtree.Generate L fs E fuel cfg =
      match BuildTree L fs fuel opts with
      | None => None
      | Some (_, Some err) => Some (Ret (""%string, Some err))
      | Some (root, None) => Some (formatter.Format E root (configs.Format cfg))
      end /\
    cmd.main L fs E fuel (Ok cfg) =
      match configs.Validate cfg with
      | Some e => Some (Ret (cmd.Fatal ("Config validation failed: " ++ e)))
      | None =>
          match BuildTree L fs fuel opts with
          | None => None
          | Some (_, Some err) => Some (Ret (cmd.Fatal ("Error building tree: " ++ err)))
          | Some (root, None) =>
              match formatter.Format E root (configs.Format cfg) with
              | Panic => Some Panic
              | Ret (_, Some err) =>
                  Some (Ret (cmd.Fatal ("Error formatting tree: " ++ err)))
              | Ret (formattedOutput, None) => Some (Ret (cmd.Output formattedOutput))
              end
          end
      end.
Proof.
  split.
  - intros types. split; reflexivity.
  - eexists. split; [|split; [|split]]; [| |reflexivity|reflexivity]; reflexivity.
Qed.

(** On the scenario of the specification: the configured extension [.go]
    has no effect, and the path pattern [.GO], which matches no path of the
    tree, removes the Go files as an extension. *)
Example Generate_scenario (E : formatter.Encoders) :
  let cfg types paths :=
    {| configs.Path := "root"; configs.ExcludeTypes := types;
       configs.ExcludePaths := paths; configs.IncludeFiles := true;
       configs.MaxDepth := -1; configs.FollowLinks := false;
       configs.Format := {| configs.Type_ := configs.TXT; configs.OutputPath := "";
                            configs.Indent := 2;
                            configs.ExcludeNodeFields := [] |} |} in
  dirtree.Generate Sample.lib Sample.scenarioFS E 3 (cfg [".go"] [])
  = Some (Ret ((formatter.prefixDirectory ++ " root" ++ formatter.newline
                ++ "  " ++ formatter.prefixFile ++ " a.txt (10 bytes)" ++ formatter.newline
                ++ "  " ++ formatter.prefixFile ++ " b.go (5 bytes)" ++ formatter.newline
                ++ "  " ++ formatter.prefixDirectory ++ " sub" ++ formatter.newline
                ++ "    " ++ formatter.prefixFile ++ " c.go (7 bytes)" ++ formatter.newline)%string, None))
  /\
  dirtree.Generate Sample.lib Sample.scenarioFS E 3 (cfg [] [".GO"])
  = Some (Ret ((formatter.prefixDirectory ++ " root" ++ formatter.newline
                ++ "  " ++ formatter.prefixFile ++ " a.txt (10 bytes)" ++ formatter.newline
                ++ "  " ++ formatter.prefixDirectory ++ " sub" ++ formatter.newline)%string, None)).
Proof. split; reflexivity. Qed.

(* ================================================================= *)
(** ** The loop over the entries *)

Section Loop.
Variable L : GoLib.
Variable currentPath : string.
Variable opts : BuildOptions.
Variable currentDepth : Z.

Local Abbreviation loop recur := (rangeEntries L recur currentPath opts currentDepth).

Lemma rangeEntries_app recur before rest children kids :
  loop recur before children = Some (Ok kids) ->
  loop recur (before ++ rest)%list children = loop recur rest kids.
Proof.
  revert children. induction before as [|entry before IH]; intros children.
  - cbn. now intros [= ->].
  - cbn [rangeEntries app].
    destruct (os.Info entry) as [entryInfo|]; [|apply IH].
    destruct (negb (IncludeFiles opts) && negb (os.IsDir entryInfo)); [apply IH|].
    destruct (recur _ _ _) as [[[child|] [err|]]|]; try discriminate; apply IH.
Qed.

Lemma rangeEntries_mono recur recur' entries children res :
  (forall p i d r, recur p i d = Some r -> recur' p i d = Some r) ->
  loop recur entries children = Some res ->
  loop recur' entries children = Some res.
Proof.
  intros Hrec. revert children.
  induction entries as [|entry entries IH]; intros children; [trivial|].
  cbn [rangeEntries].
  destruct (os.Info entry) as [entryInfo|]; [|apply IH].
  destruct (negb (IncludeFiles opts) && negb (os.IsDir entryInfo)); [apply IH|].
  destruct (recur _ _ _) as [r|] eqn:Hr; [|discriminate].
  rewrite (Hrec _ _ _ _ Hr).
  destruct r as [[child|] [err|]]; trivial; apply IH.
Qed.

(** Every child in the result was there before the loop or is the node
    returned for an entry that was descended into. *)
Lemma rangeEntries_children recur entries children res c :
  loop recur entries children = Some (Ok res) ->
  In (Some c) res ->
  In (Some c) children \/
  exists entry entryInfo,
    In entry entries /\ descended opts entry entryInfo /\
    recur (filepath_Join L currentPath (os.Name entryInfo)) entryInfo
          (int_add currentDepth 1) = Some (Some c, None).
Proof.
  revert children. induction entries as [|entry entries IH]; intros children.
  - cbn. intros [= ->]. now left.
  - cbn [rangeEntries]. intros H Hin.
    assert (Hlater : forall kids,
               loop recur entries kids = Some (Ok res) ->
               In (Some c) kids \/
               exists entry' entryInfo,
                 In entry' (entry :: entries) /\ descended opts entry' entryInfo /\
                 recur (filepath_Join L currentPath (os.Name entryInfo)) entryInfo
                       (int_add currentDepth 1) = Some (Some c, None)).
    { intros kids Hk. destruct (IH kids Hk Hin) as [|(e & i & He & Hd)]; [now left|].
      right. exists e, i. cbn. tauto. }
    destruct (os.Info entry) as [entryInfo|] eqn:Hi; [|now apply Hlater].
    destruct (negb (IncludeFiles opts) && negb (os.IsDir entryInfo)) eqn:Hs;
      [now apply Hlater|].
    destruct (recur _ _ _) as [[[child|] [err|]]|] eqn:Hr; try discriminate;
      try now apply Hlater.
    destruct (Hlater _ H) as [Hc|Hc]; [|now right].
    apply in_app_or in Hc as [Hc|[[= ->]|[]]]; [now left|].
    right. exists entry, entryInfo. cbn. unfold descended. auto.
Qed.

(** When no recursive call gives a node, the loop adds nothing. *)
Lemma rangeEntries_adds_nothing recur entries children res :
  (forall p i n e, recur p i (int_add currentDepth 1) = Some (n, e) ->
                   n = None /\ e = None) ->
  loop recur entries children = Some (Ok res) -> res = children.
Proof.
  intros Hrec. revert children.
  induction entries as [|entry entries IH]; intros children.
  - cbn. now intros [= ->].
  - cbn [rangeEntries].
    destruct (os.Info entry) as [entryInfo|]; [|apply IH].
    destruct (negb (IncludeFiles opts) && negb (os.IsDir entryInfo)); [apply IH|].
    destruct (recur _ _ _) as [[n e]|] eqn:Hr; [|discriminate].
    destruct (Hrec _ _ _ _ Hr) as [-> ->]. apply IH.
Qed.

(** When every recursive call gives [(nil, nil)], the loop ends with the
    children it started with. *)
Lemma rangeEntries_all_nil recur entries children :
  (forall p i, recur p i (int_add currentDepth 1) = Some (None, None)) ->
  loop recur entries children = Some (Ok children).
Proof.
  intros Hrec.
  induction entries as [|entry entries IH]; cbn [rangeEntries]; [reflexivity|].
  destruct (os.Info entry) as [entryInfo|]; [|exact IH].
  destruct (negb (IncludeFiles opts) && negb (os.IsDir entryInfo)); [exact IH|].
  now rewrite Hrec.
Qed.

(** When every recursive call returns, so does the loop. *)
Lemma rangeEntries_returns recur entries children :
  (forall p i, exists r, recur p i (int_add currentDepth 1) = Some r) ->
  exists res, loop recur entries children = Some res.
Proof.
  intros Hrec. revert children.
  induction entries as [|entry entries IH]; intros children;
    [eexists; reflexivity|].
  cbn [rangeEntries].
  destruct (os.Info entry) as [entryInfo|]; [|apply IH].
  destruct (negb (IncludeFiles opts) && negb (os.IsDir entryInfo)); [apply IH|].
  destruct (Hrec (filepath_Join L currentPath (os.Name entryInfo)) entryInfo)
    as [[[child|] [err|]] ->]; cbn beta iota;
    try apply IH; eexists; reflexivity.
Qed.

(** An error of a recursive call ends the loop with that error. *)
Lemma rangeEntries_error recur entry rest children entryInfo n err :
  descended opts entry entryInfo ->
  recur (filepath_Join L currentPath (os.Name entryInfo)) entryInfo
        (int_add currentDepth 1) = Some (n, Some err) ->
  loop recur (entry :: rest) children = Some (Err err).
Proof.
  intros [Hi Hs] Hr. cbn [rangeEntries]. rewrite Hi, Hs, Hr. now destruct n.
Qed.

End Loop.

(* ================================================================= *)
(** ** The include-files flag *)

(** C6, as stated, fails: with [IncludeFiles] false the symlink [link] is
    dropped although it is not a regular file (with [FollowLinks] it even
    resolves to a directory); with [IncludeFiles] true it is visited. *)
Lemma IncludeFiles_false_drops_symlink :
  BuildTree Sample.lib Sample.linkToDirFS 3 (Sample.linkToDirOpts false)
  = Some (Some (mkNode "root" "root" Directory 0
                       [Some (mkNode "sub" "root/sub" Directory 0 [] false)]
                       false), None) /\
  BuildTree Sample.lib Sample.linkToDirFS 3 (Sample.linkToDirOpts true)
  = Some (Some (mkNode "root" "root" Directory 0
                       [Some (mkNode "a.txt" "root/a.txt" File 10 [] false);
                        Some (mkNode "sub" "root/sub" Directory 0 [] false);
                        Some (mkNode "link" "root/link" Directory 0 [] false)]
                       false), None).
Proof. split; reflexivity. Qed.

(** C6, amended. When [IncludeFiles] is false, an enumerated entry whose
    metadata can be read is dropped by the flag if and only if it is not a
    directory (a regular file, a symlink, anything else): the loop goes on
    with the rest and the children unchanged, without a recursive call.  A
    directory entry is handed to the recursive call one level deeper.  This
    holds in every call, so at every depth. *)
Theorem IncludeFiles_false_skips_non_directories
        (L : GoLib)
        (recur : string -> os.FileInfo -> Z -> option (option Node * option error))
        (currentPath : string) (opts : BuildOptions) (currentDepth : Z)
        (entry : os.DirEntry) (rest : list os.DirEntry)
        (children : list (option Node)) (entryInfo : os.FileInfo) :
  IncludeFiles opts = false ->
  os.Info entry = Ok entryInfo ->
  (negb (IncludeFiles opts) && negb (os.IsDir entryInfo) = true
   <-> os.IsDir entryInfo = false) /\
  (os.IsDir entryInfo = false ->
   rangeEntries L recur currentPath opts currentDepth (entry :: rest) children
   = rangeEntries L recur currentPath opts currentDepth rest children) /\
  (os.IsDir entryInfo = true ->
   rangeEntries L recur currentPath opts currentDepth (entry :: rest) children
   = match recur (filepath_Join L currentPath (os.Name entryInfo)) entryInfo
                 (int_add currentDepth 1) with
     | None => None
     | Some (_, Some err) => Some (Err err)
     | Some (Some child, None) =>
         rangeEntries L recur currentPath opts currentDepth rest
                      (children ++ [Some child])
     | Some (None, None) =>
         rangeEntries L recur currentPath opts currentDepth rest children
     end).
Proof.
  intros Hf Hi. cbn [rangeEntries]. rewrite Hi, Hf. cbn [negb andb].
  split; [|split].
  - destruct (os.IsDir entryInfo); cbn; split; congruence.
  - now intros ->.
  - now intros ->.
Qed.

Lemma IncludeFiles_false_skips_non_directories_witness :
  let recur := fun p i d =>
    buildTreeRecursive Sample.lib Sample.linkToDirFS 2 p i (Sample.linkToDirOpts false) d in
  rangeEntries Sample.lib recur "root" (Sample.linkToDirOpts false) 0
               [Sample.entry (Sample.linkInfo "link" 3); Sample.entry (Sample.dirInfo "sub")] []
  = rangeEntries Sample.lib recur "root" (Sample.linkToDirOpts false) 0
               [Sample.entry (Sample.dirInfo "sub")] [].
Proof.
  cbv zeta.
  exact (proj1 (proj2 (IncludeFiles_false_skips_non_directories
                         Sample.lib _ "root" (Sample.linkToDirOpts false) 0
                         (Sample.entry (Sample.linkInfo "link" 3))
                         [Sample.entry (Sample.dirInfo "sub")] []
                         (Sample.linkInfo "link" 3) eq_refl eq_refl)) eq_refl).
Defined.

(** With [IncludeFiles] false, every node below the root of a returned
    tree is a directory. *)
Lemma IncludeFiles_false_only_directories_below
      (L : GoLib) (fs : os.FileSystem) (opts : BuildOptions) (fuel : nat) :
  IncludeFiles opts = false ->
  forall p i d t,
    buildTreeRecursive L fs fuel p i opts d = Some (Some t, None) ->
    forall j m, at_depth (S j) t m -> Type_ m = Directory.
Proof.
  intros Hflag. induction fuel as [|fuel IH]; intros p i d t; [discriminate|].
  rewrite buildTreeRecursive_S.
  destruct (depthExceeded opts d); [discriminate|].
  destruct (isExcludedPath L p (ExcludePaths opts)); [discriminate|].
  cbv zeta.
  destruct (String.eqb _ File && _); [discriminate|].
  destruct (String.eqb _ Directory).
  - destruct (readEntries fs p _ opts) as [entries [e|]]; [discriminate|].
    destruct (rangeEntries L _ p opts d entries []) as [[kids|e]|] eqn:Hr;
      try discriminate.
    intros [= <-] j m Hat.
    destruct (at_depth_inv _ _ _ Hat) as [[[=] _]|(j' & c & [= <-] & Hin & Hc)].
    cbn [Children] in Hin.
    destruct (rangeEntries_children _ _ _ _ _ _ _ _ _ Hr Hin)
      as [[]|(entry & ei & _ & [_ Hdesc] & Hcall)].
    rewrite Hflag in Hdesc. cbn [negb andb] in Hdesc.
    apply negb_false_iff in Hdesc.
    destruct (at_depth_inv _ _ _ Hc) as [[-> ->]|(j' & c' & -> & Hin' & Hc')].
    + destruct fuel as [|fuel']; [discriminate|].
      rewrite buildTreeRecursive_S in Hcall.
      assert (Hty : nodeTypeAndSize fs (filepath_Join L p (os.Name ei)) ei opts
                    = (Directory, 0))
        by (unfold nodeTypeAndSize; now rewrite Hdesc).
      rewrite Hty in Hcall. cbv zeta in Hcall. cbn [fst snd] in Hcall.
      destruct (depthExceeded opts _); [discriminate|].
      destruct (isExcludedPath L _ _); [discriminate|].
      destruct (String.eqb Directory File && _); [discriminate|].
      destruct (String.eqb Directory Directory).
      * destruct (readEntries fs _ _ opts) as [es [e|]]; [discriminate|].
        destruct (rangeEntries L _ _ opts _ es []) as [[ks|e]|]; try discriminate.
        now injection Hcall as <-.
      * now injection Hcall as <-.
    + eapply IH; [exact Hcall|].
      eapply at_depth_child; eassumption.
  - intros [= <-] j m Hat.
    destruct (at_depth_inv _ _ _ Hat) as [[[=] _]|(j' & c & _ & [] & _)].
Qed.

(* ================================================================= *)
(** ** Symlinks that resolve to files *)

(** C4, as stated, fails: [latest] is a symlink that resolves to the regular
    file [report.go], [.go] is excluded and [FollowLinks] is on; the file
    itself is omitted, but the link stays in the tree as a file, since its
    own path has no excluded extension. *)
Lemma symlink_to_excluded_file_kept :
  FollowLinks Sample.linkToFileOpts = true /\
  os.EvalSymlinks Sample.linkToFileFS "root/latest" = Ok "root/report.go"%string /\
  os.Stat Sample.linkToFileFS "root/report.go" = Ok (Sample.fileInfo "report.go" 5) /\
  isExcludedType Sample.lib "root/report.go" (ExcludeTypes Sample.linkToFileOpts) = true /\
  BuildTree Sample.lib Sample.linkToFileFS 2 Sample.linkToFileOpts
  = Some (Some (mkNode "root" "root" Directory 0
                       [Some (mkNode "latest" "root/latest" File 5 [] false)]
                       false), None).
Proof. repeat split. Qed.

(** C4, amended. With [FollowLinks] enabled, a symlink entry that resolves
    to a regular file and passes the depth and path checks is reclassified
    as a file with the size of the target, and the type-exclusion check is
    then made on the path of the symlink itself: the entry is omitted if
    and only if the extension of its own path is excluded. *)
Theorem symlink_to_file_checked_by_own_path
        (L : GoLib) (fs : os.FileSystem) (fuel : nat) (currentPath : string)
        (info : os.FileInfo) (opts : BuildOptions) (currentDepth : Z)
        (targetPath : string) (targetInfo : os.FileInfo) :
  FollowLinks opts = true ->
  os.IsDir info = false ->
  Z.land (os.Mode info) os.ModeSymlink <> 0 ->
  os.EvalSymlinks fs currentPath = Ok targetPath ->
  os.Stat fs targetPath = Ok targetInfo ->
  os.IsDir targetInfo = false ->
  depthExceeded opts currentDepth = false ->
  isExcludedPath L currentPath (ExcludePaths opts) = false ->
  buildTreeRecursive L fs (S fuel) currentPath info opts currentDepth
  = if isExcludedType L currentPath (ExcludeTypes opts)
    then Some (None, None)
    else Some (Some (mkNode (os.Name info) currentPath File (os.Size targetInfo) []
                            (isHiddenFile (os.Name info))), None).
Proof.
  intros Hfl Hd Hm He Hs Ht Hdepth Hpath.
  rewrite buildTreeRecursive_S, Hdepth, Hpath.
  assert (Hty : nodeTypeAndSize fs currentPath info opts = (File, os.Size targetInfo)).
  { unfold nodeTypeAndSize. rewrite Hd, Hfl, He, Hs, Ht.
    apply Z.eqb_neq in Hm. now rewrite Hm. }
  rewrite Hty. cbn [fst snd].
  replace (String.eqb File File) with true by reflexivity.
  replace (String.eqb File Directory) with false by reflexivity.
  cbn [andb]. reflexivity.
Qed.

Lemma symlink_to_file_checked_by_own_path_witness :
  buildTreeRecursive Sample.lib Sample.linkToFileFS 1 "root/latest"
                     (Sample.linkInfo "latest" 9) Sample.linkToFileOpts 1
  = Some (Some (mkNode "latest" "root/latest" File 5 [] false), None).
Proof.
  exact (symlink_to_file_checked_by_own_path
           Sample.lib Sample.linkToFileFS 0 "root/latest"
           (Sample.linkInfo "latest" 9) Sample.linkToFileOpts 1
           "root/report.go" (Sample.fileInfo "report.go" 5)
           eq_refl eq_refl ltac:(discriminate) eq_refl eq_refl eq_refl eq_refl eq_refl).
Defined.

(* ================================================================= *)
(** ** The bound on the nesting of calls *)

Section Fuel.
Variable L : GoLib.
Variable fs : os.FileSystem.
Variable opts : BuildOptions.

Local Abbreviation build fuel := (fun p i d => buildTreeRecursive L fs fuel p i opts d).

(** A larger bound does not change a result. *)
Lemma buildTreeRecursive_mono fuel :
  forall fuel' p i d r,
    (fuel <= fuel')%nat ->
    buildTreeRecursive L fs fuel p i opts d = Some r ->
    buildTreeRecursive L fs fuel' p i opts d = Some r.
Proof.
  induction fuel as [|fuel IH]; intros fuel' p i d r Hle; [discriminate|].
  destruct fuel' as [|fuel']; [lia|].
  rewrite !buildTreeRecursive_S.
  destruct (depthExceeded opts d); [trivial|].
  destruct (isExcludedPath L p (ExcludePaths opts)); [trivial|].
  cbv zeta.
  destruct (String.eqb _ File && _); [trivial|].
  destruct (String.eqb _ Directory); [|trivial].
  destruct (readEntries fs p _ opts) as [entries [e|]]; [trivial|].
  destruct (rangeEntries L (build fuel) p opts d entries []) as [res|] eqn:Hr;
    [|discriminate].
  rewrite (rangeEntries_mono L p opts d (build fuel) (build fuel') entries [] res
             (fun q j e r' => IH fuel' q j e r' ltac:(lia)) Hr).
  trivial.
Qed.

(** A tree returned under the bound [fuel] has fewer than [fuel] levels,
    and its nodes on the last possible level have no children. *)
Lemma levels_below_fuel fuel :
  forall p i d t,
    buildTreeRecursive L fs fuel p i opts d = Some (Some t, None) ->
    forall j m, at_depth j t m ->
                (j < fuel)%nat /\ (S j = fuel -> Children m = []).
Proof.
  induction fuel as [|fuel IH]; intros p i d t; [discriminate|].
  rewrite buildTreeRecursive_S.
  destruct (depthExceeded opts d); [discriminate|].
  destruct (isExcludedPath L p (ExcludePaths opts)); [discriminate|].
  cbv zeta.
  destruct (String.eqb _ File && _); [discriminate|].
  destruct (String.eqb _ Directory).
  - destruct (readEntries fs p _ opts) as [entries [e|]]; [discriminate|].
    destruct (rangeEntries L (build fuel) p opts d entries []) as [[kids|e]|] eqn:Hr;
      try discriminate.
    intros [= <-] j m Hat.
      destruct (at_depth_inv _ _ _ Hat) as [[-> ->]|(j' & c & -> & Hin & Hc)].
    + split; [lia|]. intros [= <-]. cbn [Children].
      eapply rangeEntries_adds_nothing; [|exact Hr]. discriminate.
    + cbn [Children] in Hin.
      destruct (rangeEntries_children _ _ _ _ _ _ _ _ _ Hr Hin)
        as [[]|(entry & ei & _ & _ & Hcall)].
      destruct (IH _ _ _ _ Hcall _ _ Hc) as [Hlt Hlast]. split; [lia|].
      intros [= Hj]. now apply Hlast.
  - intros [= <-] j m Hat.
      destruct (at_depth_inv _ _ _ Hat) as [[-> ->]|(j' & c & -> & Hin & Hc)].
    + split; [lia|reflexivity].
    + destruct Hin.
Qed.

Section Limited.
Variable k : Z.
Hypothesis HMaxDepth : MaxDepth opts = k.
Hypothesis Hk : 0 <= k < int_max.

Lemma depthExceeded_iff d : depthExceeded opts d = true <-> k < d.
Proof.
  unfold depthExceeded. rewrite HMaxDepth.
  replace (k =? -1) with false by lia. cbn [negb andb]. lia.
Qed.

(** One level below the limit every call gives [(nil, nil)]. *)
Lemma below_limit_nil fuel p i d n e :
  k < d ->
  buildTreeRecursive L fs fuel p i opts d = Some (n, e) ->
  n = None /\ e = None.
Proof.
  intros Hd. destruct fuel as [|fuel]; [discriminate|].
  rewrite filteredOut_nil_nil; [now intros [= <- <-]|].
  unfold filteredOut. apply depthExceeded_iff in Hd. now rewrite Hd.
Qed.

(** In a tree returned by a call at depth [d], a node [j] levels down is
    at depth [d + j], which is at most [k]; at depth [k] it is a leaf. *)
Lemma levels_within_limit fuel :
  forall p i d t,
    0 <= d ->
    buildTreeRecursive L fs fuel p i opts d = Some (Some t, None) ->
    forall j m, at_depth j t m ->
                d + Z.of_nat j <= k /\ (d + Z.of_nat j = k -> Children m = []).
Proof.
  induction fuel as [|fuel IH]; intros p i d t Hd; [discriminate|].
  rewrite buildTreeRecursive_S.
  destruct (depthExceeded opts d) eqn:Hx; [discriminate|].
  assert (Hdk : d <= k).
  { destruct (Z.le_gt_cases d k) as [|Hgt]; [assumption|].
    apply depthExceeded_iff in Hgt. congruence. }
  destruct (isExcludedPath L p (ExcludePaths opts)); [discriminate|].
  cbv zeta.
  destruct (String.eqb _ File && _); [discriminate|].
  destruct (String.eqb _ Directory).
  - destruct (readEntries fs p _ opts) as [entries [e|]]; [discriminate|].
    destruct (rangeEntries L (build fuel) p opts d entries []) as [[kids|e]|] eqn:Hr;
      try discriminate.
    intros [= <-] j m Hat.
    destruct (at_depth_inv _ _ _ Hat) as [[-> ->]|(j' & c & -> & Hin & Hc)].
    + split; [lia|]. intros Heq. cbn [Children].
      eapply rangeEntries_adds_nothing; [|exact Hr].
      intros q ei n e. apply below_limit_nil.
      rewrite int_add_1; [lia|unfold int_min; lia].
    + cbn [Children] in Hin.
      destruct (rangeEntries_children _ _ _ _ _ _ _ _ _ Hr Hin)
        as [[]|(entry & ei & _ & _ & Hcall)].
      rewrite int_add_1 in Hcall by (unfold int_min; lia).
      assert (Hd1 : 0 <= d + 1) by lia.
      destruct (IH _ _ _ _ Hd1 Hcall _ _ Hc) as [Hle Hleaf].
      split; [lia|]. intros Heq. apply Hleaf. lia.
  - intros [= <-] j m Hat.
    destruct (at_depth_inv _ _ _ Hat) as [[-> ->]|(j' & c & -> & Hin & Hc)].
    + split; [lia|reflexivity].
    + destruct Hin.
Qed.

(** A call at depth [d] returns when [k + 1 - d] further levels of
    nesting are available. *)
Lemma returns_within_limit n :
  forall p i d,
    0 <= d -> d + Z.of_nat n = k + 1 ->
    exists r, buildTreeRecursive L fs (S n) p i opts d = Some r.
Proof.
  induction n as [|n IH]; intros p i d Hd Hn.
  - rewrite filteredOut_nil_nil; [eexists; reflexivity|].
    unfold filteredOut.
    assert (Hx : depthExceeded opts d = true) by (apply depthExceeded_iff; lia).
    now rewrite Hx.
  - rewrite buildTreeRecursive_S.
    destruct (depthExceeded opts d); [eexists; reflexivity|].
    destruct (isExcludedPath L p (ExcludePaths opts)); [eexists; reflexivity|].
    cbv zeta.
    destruct (String.eqb _ File && _); [eexists; reflexivity|].
    destruct (String.eqb _ Directory); [|eexists; reflexivity].
    destruct (readEntries fs p _ opts) as [entries [e|]]; [eexists; reflexivity|].
    destruct (rangeEntries_returns L p opts d (build (S n)) entries [])
      as [[kids|e] ->]; [|eexists; reflexivity..].
    intros q ei. rewrite int_add_1 by (unfold int_min; lia).
    apply IH; lia.
Qed.

End Limited.

End Fuel.

(* ================================================================= *)
(** ** The depth limit *)

(** C5. For every [maxDepth = k >= 0], the tree returned by [BuildTree] has
    no node at a depth greater than [k], and every node at depth exactly
    [k] is a leaf, also when it is a directory with entries; with [k = 1]
    that is the root and its immediate children.  The depth counter is an
    [int]: it counts exactly as long as [k + 1] is an [int] or the calls
    nest at most [2^63] deep, and one of the two is assumed. *)
Theorem BuildTree_depth_limit (L : GoLib) (fs : os.FileSystem) (fuel : nat)
        (opts : BuildOptions) (k : Z) (t : Node) :
  MaxDepth opts = k ->
  0 <= k ->
  k < int_max \/ Z.of_nat fuel <= 2 ^ 63 ->
  BuildTree L fs fuel opts = Some (Some t, None) ->
  forall j m, at_depth j t m ->
              Z.of_nat j <= k /\ (Z.of_nat j = k -> Children m = []).
Proof.
  intros HM Hk Hexact H j m Hat. unfold BuildTree in H.
  destruct (os.Stat fs (Path_ opts)) as [info|e]; [|discriminate].
  destruct (Z.lt_ge_cases k int_max) as [Hlt|Hge].
  - exact (levels_within_limit L fs opts k HM (conj Hk Hlt) fuel _ _ 0 t
             (Z.le_refl 0) H j m Hat).
  - destruct Hexact as [Hlt|Hfuel]; [lia|].
    destruct (levels_below_fuel L fs opts fuel _ _ _ _ H j m Hat) as [Hj Hlast].
    unfold int_max in Hge. split; [lia|].
    intros Heq. apply Hlast. lia.
Qed.

Lemma BuildTree_depth_limit_witness :
  BuildTree Sample.lib Sample.scenarioFS 3 (Sample.scenarioOpts 1 [])
  = Some (Some (mkNode "root" "root" Directory 0
                  [Some (mkNode "a.txt" "root/a.txt" File 10 [] false);
                   Some (mkNode "b.go" "root/b.go" File 5 [] false);
                   Some (mkNode "sub" "root/sub" Directory 0 [] false)] false), None) /\
  (forall j m,
      at_depth j (mkNode "root" "root" Directory 0
                  [Some (mkNode "a.txt" "root/a.txt" File 10 [] false);
                   Some (mkNode "b.go" "root/b.go" File 5 [] false);
                   Some (mkNode "sub" "root/sub" Directory 0 [] false)] false) m ->
      Z.of_nat j <= 1 /\ (Z.of_nat j = 1 -> Children m = [])).
Proof.
  split; [reflexivity|].
  apply (BuildTree_depth_limit Sample.lib Sample.scenarioFS 3
                               (Sample.scenarioOpts 1 []) 1).
  - reflexivity.
  - discriminate.
  - left. reflexivity.
  - reflexivity.
Defined.

(* ================================================================= *)
(** ** Termination *)

Lemma nests_inv (L : GoLib) (fs : os.FileSystem) (n : nat) (p : string) :
  nests L fs (S n) p ->
  exists entries entry entryInfo,
    os.ReadDir fs p = Ok entries /\ In entry entries /\
    os.Info entry = Ok entryInfo /\
    nests L fs n (filepath_Join L p (os.Name entryInfo)).
Proof. intros H. inversion H; subst. eauto 10. Qed.

(** A chain of listings has every shorter chain as its beginning. *)
Lemma nests_le (L : GoLib) (fs : os.FileSystem) (n : nat) :
  forall m p, (m <= n)%nat -> nests L fs n p -> nests L fs m p.
Proof.
  induction n as [|n IH]; intros m p Hle H.
  - replace m with O by lia. constructor.
  - destruct m as [|m]; [constructor|].
    apply nests_inv in H as (entries & entry & entryInfo & Hr & Hin & Hi & Hn).
    econstructor; [exact Hr|exact Hin|exact Hi|].
    apply IH; [lia|exact Hn].
Qed.

Section Finite.
Variable L : GoLib.
Variable fs : os.FileSystem.
Variable opts : BuildOptions.

(** The loop returns when the call returns on every entry of the listing
    whose metadata can be read. *)
Lemma rangeEntries_returns_listed recur p d entries :
  (forall entry entryInfo,
      In entry entries -> os.Info entry = Ok entryInfo ->
      exists r, recur (filepath_Join L p (os.Name entryInfo)) entryInfo (int_add d 1)
                = Some r) ->
  forall children,
  exists res, rangeEntries L recur p opts d entries children = Some res.
Proof.
  induction entries as [|entry entries IH]; intros Hrec children;
    [eexists; reflexivity|].
  assert (Hrest : forall children,
             exists res, rangeEntries L recur p opts d entries children = Some res).
  { apply IH. intros e ei Hin. apply Hrec. now right. }
  cbn [rangeEntries].
  destruct (os.Info entry) as [entryInfo|] eqn:Hi; [|apply Hrest].
  destruct (negb (IncludeFiles opts) && negb (os.IsDir entryInfo)); [apply Hrest|].
  destruct (Hrec entry entryInfo (or_introl eq_refl) Hi)
    as [[[child|] [err|]] ->]; cbn beta iota;
    try apply Hrest; eexists; reflexivity.
Qed.

(** Where no chain of [n] listings starts, [n] nested calls are enough,
    whatever the depth limit and the depth counted so far. *)
Lemma returns_without_nesting n :
  forall p i d,
    ~ nests L fs n p ->
    exists r, buildTreeRecursive L fs n p i opts d = Some r.
Proof.
  induction n as [|n IH]; intros p i d Hn.
  - destruct Hn. constructor.
  - rewrite buildTreeRecursive_S.
    destruct (depthExceeded opts d); [eexists; reflexivity|].
    destruct (isExcludedPath L p (ExcludePaths opts)); [eexists; reflexivity|].
    cbv zeta.
    destruct (String.eqb _ File && _); [eexists; reflexivity|].
    destruct (String.eqb_spec (fst (nodeTypeAndSize fs p i opts)) Directory)
      as [Hty|_]; [|eexists; reflexivity].
    rewrite Hty, readEntries_Directory.
    destruct (os.ReadDir fs p) as [entries|e] eqn:Hread; [|eexists; reflexivity].
    destruct (rangeEntries_returns_listed
                (fun q j e => buildTreeRecursive L fs n q j opts e) p d entries)
      with (children := @nil (option Node)) as [[kids|e] ->];
      [|eexists; reflexivity..].
    intros entry entryInfo Hin Hi. apply IH. intros Hbelow. apply Hn.
    econstructor; [exact Hread|exact Hin|exact Hi|exact Hbelow].
Qed.

End Finite.

(** C9. For every [maxDepth = k >= 0], [BuildTree] returns on every file
    system, symlink cycles with [FollowLinks] included: [k + 2] nested
    calls are enough, and any larger bound gives the same result.  The
    depth counter is an [int]: the depth check ends the descent as long as
    [k + 1] is an [int]; with the largest [int] the descent ends where the
    file system does, which is then assumed to nest fewer than [2^63]
    listings below the root. *)
Theorem BuildTree_returns_within_MaxDepth (L : GoLib) (fs : os.FileSystem)
        (opts : BuildOptions) (k : Z) :
  MaxDepth opts = k ->
  0 <= k ->
  k < int_max \/ ~ nests L fs (Z.to_nat (2 ^ 63)) (Path_ opts) ->
  exists r, forall fuel, (Z.to_nat k + 2 <= fuel)%nat ->
                         BuildTree L fs fuel opts = Some r.
Proof.
  intros HM Hk Hends. unfold BuildTree.
  destruct (os.Stat fs (Path_ opts)) as [info|e]; [|eexists; reflexivity].
  destruct (Z.lt_ge_cases k int_max) as [Hlt|Hge].
  - destruct (returns_within_limit L fs opts k HM (conj Hk Hlt) (S (Z.to_nat k))
                                   (Path_ opts) info 0)
      as [r Hr]; [lia|lia|].
    exists r. intros fuel Hfuel.
    apply (buildTreeRecursive_mono L fs opts (S (S (Z.to_nat k)))); [lia|exact Hr].
  - destruct Hends as [Hlt|Hends]; [lia|].
    destruct (returns_without_nesting L fs opts _ (Path_ opts) info 0 Hends)
      as [r Hr].
    exists r. intros fuel Hfuel.
    apply (buildTreeRecursive_mono L fs opts (Z.to_nat (2 ^ 63))); [|exact Hr].
    unfold int_max in Hge. lia.
Qed.

Lemma BuildTree_returns_within_MaxDepth_witness :
  exists r, forall fuel, (Z.to_nat 2 + 2 <= fuel)%nat ->
                         BuildTree Sample.lib Sample.cycleFS fuel (Sample.cycleOpts 2)
                         = Some r.
Proof.
  apply (BuildTree_returns_within_MaxDepth Sample.lib Sample.cycleFS
                                           (Sample.cycleOpts 2) 2).
  - reflexivity.
  - discriminate.
  - left. reflexivity.
Defined.

(** On the symlink cycle with [maxDepth = 2]: three levels. *)
Example BuildTree_cycle_depth_2 :
  BuildTree Sample.lib Sample.cycleFS 4 (Sample.cycleOpts 2)
  = Some (Some (mkNode "a" "a" Directory 0
            [Some (mkNode "loop" "a/loop" Directory 0
               [Some (mkNode "loop" "a/loop/loop" Directory 0 [] false)] false)]
            false), None).
Proof. reflexivity. Qed.

(** On the symlink cycle with [maxDepth] the largest [int] the depth check
    never holds; the build goes down until [os.ReadDir] refuses the path
    with 41 links, and returns that error. *)
Example BuildTree_cycle_int_max :
  BuildTree Sample.lib Sample.cycleFS 42 (Sample.cycleOpts int_max)
  = Some (None,
          Some ("error reading directory " ++ Sample.cyclePath 41 ++ ": "
                ++ Sample.tooManyLinks "open" (Sample.cyclePath 41))%string).
Proof. vm_compute. reflexivity. Qed.

(** Strings of the cycle. *)
Lemma string_app_assoc (a b c : string) : ((a ++ b) ++ c = a ++ (b ++ c))%string.
Proof. induction a as [|x a IH]; cbn; [reflexivity|now rewrite IH]. Qed.

Lemma string_length_app (a b : string) :
  String.length (a ++ b) = (String.length a + String.length b)%nat.
Proof. induction a as [|x a IH]; cbn; [reflexivity|now rewrite IH]. Qed.

Lemma repeat_string_snoc (s : string) (n : nat) :
  (repeat_string s n ++ s = s ++ repeat_string s n)%string.
Proof.
  induction n as [|n IH]; cbn [repeat_string].
  - cbn. induction s as [|x s IHs]; cbn; [reflexivity|now f_equal].
  - now rewrite string_app_assoc, IH.
Qed.

Lemma cyclePath_Join (n : nat) :
  Sample.Join (Sample.cyclePath n) "loop" = Sample.cyclePath (S n).
Proof.
  unfold Sample.Join, Sample.cyclePath. cbn [repeat_string].
  change ("/" ++ "loop")%string with "/loop"%string.
  now rewrite string_app_assoc, repeat_string_snoc.
Qed.

Lemma cyclePath_length (n : nat) :
  String.length (Sample.cyclePath n) = (1 + 5 * n)%nat.
Proof.
  unfold Sample.cyclePath. rewrite string_length_app. cbn [String.length].
  induction n as [|n IH]; cbn [repeat_string]; [reflexivity|].
  rewrite string_length_app. cbn [String.length]. lia.
Qed.

Lemma cycleLinks_cyclePath (n : nat) :
  Sample.cycleLinks (Sample.cyclePath n) = Some n.
Proof.
  unfold Sample.cycleLinks.
  destruct (find _ _) as [m|] eqn:Hf.
  - apply find_some in Hf as [_ Heq]. apply String.eqb_eq in Heq.
    apply (f_equal String.length) in Heq. rewrite !cyclePath_length in Heq.
    f_equal. lia.
  - apply find_none with (x := n) in Hf.
    + now rewrite String.eqb_refl in Hf.
    + apply in_seq. rewrite cyclePath_length. lia.
Qed.

(** Below a path of the cycle with [i] links there are at most [40 - i]
    further levels that can be listed. *)
Lemma cycle_nests (j : nat) :
  forall i, nests Sample.lib Sample.cycleFS (S j) (Sample.cyclePath i) ->
            (i + j <= 40)%nat.
Proof.
  induction j as [|j IH]; intros i H;
    apply nests_inv in H as (entries & entry & entryInfo & Hr & Hin & Hi & Hn);
    cbn [os.ReadDir Sample.cycleFS] in Hr; rewrite cycleLinks_cyclePath in Hr;
    destruct (Nat.leb_spec i 40) as [Hle|]; try discriminate.
  - lia.
  - injection Hr as <-. destruct Hin as [<-|[]].
    injection Hi as <-.
    change (filepath_Join Sample.lib (Sample.cyclePath i)
                          (os.Name (Sample.linkInfo "loop" 1)))
      with (Sample.Join (Sample.cyclePath i) "loop") in Hn.
    rewrite cyclePath_Join in Hn. apply IH in Hn. lia.
Qed.

(** The symlink cycle nests 41 listings and no more: the assumption of
    the theorem on a file system holds of it. *)
Example cycle_nesting_ends :
  nests Sample.lib Sample.cycleFS 41 (Path_ (Sample.cycleOpts int_max)) /\
  ~ nests Sample.lib Sample.cycleFS (Z.to_nat (2 ^ 63))
          (Path_ (Sample.cycleOpts int_max)).
Proof.
  split.
  - do 41 (eapply nests_entry;
           [vm_compute; reflexivity|now left|reflexivity|]).
    constructor.
  - intros H. apply (nests_le _ _ _ 42%nat) in H; [|lia].
    change (Path_ (Sample.cycleOpts int_max)) with (Sample.cyclePath 0) in H.
    apply cycle_nests in H. lia.
Qed.

(* ================================================================= *)
(** ** Errors on the way up *)

Section Abort.
Variable L : GoLib.
Variable fs : os.FileSystem.
Variable opts : BuildOptions.

(** An error returned by a call that the build comes to is the result of
    every call above it. *)
Lemma issues_error_propagates fuel p i d fuel' p' i' d' n err :
  issues L fs opts fuel p i d fuel' p' i' d' ->
  buildTreeRecursive L fs fuel' p' i' opts d' = Some (n, Some err) ->
  buildTreeRecursive L fs fuel p i opts d = Some (None, Some err).
Proof.
  intros Hiss Herr.
  induction Hiss as [fuel p i d
                    |fuel p i d before entry after entryInfo kids fuel' p' i' d'
                          Hkeep Hdir Hread Hbefore Hinfo Hflag Hiss IH].
  - destruct (buildTreeRecursive_exclusive _ _ _ _ _ _ _ _ _ Herr) as [->|];
      [assumption|discriminate].
  - specialize (IH Herr). rewrite buildTreeRecursive_S.
    unfold filteredOut in Hkeep.
    apply orb_false_iff in Hkeep as [Hkeep Htype].
    apply orb_false_iff in Hkeep as [Hdepth Hpath].
    rewrite Hdepth, Hpath. cbv zeta. rewrite Htype, Hdir.
    replace (String.eqb Directory Directory) with true by reflexivity.
    rewrite readEntries_Directory, Hread.
    rewrite (rangeEntries_app _ _ _ _ _ _ _ _ _ Hbefore).
    now rewrite (rangeEntries_error _ _ _ _ _ _ _ _ _ _ _ (conj Hinfo Hflag) IH).
Qed.

(** At the depth limit, whatever the listing holds, no child is added. *)
Lemma no_children_at_limit fuel p entries :
  0 <= MaxDepth opts < int_max ->
  rangeEntries L (fun q j e => buildTreeRecursive L fs (S fuel) q j opts e)
               p opts (MaxDepth opts) entries [] = Some (Ok []).
Proof.
  intros Hk. apply rangeEntries_all_nil. intros q j.
  apply filteredOut_nil_nil. unfold filteredOut.
  rewrite (proj2 (depthExceeded_iff opts (MaxDepth opts) eq_refl Hk _));
    [reflexivity|].
  rewrite int_add_1; [lia|unfold int_min; lia].
Qed.

End Abort.

(** C10. A directory node at depth exactly [maxDepth] still has its listing
    read: when the build comes to such a directory and [os.ReadDir] fails
    on it, [BuildTree] returns nil and the directory-read error, although,
    whatever the listing had held, none of its entries would have become a
    child. *)
Theorem unreadable_directory_at_MaxDepth_aborts
        (L : GoLib) (fs : os.FileSystem) (opts : BuildOptions)
        (rootInfo : os.FileInfo) (fuel0 fuel : nat)
        (p : string) (i : os.FileInfo) (e : error) :
  os.Stat fs (Path_ opts) = Ok rootInfo ->
  0 <= MaxDepth opts < int_max ->
  issues L fs opts fuel0 (Path_ opts) rootInfo 0 (S fuel) p i (MaxDepth opts) ->
  isExcludedPath L p (ExcludePaths opts) = false ->
  fst (nodeTypeAndSize fs p i opts) = Directory ->
  os.ReadDir fs p = Err e ->
  BuildTree L fs fuel0 opts
  = Some (None, Some ("error reading directory " ++ p ++ ": " ++ e)%string) /\
  (forall fuel' entries,
      rangeEntries L (fun q j x => buildTreeRecursive L fs (S fuel') q j opts x)
                   p opts (MaxDepth opts) entries [] = Some (Ok [])).
Proof.
  intros Hstat Hk Hiss Hpath Hdir Hread. split.
  - unfold BuildTree. rewrite Hstat.
    apply (issues_error_propagates L fs opts _ _ _ _ _ _ _ _ None _ Hiss).
    rewrite buildTreeRecursive_S.
    replace (depthExceeded opts (MaxDepth opts)) with false.
    + rewrite Hpath. cbv zeta. rewrite Hdir.
      replace (String.eqb Directory File) with false by reflexivity.
      replace (String.eqb Directory Directory) with true by reflexivity.
      cbn [andb]. now rewrite readEntries_Directory, Hread.
    + symmetry. unfold depthExceeded.
      replace (MaxDepth opts >? MaxDepth opts) with false by lia.
      apply andb_false_r.
  - intros fuel' entries. now apply no_children_at_limit.
Qed.

Lemma unreadable_directory_at_MaxDepth_aborts_witness :
  BuildTree Sample.lib Sample.lockedFS 2 Sample.lockedOpts
  = Some (None, Some "error reading directory root/locked: permission denied"%string) /\
  (forall fuel' entries,
      rangeEntries Sample.lib
                   (fun q j x => buildTreeRecursive Sample.lib Sample.lockedFS (S fuel')
                                                    q j Sample.lockedOpts x)
                   "root/locked" Sample.lockedOpts 1 entries [] = Some (Ok [])).
Proof.
  apply (unreadable_directory_at_MaxDepth_aborts
           Sample.lib Sample.lockedFS Sample.lockedOpts (Sample.dirInfo "root")
           2 0 "root/locked" (Sample.dirInfo "locked") "permission denied").
  - reflexivity.
  - split; [discriminate|reflexivity].
  - apply (issues_below Sample.lib Sample.lockedFS Sample.lockedOpts 1 "root"
                        (Sample.dirInfo "root") 0 []
                        (Sample.entry (Sample.dirInfo "locked")) []
                        (Sample.dirInfo "locked") []);
      try reflexivity.
    apply issues_here.
  - reflexivity.
  - reflexivity.
  - reflexivity.
Defined.

(* ================================================================= *)
(** ** More on the loop over the entries *)

Section LoopMore.
Variable L : GoLib.
Variable currentPath : string.
Variable opts : BuildOptions.
Variable currentDepth : Z.

Local Abbreviation loop recur := (rangeEntries L recur currentPath opts currentDepth).

Lemma rangeEntries_ext recur recur' entries children :
  (forall p i, recur p i (int_add currentDepth 1) = recur' p i (int_add currentDepth 1)) ->
  loop recur entries children = loop recur' entries children.
Proof.
  intros Hrec. revert children.
  induction entries as [|entry entries IH]; intros children; [reflexivity|].
  cbn [rangeEntries].
  destruct (os.Info entry) as [entryInfo|]; [|apply IH].
  destruct (negb (IncludeFiles opts) && negb (os.IsDir entryInfo)); [apply IH|].
  rewrite Hrec.
  destruct (recur' _ _ _) as [[[child|] [err|]]|]; trivial; apply IH.
Qed.

(** An entry whose metadata cannot be read leaves no trace. *)
Lemma rangeEntries_readable recur entries children :
  loop recur (filter readable entries) children = loop recur entries children.
Proof.
  revert children. induction entries as [|entry entries IH]; intros children;
    [reflexivity|].
  cbn [filter]. unfold readable at 1.
  destruct (os.Info entry) as [entryInfo|] eqn:Hi; cbn [rangeEntries]; rewrite Hi;
    [|apply IH].
  destruct (negb (IncludeFiles opts) && negb (os.IsDir entryInfo)); [apply IH|].
  destruct (recur _ _ _) as [[[child|] [err|]]|]; trivial; apply IH.
Qed.

(** The loop only appends, and what it appends are nodes, not nil: each is
    the result of the recursive call for an entry descended into. *)
Lemma rangeEntries_appends recur entries children res :
  loop recur entries children = Some (Ok res) ->
  exists kids,
    res = (children ++ kids)%list /\
    forall o, In o kids ->
      exists entry entryInfo c,
        o = Some c /\ In entry entries /\ descended opts entry entryInfo /\
        recur (filepath_Join L currentPath (os.Name entryInfo)) entryInfo
              (int_add currentDepth 1) = Some (Some c, None).
Proof.
  revert children. induction entries as [|entry entries IH]; intros children.
  - cbn. intros [= <-]. exists []. split; [now rewrite app_nil_r|]. intros o [].
  - cbn [rangeEntries]. intros H.
    assert (Hlater : forall kids0,
               loop recur entries kids0 = Some (Ok res) ->
               exists kids,
                 res = (kids0 ++ kids)%list /\
                 forall o, In o kids ->
                   exists entry' entryInfo c,
                     o = Some c /\ In entry' (entry :: entries) /\
                     descended opts entry' entryInfo /\
                     recur (filepath_Join L currentPath (os.Name entryInfo)) entryInfo
                           (int_add currentDepth 1) = Some (Some c, None)).
    { intros kids0 Hk. destruct (IH kids0 Hk) as (kids & -> & Hkids).
      exists kids. split; [reflexivity|]. intros o Ho.
      destruct (Hkids o Ho) as (e & i & c & -> & He & Hd).
      exists e, i, c. cbn. tauto. }
    destruct (os.Info entry) as [entryInfo|] eqn:Hi; [|now apply Hlater].
    destruct (negb (IncludeFiles opts) && negb (os.IsDir entryInfo)) eqn:Hs;
      [now apply Hlater|].
    destruct (recur _ _ _) as [[[child|] [err|]]|] eqn:Hr; try discriminate;
      try now apply Hlater.
    destruct (Hlater _ H) as (kids & -> & Hkids).
    exists (Some child :: kids). split; [now rewrite <- app_assoc|].
    intros o [<-|Ho]; [|now apply Hkids].
    exists entry, entryInfo, child. cbn. unfold descended. auto.
Qed.

(** An error of the loop is the error of one of the recursive calls. *)
Lemma rangeEntries_error_from_call recur entries children err :
  loop recur entries children = Some (Err err) ->
  exists p i n, recur p i (int_add currentDepth 1) = Some (n, Some err).
Proof.
  revert children. induction entries as [|entry entries IH]; intros children;
    [discriminate|].
  cbn [rangeEntries].
  destruct (os.Info entry) as [entryInfo|]; [|apply IH].
  destruct (negb (IncludeFiles opts) && negb (os.IsDir entryInfo)); [apply IH|].
  destruct (recur _ _ _) as [[[child|] [e|]]|] eqn:Hr; try discriminate;
    try apply IH; intros [= ->]; eauto.
Qed.

(** The names of the nodes appended follow the order of the listing. *)
Lemma rangeEntries_order recur entries children res :
  (forall p i d c, recur p i d = Some (Some c, None) -> Name c = os.Name i) ->
  loop recur entries children = Some (Ok res) ->
  exists kids, res = (children ++ kids)%list /\
               Subseq (childNames kids) (entryNames entries).
Proof.
  intros Hname. revert children.
  induction entries as [|entry entries IH]; intros children.
  - cbn. intros [= <-]. exists []. split; [now rewrite app_nil_r|constructor].
  - cbn [rangeEntries entryNames].
    destruct (os.Info entry) as [entryInfo|]; [|apply IH].
    assert (Hskip : forall kids0,
               loop recur entries kids0 = Some (Ok res) ->
               exists kids, res = (kids0 ++ kids)%list /\
                            Subseq (childNames kids)
                                   (os.Name entryInfo :: entryNames entries)).
    { intros kids0 Hk. destruct (IH _ Hk) as (kids & -> & Hs).
      exists kids. split; [reflexivity|now constructor]. }
    destruct (negb (IncludeFiles opts) && negb (os.IsDir entryInfo));
      [apply Hskip|].
    destruct (recur _ _ _) as [[[child|] [err|]]|] eqn:Hr; try discriminate;
      try apply Hskip.
    intros H. destruct (IH _ H) as (kids & -> & Hs).
    exists (Some child :: kids). split; [now rewrite <- app_assoc|].
    cbn [childNames]. rewrite (Hname _ _ _ _ Hr). now constructor.
Qed.

End LoopMore.

(* ================================================================= *)
(** ** What every node of a returned tree satisfies *)

Section Nodes.
Variable L : GoLib.
Variable fs : os.FileSystem.
Variable opts : BuildOptions.

Local Abbreviation build fuel := (fun p i d => buildTreeRecursive L fs fuel p i opts d).

Lemma nodeType_Directory_size p i :
  fst (nodeTypeAndSize fs p i opts) = Directory ->
  snd (nodeTypeAndSize fs p i opts) = 0.
Proof.
  unfold nodeTypeAndSize.
  destruct (os.IsDir i); [reflexivity|].
  destruct (negb _); [|discriminate].
  destruct (FollowLinks opts); [|discriminate].
  destruct (os.EvalSymlinks fs p) as [tp|]; [|discriminate].
  destruct (os.Stat fs tp) as [ti|]; [|discriminate].
  destruct (os.IsDir ti); [reflexivity|discriminate].
Qed.

(** The node returned by one call, field by field. *)
Lemma returned_node fuel p i d t :
  buildTreeRecursive L fs fuel p i opts d = Some (Some t, None) ->
  Name t = os.Name i /\ Path t = p /\
  Type_ t = fst (nodeTypeAndSize fs p i opts) /\
  Size t = snd (nodeTypeAndSize fs p i opts) /\
  IsHidden t = isHiddenFile (os.Name i) /\
  filteredOut L fs p i opts d = false /\
  (Type_ t <> Directory -> Children t = []).
Proof.
  destruct fuel as [|fuel]; [discriminate|].
  rewrite buildTreeRecursive_S. unfold filteredOut.
  destruct (depthExceeded opts d); [discriminate|].
  destruct (isExcludedPath L p (ExcludePaths opts)); [discriminate|].
  cbv zeta.
  destruct (String.eqb _ File && _); [discriminate|].
  destruct (String.eqb _ Directory) eqn:Hdir.
  - destruct (readEntries fs p _ opts) as [entries [e|]]; [discriminate|].
    destruct (rangeEntries L _ p opts d entries []) as [[kids|e]|]; try discriminate.
    intros [= <-]. cbn. repeat split; trivial.
    apply String.eqb_eq in Hdir. congruence.
  - intros [= <-]. cbn. repeat split; trivial.
Qed.

(** The children of the node returned by one call. *)
Lemma returned_children fuel p i d t o :
  buildTreeRecursive L fs fuel p i opts d = Some (Some t, None) ->
  In o (Children t) ->
  exists fuel' entries entry entryInfo c,
    fuel = S fuel' /\ o = Some c /\
    os.ReadDir fs p = Ok entries /\ In entry entries /\
    descended opts entry entryInfo /\
    buildTreeRecursive L fs fuel' (filepath_Join L p (os.Name entryInfo)) entryInfo
                       opts (int_add d 1) = Some (Some c, None).
Proof.
  destruct fuel as [|fuel]; [discriminate|].
  rewrite buildTreeRecursive_S.
  destruct (depthExceeded opts d); [discriminate|].
  destruct (isExcludedPath L p (ExcludePaths opts)); [discriminate|].
  cbv zeta.
  destruct (String.eqb _ File && _); [discriminate|].
  destruct (String.eqb _ Directory) eqn:Hdir.
  - apply String.eqb_eq in Hdir. rewrite Hdir, readEntries_Directory.
    destruct (os.ReadDir fs p) as [entries|e]; [|discriminate].
    destruct (rangeEntries L (build fuel) p opts d entries []) as [[kids|e]|] eqn:Hr;
      try discriminate.
    intros [= <-]. cbn [Children]. intros Hin.
    destruct (rangeEntries_appends _ _ _ _ _ _ _ _ Hr) as (kids' & -> & Hkids).
    destruct (Hkids o Hin) as (entry & ei & c & -> & He & Hd & Hc).
    exists fuel, entries, entry, ei, c. auto 10.
  - intros [= <-] [].
Qed.

(** Every node of a returned tree is itself what some call returned. *)
Lemma node_is_returned j : forall fuel p i d t m,
  buildTreeRecursive L fs fuel p i opts d = Some (Some t, None) ->
  at_depth j t m ->
  exists fuel' p' i' d',
    buildTreeRecursive L fs fuel' p' i' opts d' = Some (Some m, None).
Proof.
  induction j as [|j IH]; intros fuel p i d t m H Hat;
    destruct (at_depth_inv _ _ _ Hat) as [[Hj ->]|(j' & c & Hj & Hin & Hc)];
    try discriminate.
  - eauto.
  - injection Hj as <-.
    destruct (returned_children _ _ _ _ _ _ H Hin)
      as (fuel' & entries & entry & ei & c' & _ & [= <-] & _ & _ & _ & Hcall).
    eapply IH; eassumption.
Qed.

(** Errors of the recursive builder are directory-read errors. *)
Lemma buildTreeRecursive_error fuel : forall p i d n err,
  buildTreeRecursive L fs fuel p i opts d = Some (n, Some err) ->
  exists q e, os.ReadDir fs q = Err e /\
              err = ("error reading directory " ++ q ++ ": " ++ e)%string.
Proof.
  induction fuel as [|fuel IH]; intros p i d n err; [discriminate|].
  rewrite buildTreeRecursive_S.
  destruct (depthExceeded opts d); [discriminate|].
  destruct (isExcludedPath L p (ExcludePaths opts)); [discriminate|].
  cbv zeta.
  destruct (String.eqb _ File && _); [discriminate|].
  destruct (String.eqb _ Directory) eqn:Hdir; [|discriminate].
  apply String.eqb_eq in Hdir. rewrite Hdir, readEntries_Directory.
  destruct (os.ReadDir fs p) as [entries|e] eqn:Hread.
  - destruct (rangeEntries L (build fuel) p opts d entries []) as [[kids|e]|] eqn:Hr;
      try discriminate.
    intros [= <- <-].
    destruct (rangeEntries_error_from_call _ _ _ _ _ _ _ _ Hr) as (q & j & n & Hc).
    eapply IH; exact Hc.
  - intros [= <- <-]. eauto.
Qed.

End Nodes.

(** X1. In a tree returned by [BuildTree] no node has a path that an
    exclusion pattern matches, and no file node has an excluded
    extension. *)
Theorem BuildTree_no_excluded_node (L : GoLib) (fs : os.FileSystem) (fuel : nat)
        (opts : BuildOptions) (t : Node) :
  BuildTree L fs fuel opts = Some (Some t, None) ->
  forall j m, at_depth j t m ->
    isExcludedPath L (Path m) (ExcludePaths opts) = false /\
    (Type_ m = File -> isExcludedType L (Path m) (ExcludeTypes opts) = false).
Proof.
  unfold BuildTree. destruct (os.Stat fs (Path_ opts)) as [info|]; [|discriminate].
  intros H j m Hat.
  destruct (node_is_returned L fs opts j _ _ _ _ _ _ H Hat) as (f & p & i & d & Hm).
  destruct (returned_node L fs opts _ _ _ _ _ Hm) as (_ & Hp & Ht & _ & _ & Hf & _).
  unfold filteredOut in Hf.
  apply orb_false_iff in Hf as [Hf Htype]. apply orb_false_iff in Hf as [_ Hpath].
  rewrite Hp. split; [exact Hpath|].
  intros HF. rewrite <- Ht, HF in Htype. exact Htype.
Qed.

Lemma BuildTree_no_excluded_node_witness :
  exists t,
    BuildTree Sample.lib Sample.scenarioFS 3
              {| Path_ := "root"; MaxDepth := -1; ExcludePaths := ["a.*t$"];
                 ExcludeTypes := [".GO"]; IncludeFiles := true;
                 FollowLinks := false |} = Some (Some t, None) /\
    forall j m, at_depth j t m ->
      isExcludedPath Sample.lib (Path m) ["a.*t$"] = false /\
      (Type_ m = File -> isExcludedType Sample.lib (Path m) [".GO"] = false).
Proof.
  eexists. split; [reflexivity|].
  apply (BuildTree_no_excluded_node Sample.lib Sample.scenarioFS 3
           {| Path_ := "root"; MaxDepth := -1; ExcludePaths := ["a.*t$"];
              ExcludeTypes := [".GO"]; IncludeFiles := true;
              FollowLinks := false |}).
  reflexivity.
Defined.

(** X2. Every node of a returned tree has one of the three types; a node
    that is not a directory has no children; a directory has size 0; the
    hidden flag is set exactly when the name starts with a dot; and no child
    pointer is nil. *)
Theorem BuildTree_nodes_well_formed (L : GoLib) (fs : os.FileSystem) (fuel : nat)
        (opts : BuildOptions) (t : Node) :
  BuildTree L fs fuel opts = Some (Some t, None) ->
  forall j m, at_depth j t m ->
    (Type_ m = Directory \/ Type_ m = File \/ Type_ m = Symlink) /\
    (Type_ m <> Directory -> Children m = []) /\
    (Type_ m = Directory -> Size m = 0) /\
    (IsHidden m = true <-> exists rest, Name m = String "." rest) /\
    ~ In None (Children m).
Proof.
  unfold BuildTree. destruct (os.Stat fs (Path_ opts)) as [info|]; [|discriminate].
  intros H j m Hat.
  destruct (node_is_returned L fs opts j _ _ _ _ _ _ H Hat) as (f & p & i & d & Hm).
  destruct (returned_node L fs opts _ _ _ _ _ Hm)
    as (Hn & _ & Ht & Hs & Hh & _ & Hleaf).
  split; [rewrite Ht; apply nodeType_cases|].
  split; [exact Hleaf|].
  split; [intros Hd; rewrite Hs; apply nodeType_Directory_size; congruence|].
  split.
  - rewrite Hh, <- Hn. unfold isHiddenFile, HasPrefix.
    destruct (Name m) as [|c rest]; cbn [String.prefix].
    + split; [discriminate|]. now intros [r Hr].
    + destruct (ascii_dec "." c) as [<-|Hne].
      * split; [eauto|now destruct rest].
      * split; [discriminate|]. intros [r [= Hr]]. congruence.
  - intros Hin.
    destruct (returned_children L fs opts _ _ _ _ _ _ Hm Hin)
      as (? & ? & ? & ? & ? & _ & [=] & _).
Qed.

Lemma BuildTree_nodes_well_formed_witness :
  exists t,
    BuildTree Sample.lib Sample.linkToFileFS 3 Sample.linkToFileOpts
    = Some (Some t, None) /\
    forall j m, at_depth j t m ->
      (Type_ m = Directory \/ Type_ m = File \/ Type_ m = Symlink) /\
      (Type_ m <> Directory -> Children m = []) /\
      (Type_ m = Directory -> Size m = 0) /\
      (IsHidden m = true <-> exists rest, Name m = String "." rest) /\
      ~ In None (Children m).
Proof.
  eexists. split; [reflexivity|].
  apply (BuildTree_nodes_well_formed Sample.lib Sample.linkToFileFS 3
                                     Sample.linkToFileOpts).
  reflexivity.
Defined.

Lemma Subseq_nil_l {A : Type} (ys : list A) : Subseq [] ys.
Proof. induction ys; now constructor. Qed.

Section Listing.
Variable L : GoLib.
Variable fs : os.FileSystem.
Variable opts : BuildOptions.

(** The children of a returned directory node are what the loop over its
    listing gives. *)
Lemma returned_listing fuel p i d t :
  buildTreeRecursive L fs fuel p i opts d = Some (Some t, None) ->
  Type_ t = Directory ->
  exists fuel' entries,
    fuel = S fuel' /\ os.ReadDir fs p = Ok entries /\
    rangeEntries L (fun q j e => buildTreeRecursive L fs fuel' q j opts e)
                 p opts d entries [] = Some (Ok (Children t)).
Proof.
  destruct fuel as [|fuel]; [discriminate|].
  rewrite buildTreeRecursive_S.
  destruct (depthExceeded opts d); [discriminate|].
  destruct (isExcludedPath L p (ExcludePaths opts)); [discriminate|].
  cbv zeta.
  destruct (String.eqb _ File && _); [discriminate|].
  destruct (String.eqb _ Directory) eqn:Hdir.
  - apply String.eqb_eq in Hdir. rewrite Hdir, readEntries_Directory.
    destruct (os.ReadDir fs p) as [entries|e]; [|discriminate].
    destruct (rangeEntries L _ p opts d entries []) as [[kids|e]|] eqn:Hr;
      try discriminate.
    intros [= <-] _. cbn [Children]. eauto.
  - intros [= <-]. cbn [Type_]. intros Ht. rewrite Ht in Hdir. discriminate.
Qed.

End Listing.

(** X3. The root of a returned tree carries the path of the options, and
    the path of every other node is [filepath.Join] of its parent's path
    and its own name. *)
Theorem BuildTree_paths (L : GoLib) (fs : os.FileSystem) (fuel : nat)
        (opts : BuildOptions) (t : Node) :
  BuildTree L fs fuel opts = Some (Some t, None) ->
  Path t = Path_ opts /\
  forall j m c, at_depth j t m -> In (Some c) (Children m) ->
                Path c = filepath_Join L (Path m) (Name c).
Proof.
  unfold BuildTree. destruct (os.Stat fs (Path_ opts)) as [info|]; [|discriminate].
  intros H. split.
  - now destruct (returned_node L fs opts _ _ _ _ _ H) as (_ & Hp & _).
  - intros j m c Hat Hin.
    destruct (node_is_returned L fs opts j _ _ _ _ _ _ H Hat) as (f & p & i & d & Hm).
    destruct (returned_node L fs opts _ _ _ _ _ Hm) as (_ & Hp & _).
    destruct (returned_children L fs opts _ _ _ _ _ _ Hm Hin)
      as (f' & es & entry & ei & c' & _ & [= <-] & _ & _ & _ & Hc).
    destruct (returned_node L fs opts _ _ _ _ _ Hc) as (Hn & Hpc & _).
    now rewrite Hpc, Hp, Hn.
Qed.

Lemma BuildTree_paths_witness :
  exists t,
    BuildTree Sample.lib Sample.scenarioFS 3 (Sample.scenarioOpts (-1) [])
    = Some (Some t, None) /\
    Path t = "root"%string /\
    forall j m c, at_depth j t m -> In (Some c) (Children m) ->
                  Path c = Sample.Join (Path m) (Name c).
Proof.
  eexists. split; [reflexivity|].
  apply (BuildTree_paths Sample.lib Sample.scenarioFS 3 (Sample.scenarioOpts (-1) [])).
  reflexivity.
Defined.

(** X4. The children of every node of a returned tree stand in the order
    in which [os.ReadDir] lists the directory: their names are the names of
    the listing with some left out. *)
Theorem BuildTree_children_follow_listing (L : GoLib) (fs : os.FileSystem)
        (fuel : nat) (opts : BuildOptions) (t : Node) :
  BuildTree L fs fuel opts = Some (Some t, None) ->
  forall j m entries,
    at_depth j t m ->
    os.ReadDir fs (Path m) = Ok entries ->
    Subseq (childNames (Children m)) (entryNames entries).
Proof.
  unfold BuildTree. destruct (os.Stat fs (Path_ opts)) as [info|]; [|discriminate].
  intros H j m entries Hat Hread.
  destruct (node_is_returned L fs opts j _ _ _ _ _ _ H Hat) as (f & p & i & d & Hm).
  destruct (returned_node L fs opts _ _ _ _ _ Hm) as (_ & Hp & _ & _ & _ & _ & Hleaf).
  destruct (String.eqb_spec (Type_ m) Directory) as [Hdir|Hdir].
  - destruct (returned_listing L fs opts _ _ _ _ _ Hm Hdir)
      as (f' & es & _ & Hes & Hloop).
    rewrite Hp, Hes in Hread. injection Hread as ->.
    destruct (rangeEntries_order _ _ _ _ _ _ _ _ (fun q j0 e c Hc =>
                proj1 (returned_node L fs opts _ _ _ _ _ Hc)) Hloop)
      as (kids & -> & Hsub).
    exact Hsub.
  - rewrite (Hleaf Hdir). apply Subseq_nil_l.
Qed.

Lemma BuildTree_children_follow_listing_witness :
  exists t,
    BuildTree Sample.lib Sample.scenarioFS 3 (Sample.scenarioOpts (-1) [".go"])
    = Some (Some t, None) /\
    forall j m entries,
      at_depth j t m ->
      os.ReadDir Sample.scenarioFS (Path m) = Ok entries ->
      Subseq (childNames (Children m)) (entryNames entries).
Proof.
  eexists. split; [reflexivity|].
  apply (BuildTree_children_follow_listing
           Sample.lib Sample.scenarioFS 3 (Sample.scenarioOpts (-1) [".go"])).
  reflexivity.
Defined.

(** X5. An error returned by [BuildTree] is one of two: the root could not
    be stat'ed, or some directory could not be listed; the message names
    the path and carries the error of the file system.  Pattern and
    metadata failures never become errors. *)
Theorem BuildTree_error_kinds (L : GoLib) (fs : os.FileSystem) (fuel : nat)
        (opts : BuildOptions) (n : option Node) (err : error) :
  BuildTree L fs fuel opts = Some (n, Some err) ->
  (exists e, os.Stat fs (Path_ opts) = Err e /\
             err = ("error accessing path " ++ Path_ opts ++ ": " ++ e)%string) \/
  (exists q e, os.ReadDir fs q = Err e /\
               err = ("error reading directory " ++ q ++ ": " ++ e)%string).
Proof.
  unfold BuildTree. destruct (os.Stat fs (Path_ opts)) as [info|e].
  - intros H. right. eapply buildTreeRecursive_error; exact H.
  - intros [= <- <-]. left. eauto.
Qed.

Lemma BuildTree_error_kinds_witness :
  (exists e, os.Stat Sample.lockedFS (Path_ Sample.lockedOpts) = Err e /\
             "error reading directory root/locked: permission denied"%string
             = ("error accessing path " ++ Path_ Sample.lockedOpts ++ ": " ++ e)%string) \/
  (exists q e, os.ReadDir Sample.lockedFS q = Err e /\
               "error reading directory root/locked: permission denied"%string
               = ("error reading directory " ++ q ++ ": " ++ e)%string).
Proof.
  apply (BuildTree_error_kinds Sample.lib Sample.lockedFS 2 Sample.lockedOpts None).
  reflexivity.
Defined.

Section Independence.
Variable L : GoLib.
Variable opts : BuildOptions.

Lemma buildTreeRecursive_without_FollowLinks fs fs' fuel :
  FollowLinks opts = false ->
  (forall p, os.ReadDir fs p = os.ReadDir fs' p) ->
  forall p i d,
    buildTreeRecursive L fs fuel p i opts d = buildTreeRecursive L fs' fuel p i opts d.
Proof.
  intros Hfl Hread. induction fuel as [|fuel IH]; intros p i d; [reflexivity|].
  rewrite !buildTreeRecursive_S.
  assert (Hty : nodeTypeAndSize fs p i opts = nodeTypeAndSize fs' p i opts)
    by (unfold nodeTypeAndSize; now rewrite Hfl).
  assert (Hre : forall ty, readEntries fs p ty opts = readEntries fs' p ty opts)
    by (intros ty; unfold readEntries; now rewrite Hfl, Hread).
  rewrite Hty.
  destruct (depthExceeded opts d); [reflexivity|].
  destruct (isExcludedPath L p (ExcludePaths opts)); [reflexivity|].
  cbv zeta.
  destruct (String.eqb _ File && _); [reflexivity|].
  destruct (String.eqb _ Directory); [|reflexivity].
  rewrite Hre. destruct (readEntries fs' p _ opts) as [entries [e|]]; [reflexivity|].
  now rewrite (rangeEntries_ext L p opts d
                 (fun q j e => buildTreeRecursive L fs fuel q j opts e)
                 (fun q j e => buildTreeRecursive L fs' fuel q j opts e)
                 entries [] (fun q j => IH q j _)).
Qed.

Lemma buildTreeRecursive_dropUnreadable fs fuel :
  forall p i d,
    buildTreeRecursive L (dropUnreadable fs) fuel p i opts d
    = buildTreeRecursive L fs fuel p i opts d.
Proof.
  induction fuel as [|fuel IH]; intros p i d; [reflexivity|].
  rewrite !buildTreeRecursive_S.
  change (nodeTypeAndSize (dropUnreadable fs) p i opts)
    with (nodeTypeAndSize fs p i opts).
  destruct (depthExceeded opts d); [reflexivity|].
  destruct (isExcludedPath L p (ExcludePaths opts)); [reflexivity|].
  cbv zeta.
  destruct (String.eqb _ File && _); [reflexivity|].
  destruct (String.eqb _ Directory) eqn:Hdir; [|reflexivity].
  apply String.eqb_eq in Hdir. rewrite Hdir, !readEntries_Directory.
  cbn [os.ReadDir dropUnreadable].
  destruct (os.ReadDir fs p) as [entries|e]; [|reflexivity].
  rewrite rangeEntries_readable.
  now rewrite (rangeEntries_ext L p opts d
                 (fun q j e => buildTreeRecursive L (dropUnreadable fs) fuel q j opts e)
                 (fun q j e => buildTreeRecursive L fs fuel q j opts e)
                 entries [] (fun q j => IH q j _)).
Qed.

End Independence.

(** X6. With [FollowLinks] disabled the build resolves no symlink and
    stats nothing but the root: two file systems with the same root
    metadata and the same listings give the same result, whatever their
    symlinks resolve to. *)
Theorem BuildTree_without_FollowLinks (L : GoLib) (fs fs' : os.FileSystem)
        (fuel : nat) (opts : BuildOptions) :
  FollowLinks opts = false ->
  os.Stat fs (Path_ opts) = os.Stat fs' (Path_ opts) ->
  (forall p, os.ReadDir fs p = os.ReadDir fs' p) ->
  BuildTree L fs fuel opts = BuildTree L fs' fuel opts.
Proof.
  intros Hfl Hstat Hread. unfold BuildTree. rewrite <- Hstat.
  destruct (os.Stat fs (Path_ opts)) as [info|e]; [|reflexivity].
  now apply buildTreeRecursive_without_FollowLinks.
Qed.

Lemma BuildTree_without_FollowLinks_witness :
  BuildTree Sample.lib Sample.linkToDirFS 3 (Sample.scenarioOpts (-1) [])
  = BuildTree Sample.lib
              {| os.Stat := os.Stat Sample.linkToDirFS;
                 os.ReadDir := os.ReadDir Sample.linkToDirFS;
                 os.EvalSymlinks := fun _ => Err "too many links" |}
              3 (Sample.scenarioOpts (-1) []).
Proof.
  apply (BuildTree_without_FollowLinks Sample.lib Sample.linkToDirFS _ 3
                                       (Sample.scenarioOpts (-1) []));
    reflexivity.
Defined.

(** X7. Entries whose metadata cannot be read are dropped silently: the
    build gives the same result as on the file system whose listings do not
    have them. *)
Theorem BuildTree_ignores_unreadable_entries (L : GoLib) (fs : os.FileSystem)
        (fuel : nat) (opts : BuildOptions) :
  BuildTree L (dropUnreadable fs) fuel opts = BuildTree L fs fuel opts.
Proof.
  unfold BuildTree. change (os.Stat (dropUnreadable fs)) with (os.Stat fs).
  destruct (os.Stat fs (Path_ opts)) as [info|e]; [|reflexivity].
  apply buildTreeRecursive_dropUnreadable.
Qed.

(** X8. A symlink that stays unresolved ([FollowLinks] off, or the link or
    its target cannot be resolved) and passes the depth and path checks
    becomes a leaf of type [Symlink] with the size of the link itself.  No
    directory is listed for it, and the type-exclusion list plays no part,
    even when the path of the link carries an excluded extension. *)
Theorem unresolved_symlink_is_leaf (L : GoLib) (fs : os.FileSystem) (fuel : nat)
        (currentPath : string) (info : os.FileInfo) (opts : BuildOptions)
        (currentDepth : Z) :
  os.IsDir info = false ->
  Z.land (os.Mode info) os.ModeSymlink <> 0 ->
  unresolved fs currentPath opts ->
  depthExceeded opts currentDepth = false ->
  isExcludedPath L currentPath (ExcludePaths opts) = false ->
  buildTreeRecursive L fs (S fuel) currentPath info opts currentDepth
  = Some (Some (mkNode (os.Name info) currentPath Symlink (os.Size info) []
                       (isHiddenFile (os.Name info))), None).
Proof.
  intros Hd Hm Hun Hdepth Hpath.
  rewrite buildTreeRecursive_S, Hdepth, Hpath.
  assert (Hty : nodeTypeAndSize fs currentPath info opts = (Symlink, os.Size info)).
  { unfold nodeTypeAndSize. rewrite Hd. apply Z.eqb_neq in Hm. rewrite Hm. cbn [negb].
    destruct Hun as [->|[[e ->]|(tp & e & -> & ->)]];
      [reflexivity|now destruct (FollowLinks opts)..]. }
  rewrite Hty. cbv zeta. cbn [fst snd].
  replace (String.eqb Symlink File) with false by reflexivity.
  replace (String.eqb Symlink Directory) with false by reflexivity.
  reflexivity.
Qed.

Lemma unresolved_symlink_is_leaf_witness :
  buildTreeRecursive Sample.lib Sample.linkToFileFS 1 "root/report.go"
                     (Sample.linkInfo "report.go" 4)
                     {| Path_ := "root"; MaxDepth := 1; ExcludePaths := [];
                        ExcludeTypes := [".go"]; IncludeFiles := true;
                        FollowLinks := false |} 1
  = Some (Some (mkNode "report.go" "root/report.go" Symlink 4 [] false), None).
Proof.
  apply (unresolved_symlink_is_leaf Sample.lib Sample.linkToFileFS 0 "root/report.go"
                                    (Sample.linkInfo "report.go" 4)).
  - reflexivity.
  - discriminate.
  - left. reflexivity.
  - reflexivity.
  - reflexivity.
Defined.

(** X9. Type exclusion removes files only: an entry that passes the depth
    and path checks and is classified as a directory or a symlink is never
    answered with [(nil, nil)], whatever the list of excluded extensions
    holds; the call gives a node or a directory-read error. *)
Theorem type_exclusion_on_files_only (L : GoLib) (fs : os.FileSystem) (fuel : nat)
        (currentPath : string) (info : os.FileInfo) (opts : BuildOptions)
        (currentDepth : Z) (node : option Node) (err : option error) :
  fst (nodeTypeAndSize fs currentPath info opts) <> File ->
  depthExceeded opts currentDepth = false ->
  isExcludedPath L currentPath (ExcludePaths opts) = false ->
  buildTreeRecursive L fs fuel currentPath info opts currentDepth = Some (node, err) ->
  (exists t, node = Some t /\ err = None /\
             Type_ t = fst (nodeTypeAndSize fs currentPath info opts)) \/
  (node = None /\ exists e, err = Some e).
Proof.
  intros Hty Hdepth Hpath H.
  assert (Hkeep : filteredOut L fs currentPath info opts currentDepth = false).
  { unfold filteredOut. rewrite Hdepth, Hpath. cbn [orb].
    destruct (String.eqb_spec (fst (nodeTypeAndSize fs currentPath info opts)) File);
      [contradiction|reflexivity]. }
  destruct (kept_node_or_error L fs _ _ _ _ _ _ _ Hkeep H) as [[Hn ->]|[-> He]].
  - left. destruct node as [t|]; [|contradiction]. exists t.
    destruct (returned_node L fs opts _ _ _ _ _ H) as (_ & _ & Ht & _). auto.
  - right. split; [reflexivity|]. destruct err as [e|]; [eauto|contradiction].
Qed.

Lemma type_exclusion_on_files_only_witness :
  (exists t, Some (mkNode "sub.go" "root/sub.go" Directory 0 [] false) = Some t /\
             @None error = None /\
             Type_ t = fst (nodeTypeAndSize Sample.scenarioFS "root/sub.go"
                                            (Sample.dirInfo "sub.go")
                                            (Sample.scenarioOpts 1 [".go"]))) \/
  (Some (mkNode "sub.go" "root/sub.go" Directory 0 [] false) = None /\
   exists e, @None error = Some e).
Proof.
  apply (type_exclusion_on_files_only
           Sample.lib
           {| os.Stat := os.Stat Sample.scenarioFS;
              os.ReadDir := fun _ => Ok [];
              os.EvalSymlinks := os.EvalSymlinks Sample.scenarioFS |}
           1 "root/sub.go" (Sample.dirInfo "sub.go") (Sample.scenarioOpts 1 [".go"]) 1).
  - discriminate.
  - reflexivity.
  - reflexivity.
  - reflexivity.
Defined.

(** X10. With [IncludeFiles] false every node of a returned tree other than
    its root is a directory; the root itself may be a file. *)
Theorem BuildTree_directories_only (L : GoLib) (fs : os.FileSystem) (fuel : nat)
        (opts : BuildOptions) (t : Node) :
  IncludeFiles opts = false ->
  BuildTree L fs fuel opts = Some (Some t, None) ->
  forall j m, at_depth (S j) t m -> Type_ m = Directory.
Proof.
  intros Hflag. unfold BuildTree.
  destruct (os.Stat fs (Path_ opts)) as [info|]; [|discriminate].
  intros H. exact (IncludeFiles_false_only_directories_below L fs opts fuel Hflag
                     _ _ _ _ H).
Qed.

Lemma BuildTree_directories_only_witness :
  exists t,
    BuildTree Sample.lib Sample.linkToDirFS 3 (Sample.linkToDirOpts false)
    = Some (Some t, None) /\
    forall j m, at_depth (S j) t m -> Type_ m = Directory.
Proof.
  eexists. split; [reflexivity|].
  apply (BuildTree_directories_only Sample.lib Sample.linkToDirFS 3
                                    (Sample.linkToDirOpts false));
    reflexivity.
Defined.

(** A file as the root is returned also when [IncludeFiles] is false. *)
Example BuildTree_file_root_without_files :
  BuildTree Sample.lib Sample.fileRootFS 1
            {| Path_ := "main.go"; MaxDepth := 0; ExcludePaths := [];
               ExcludeTypes := []; IncludeFiles := false; FollowLinks := false |}
  = Some (Some (mkNode "main.go" "main.go" File 12 [] false), None).
Proof. reflexivity. Qed.

(** X11. [isExcludedType] is true exactly when some listed extension and
    the extension of the path (from its last dot, within its last element)
    are equal after lowering both; a path without an extension matches only
    an entry that lowers to the empty string. *)
Theorem isExcludedType_lowered_match (L : GoLib) (path : string)
        (excludeTypes : list string) :
  isExcludedType L path excludeTypes = true <->
  exists excludedExt,
    In excludedExt excludeTypes /\
    strings_ToLower L excludedExt = strings_ToLower L (Ext path).
Proof.
  unfold isExcludedType.
  induction excludeTypes as [|x rest IH]; cbn [rangeExcludeTypes].
  - split; [discriminate|]. now intros (? & [] & _).
  - destruct (String.eqb_spec (strings_ToLower L x) (strings_ToLower L (Ext path)))
      as [Heq|Hne].
    + split; [|reflexivity]. intros _. exists x. cbn. auto.
    + rewrite IH. split.
      * intros (e & Hin & He). exists e. cbn. auto.
      * intros (e & [<-|Hin] & He); [contradiction|eauto].
Qed.

(* ================================================================= *)
(** ** The formatter on trees *)

(** Induction on a node through its non-nil children. *)
Lemma Node_induction (P : Node -> Prop) :
  (forall n, (forall c, In (Some c) (Children n) -> P c) -> P n) ->
  forall n, P n.
Proof.
  intros step. fix IH 1. intros [name path ty size children hidden].
  apply step. cbn [Children].
  induction children as [|[c|] rest IHrest]; intros c0 Hin.
  - destruct Hin.
  - destruct Hin as [Heq|Hin]; [|exact (IHrest c0 Hin)].
    injection Heq as <-. apply IH.
  - destruct Hin as [Heq|Hin]; [discriminate|exact (IHrest c0 Hin)].
Qed.

Lemma contains_In (slice : list string) (item : string) :
  formatter.contains slice item = true <-> In item slice.
Proof.
  induction slice as [|s rest IH]; cbn [formatter.contains In].
  - split; [discriminate|tauto].
  - destruct (String.eqb_spec s item) as [->|Hne].
    + split; auto.
    + rewrite IH. split; [auto|]. intros [H|H]; [contradiction|assumption].
Qed.

(** X12. [contains] is list membership, the comparison being exact (a name
    in another case is another name). *)
Theorem contains_iff_In (slice : list string) (item : string) :
  formatter.contains slice item = true <-> In item slice.
Proof. exact (contains_In slice item). Qed.

Section FormatTXT.
Variable cfg : configs.FormatCfg.

Lemma rangeChildren_returns f cs :
  (forall o, In o cs -> exists c, o = Some c /\ exists out, f c = Ret out) ->
  forall result, exists out, rangeChildren f cs result = Ret out.
Proof.
  induction cs as [|o cs IH]; intros Hall result; cbn [rangeChildren];
    [eexists; reflexivity|].
  destruct (Hall o (or_introl eq_refl)) as (c & -> & out & ->).
  apply IH. intros o Ho. apply Hall. now right.
Qed.

Lemma rangeChildren_panics f cs o :
  In o cs ->
  (o = None \/ exists c, o = Some c /\ f c = Panic) ->
  forall result, rangeChildren f cs result = Panic.
Proof.
  induction cs as [|o' cs IH]; intros Hin Ho result; [destruct Hin|].
  cbn [rangeChildren]. destruct o' as [c'|]; [|reflexivity].
  destruct (f c') as [b|] eqn:Hf; [|reflexivity].
  destruct Hin as [<-|Hin]; [|now apply IH].
  destruct Ho as [|(c & [= ->] & Hc)]; [discriminate|congruence].
Qed.

(** One call of [formatTXT] on a node: its line, then the loop. *)
Lemma formatTXT_at_unfold n level :
  0 <= level ->
  exists line,
    formatter.formatTXT_at n level cfg =
    if negb (formatter.contains (configs.ExcludeNodeFields cfg) "children")
    then rangeChildren (fun c => formatter.formatTXT_at c (int_add level 1) cfg)
                       (Children n) line
    else Ret line.
Proof.
  intros Hl. destruct n as [name path ty size children hidden].
  cbn [formatter.formatTXT_at]. unfold Repeat.
  replace (level <? 0) with false by lia. cbv zeta.
  match goal with
  | |- exists _, (if _ then _ else Ret ?e) = _ => exists e; generalize e
  end.
  intros line.
  destruct (negb (formatter.contains (configs.ExcludeNodeFields cfg) "children"));
    [|reflexivity].
  cbn [Children]. revert line.
  induction children as [|[c|] rest IH]; intros line; cbn [rangeChildren];
    [reflexivity| |reflexivity].
  destruct (formatter.formatTXT_at c (int_add level 1) cfg); [apply IH|reflexivity].
Qed.

End FormatTXT.

Lemma rangeChildren_panic_inv f cs : forall result,
  rangeChildren f cs result = Panic ->
  exists o, In o cs /\ (o = None \/ exists c, o = Some c /\ f c = Panic).
Proof.
  induction cs as [|[c|] cs IH]; intros result; cbn [rangeChildren].
  - discriminate.
  - destruct (f c) as [b|] eqn:Hf.
    + intros H. destruct (IH _ H) as (o & Hin & Ho). exists o.
      split; [now right|exact Ho].
    + intros _. exists (Some c). split; [now left|]. right. now exists c.
  - intros _. exists None. split; [now left|now left].
Qed.

(** When [formatTXT] returns and when it panics. *)
Lemma formatTXT_at_cases (cfg : configs.FormatCfg) (n : Node) (level : Z) :
  0 <= level ->
  (forall j m, at_depth j n m -> level + Z.of_nat j <= int_max) ->
  (formatter.contains (configs.ExcludeNodeFields cfg) "children" = true ->
   exists out, formatter.formatTXT_at n level cfg = Ret out) /\
  (formatter.contains (configs.ExcludeNodeFields cfg) "children" = false ->
   (formatter.formatTXT_at n level cfg = Panic <->
    exists j m, at_depth j n m /\ In None (Children m))).
Proof.
  revert level.
  induction n as [n IH] using Node_induction. intros level Hl Hb.
  destruct (formatTXT_at_unfold cfg n level Hl) as [line ->].
  split; intros Hex; rewrite Hex; cbn [negb]; [eexists; reflexivity|].
  assert (Hchild : forall c, In (Some c) (Children n) ->
            int_add level 1 = level + 1 /\ 0 <= level + 1 /\
            forall j m, at_depth j c m -> level + 1 + Z.of_nat j <= int_max).
  { intros c Hc.
    pose proof (Hb 1%nat c (at_depth_child _ _ _ _ Hc (at_depth_root c))) as H1.
    split; [apply int_add_1; unfold int_min; lia|]. split; [lia|].
    intros j m Hm. pose proof (Hb (S j) m (at_depth_child _ _ _ _ Hc Hm)). lia. }
  split.
  - intros Hp. apply rangeChildren_panic_inv in Hp as (o & Hin & [->|(c & -> & Hc)]).
    + exists O, n. split; [constructor|assumption].
    + destruct (Hchild c Hin) as (Hadd & Hl1 & Hb1). rewrite Hadd in Hc.
      destruct (IH c Hin (level + 1) Hl1 Hb1) as [_ Hiff].
      destruct (proj1 (Hiff Hex) Hc) as (j & m & Hat & Hnil).
      exists (S j), m. split; [|assumption]. econstructor; eassumption.
  - intros (j & m & Hat & Hnil).
    destruct (at_depth_inv _ _ _ Hat) as [[-> ->]|(j' & c & -> & Hin & Hc)].
    + eapply rangeChildren_panics; [exact Hnil|now left].
    + eapply rangeChildren_panics; [exact Hin|]. right. exists c. split; [reflexivity|].
      destruct (Hchild c Hin) as (Hadd & Hl1 & Hb1). rewrite Hadd.
      destruct (IH c Hin (level + 1) Hl1 Hb1) as [_ Hiff].
      apply (Hiff Hex). eauto.
Qed.

(** X13. [formatTXT] on a node, called at level 0 as [Format] calls it,
    for a tree whose indentations (two bytes for each level) have lengths
    within [int]: when the field [children] is excluded it returns (one
    line); when it is not, it panics exactly when some node of the tree
    has a nil pointer among its children. *)
Theorem formatTXT_panics_iff_nil_child (cfg : configs.FormatCfg) (n : Node) :
  (forall j m, at_depth j n m -> 2 * Z.of_nat j <= int_max) ->
  (formatter.contains (configs.ExcludeNodeFields cfg) "children" = true ->
   exists out, formatter.formatTXT (Some n) 0 cfg = Ret out) /\
  (formatter.contains (configs.ExcludeNodeFields cfg) "children" = false ->
   (formatter.formatTXT (Some n) 0 cfg = Panic <->
    exists j m, at_depth j n m /\ In None (Children m))).
Proof.
  intros Hfit. apply (formatTXT_at_cases cfg n 0 (Z.le_refl 0)).
  intros j m Hat. specialize (Hfit j m Hat). lia.
Qed.

Lemma formatTXT_panics_iff_nil_child_witness :
  let cfg := {| configs.Type_ := configs.TXT; configs.OutputPath := "";
                configs.Indent := 2; configs.ExcludeNodeFields := ["size"] |} in
  let n := mkNode "root" "root" Directory 0 [None] false in
  formatter.formatTXT (Some n) 0 cfg = Panic <->
  exists j m, at_depth j n m /\ In None (Children m).
Proof.
  cbv zeta.
  refine (proj2 (formatTXT_panics_iff_nil_child
                   {| configs.Type_ := configs.TXT; configs.OutputPath := "";
                      configs.Indent := 2; configs.ExcludeNodeFields := ["size"] |}
                   (mkNode "root" "root" Directory 0 [None] false) _) eq_refl).
  intros j m Hat. destruct (at_depth_inv _ _ _ Hat) as [[-> _]|(j' & c & _ & Hin & _)].
  - discriminate.
  - destruct Hin as [Hin|[]]. discriminate.
Defined.









(** X16. [createFilteredNode] loses nothing when the list names none of
    the six fields (names it does not know are ignored): on a tree without
    nil pointers the filtered node, read back field by field, is the
    tree. *)
Theorem createFilteredNode_unknown_names_ignored
        (excludeFields : list string) (n : Node) :
  (forall f, In f knownFields -> ~ In f excludeFields) ->
  noNilChild n ->
  option_map unfiltered (formatter.createFilteredNode (Some n) excludeFields) = Some n.
Proof.
  intros Hun. cbn [formatter.createFilteredNode option_map]. intros Hnil. f_equal.
  assert (Hc : forall f, In f knownFields ->
                         negb (formatter.contains excludeFields f) = true).
  { intros f Hf. destruct (formatter.contains excludeFields f) eqn:Hcf; [|reflexivity].
    apply contains_In in Hcf. now apply Hun in Hcf. }
  induction n as [n IH] using Node_induction.
  destruct n as [name path ty size children hidden].
  cbn [formatter.createFilteredNode_at unfiltered formatter.Name formatter.Path
       formatter.Type_ formatter.Size formatter.Children formatter.IsHidden
       Name Path Type_ Size Children IsHidden].
  rewrite !Hc by (cbn; tauto). f_equal.
  assert (Hno : ~ In None children) by exact (Hnil O _ (at_depth_root _)).
  assert (Hsub : forall c, In (Some c) children -> noNilChild c).
  { intros c Hin j m Hat. apply (Hnil (S j)). econstructor; [exact Hin|exact Hat]. }
  cbn [Children] in IH. clear Hnil.
  induction children as [|[c|] rest IHr]; [reflexivity| |].
  - cbn. rewrite (IH c (or_introl eq_refl) (Hsub c (or_introl eq_refl))). f_equal.
    apply IHr.
    + intros c' Hc'. apply IH. now right.
    + intros Hin. apply Hno. now right.
    + intros c' Hc'. apply Hsub. now right.
  - exfalso. apply Hno. now left.
Qed.

Lemma createFilteredNode_unknown_names_ignored_witness :
  option_map unfiltered
             (formatter.createFilteredNode
                (Some (mkNode "root" "root" Directory 0
                              [Some (mkNode "a.txt" "root/a.txt" File 10 [] false)]
                              false))
                ["Name"; "sizes"])
  = Some (mkNode "root" "root" Directory 0
                 [Some (mkNode "a.txt" "root/a.txt" File 10 [] false)] false).
Proof.
  apply createFilteredNode_unknown_names_ignored.
  - intros f Hf Hin. cbn in Hf, Hin.
    repeat (destruct Hf as [<-|Hf]; [now repeat (destruct Hin as [Hin|Hin])|]).
    exact Hf.
  - intros j m Hat Hin.
    destruct (at_depth_inv _ _ _ Hat) as [[_ ->]|(j' & c & _ & Hc & Hat')].
    + cbn in Hin. now destruct Hin as [Hin|Hin].
    + cbn in Hc. destruct Hc as [[= <-]|[]].
      destruct (at_depth_inv _ _ _ Hat') as [[_ ->]|(? & ? & _ & [] & _)].
      exact Hin.
Defined.

(* ================================================================= *)
(** ** The configuration *)

(** X17. [Validate] accepts exactly the configurations with a path that is
    not empty, a depth of at least -1 and one of the four selectors. *)
Theorem Validate_accepts_iff (c : configs.Config) :
  configs.Validate c = None <->
  configs.Path c <> ""%string /\ -1 <= configs.MaxDepth c /\
  In (configs.Type_ (configs.Format c)) supportedFormats.
Proof.
  unfold configs.Validate, supportedFormats.
  destruct (String.eqb_spec (configs.Path c) "") as [Hp|Hp];
    [split; [discriminate|tauto]|].
  destruct (Z.ltb_spec (configs.MaxDepth c) (-1)) as [Hd|Hd];
    [split; [discriminate|lia]|].
  cbv zeta. cbn [In].
  destruct (String.eqb_spec (configs.Type_ (configs.Format c)) configs.JSON) as [e|Hj];
    [symmetry in e; cbn [orb]; tauto|].
  destruct (String.eqb_spec (configs.Type_ (configs.Format c)) configs.YAML) as [e|Hy];
    [symmetry in e; cbn [orb]; tauto|].
  destruct (String.eqb_spec (configs.Type_ (configs.Format c)) configs.XML) as [e|Hx];
    [symmetry in e; cbn [orb]; tauto|].
  destruct (String.eqb_spec (configs.Type_ (configs.Format c)) configs.TXT) as [e|Ht];
    [symmetry in e; cbn [orb]; tauto|].
  cbn [orb]. split; [discriminate|].
  intros (_ & _ & [H|[H|[H|[H|[]]]]]); congruence.
Qed.

(** X18. [Validate] and [Format] agree on the selectors: for a
    configuration with a path and a valid depth, [Validate] reports an
    unsupported output format exactly when [Format] answers every tree,
    nil included, with its unsupported-format error (and no panic). *)
Theorem Format_rejects_what_Validate_rejects (c : configs.Config) :
  configs.Path c <> ""%string ->
  -1 <= configs.MaxDepth c ->
  let t := configs.Type_ (configs.Format c) in
  configs.Validate c = Some ("unsupported output format: " ++ t)%string <->
  forall E tree,
    formatter.Format E tree (configs.Format c)
    = Ret (""%string, Some ("unsupported format: " ++ t)%string).
Proof.
  intros Hp Hd t. unfold configs.Validate, formatter.Format.
  destruct (String.eqb_spec (configs.Path c) "") as [|_]; [contradiction|].
  destruct (Z.ltb_spec (configs.MaxDepth c) (-1)) as [|_]; [lia|].
  cbv zeta. fold t.
  set (E0 := {| formatter.json_Marshal := fun _ => ("x"%string, None);
                formatter.json_MarshalIndent := fun _ _ _ => ("x"%string, None);
                formatter.yaml_Marshal := fun _ => ("x"%string, None);
                formatter.xml_MarshalIndent := fun _ _ _ => ("x"%string, None) |}).
  destruct (String.eqb t configs.JSON) eqn:Hj.
  { split; [discriminate|]. intros H. specialize (H E0 None).
    unfold formatter.formatJSON, Repeat in H.
    destruct (configs.Indent (configs.Format c) >? 0); [|discriminate].
    destruct (configs.Indent (configs.Format c) <? 0); discriminate. }
  destruct (String.eqb t configs.YAML) eqn:Hy.
  { split; [discriminate|]. intros H. specialize (H E0 None). discriminate. }
  destruct (String.eqb t configs.XML) eqn:Hx.
  { split; [discriminate|]. intros H. specialize (H E0 None). discriminate. }
  destruct (String.eqb t configs.TXT) eqn:Ht.
  { split; [discriminate|]. intros H. specialize (H E0 None). discriminate. }
  cbn [orb]. split; auto.
Qed.

Lemma Format_rejects_what_Validate_rejects_witness :
  let c := {| configs.Path := "."; configs.ExcludeTypes := [];
              configs.ExcludePaths := []; configs.IncludeFiles := true;
              configs.MaxDepth := -1; configs.FollowLinks := false;
              configs.Format := {| configs.Type_ := "yml"; configs.OutputPath := "";
                                   configs.Indent := 2;
                                   configs.ExcludeNodeFields := [] |} |} in
  configs.Validate c = Some "unsupported output format: yml"%string /\
  forall E tree,
    formatter.Format E tree (configs.Format c)
    = Ret (""%string, Some "unsupported format: yml"%string).
Proof.
  cbv zeta. split; [reflexivity|].
  apply (Format_rejects_what_Validate_rejects
           {| configs.Path := "."; configs.ExcludeTypes := [];
              configs.ExcludePaths := []; configs.IncludeFiles := true;
              configs.MaxDepth := -1; configs.FollowLinks := false;
              configs.Format := {| configs.Type_ := "yml"; configs.OutputPath := "";
                                   configs.Indent := 2;
                                   configs.ExcludeNodeFields := [] |} |}).
  - discriminate.
  - discriminate.
  - reflexivity.
Defined.


(* ================================================================= *)
(** ** Output paths *)

Lemma substring_all (s : string) : substring 0 (String.length s) s = s.
Proof. induction s as [|c s IH]; cbn; [reflexivity|now rewrite IH]. Qed.

Lemma substring_app_r (a b : string) :
  substring (String.length a) (String.length b) (a ++ b) = b.
Proof. induction a as [|c a IH]; cbn [String.length append substring]; [apply substring_all|exact IH]. Qed.

Lemma substring_split (s : string) : forall n,
  (n <= String.length s)%nat ->
  s = (substring 0 n s ++ substring n (String.length s - n) s)%string.
Proof.
  induction s as [|c s IH]; intros n Hn.
  - destruct n; [reflexivity|cbn in Hn; lia].
  - destruct n as [|n].
    + rewrite Nat.sub_0_r, substring_all. reflexivity.
    + cbn [substring append String.length Nat.sub]. f_equal.
      apply IH. cbn in Hn. lia.
Qed.

Lemma cmd_hasExtension_suffix (path ext : string) :
  cmd.hasExtension path ext = true <-> exists stem, path = (stem ++ ext)%string.
Proof.
  unfold cmd.hasExtension. rewrite andb_true_iff, Nat.leb_le, String.eqb_eq. split.
  - intros [Hlen Hsub].
    exists (substring 0 (String.length path - String.length ext) path).
    pose proof (substring_split path (String.length path - String.length ext)
                                ltac:(lia)) as Hs.
    replace (String.length path - (String.length path - String.length ext))%nat
      with (String.length ext) in Hs by lia.
    now rewrite Hsub in Hs.
  - intros [stem ->]. rewrite string_length_app. split; [lia|].
    replace (String.length stem + String.length ext - String.length ext)%nat
      with (String.length stem) by lia.
    apply substring_app_r.
Qed.

(** X19. [hasExtension] of main.go is the suffix test, byte for byte: it
    holds exactly when [path] ends in [ext]. *)
Theorem hasExtension_iff_suffix (path ext : string) :
  cmd.hasExtension path ext = true <-> exists stem, path = (stem ++ ext)%string.
Proof. exact (cmd_hasExtension_suffix path ext). Qed.

(** X20. [saveOutput] with an empty output path prints the data and writes
    no file.  With any other output path it calls [os.WriteFile] once, with
    mode 0644 and a name that ends in a dot and the format type: the output
    path itself if it ends so already, the output path with that suffix
    appended otherwise.  It returns the error of the write, and reports
    success only when there is none. *)
Theorem saveOutput_behaviour (writeFile : string -> bytes -> option error)
        (data : bytes) (format : configs.FormatCfg) :
  let ext := ("." ++ configs.Type_ format)%string in
  (configs.OutputPath format = ""%string ->
   cmd.saveOutput writeFile data format
   = ([cmd.Printed (data ++ formatter.newline)], None)) /\
  (configs.OutputPath format <> ""%string ->
   exists name stem,
     name = (stem ++ ext)%string /\
     (name = configs.OutputPath format \/
      name = (configs.OutputPath format ++ ext)%string /\
      cmd.hasExtension (configs.OutputPath format) ext = false) /\
     cmd.saveOutput writeFile data format =
     match writeFile name data with
     | Some err => ([cmd.WriteFileCalled name data 420], Some err)
     | None =>
         ([cmd.WriteFileCalled name data 420;
           cmd.Printed ("Tree successfully written to: " ++ name ++ formatter.newline)],
          None)
     end).
Proof.
  cbv zeta. unfold cmd.saveOutput. split.
  - intros ->. reflexivity.
  - intros Hne.
    destruct (String.eqb_spec (configs.OutputPath format) "") as [|_]; [contradiction|].
    destruct (cmd.hasExtension (configs.OutputPath format) ("." ++ configs.Type_ format))
      eqn:Hext; cbn [negb].
    + destruct (proj1 (cmd_hasExtension_suffix _ _) Hext) as [stem Hstem].
      exists (configs.OutputPath format), stem. auto.
    + exists (configs.OutputPath format ++ "." ++ configs.Type_ format)%string,
        (configs.OutputPath format). auto.
Qed.

Lemma saveOutput_behaviour_witness :
  exists name stem,
    name = (stem ++ ".json")%string /\
    (name = "file.JSON"%string \/
     name = "file.JSON.json"%string /\ cmd.hasExtension "file.JSON" ".json" = false) /\
    cmd.saveOutput (fun _ _ => None) "null"
                   {| configs.Type_ := configs.JSON; configs.OutputPath := "file.JSON";
                      configs.Indent := 2; configs.ExcludeNodeFields := [] |} =
    match (fun _ _ => @None error) name "null"%string with
    | Some err => ([cmd.WriteFileCalled name "null" 420], Some err)
    | None =>
        ([cmd.WriteFileCalled name "null" 420;
          cmd.Printed ("Tree successfully written to: " ++ name ++ formatter.newline)],
         None)
    end.
Proof.
  apply (proj2 (saveOutput_behaviour
                  (fun _ _ => None) "null"
                  {| configs.Type_ := configs.JSON; configs.OutputPath := "file.JSON";
                     configs.Indent := 2; configs.ExcludeNodeFields := [] |})).
  discriminate.
Defined.

Section OutputPath.
Variable T : GoText.
Hypothesis EqualFold_refl : forall s, strings_EqualFold T s s = true.

Lemma configs_hasExtension_app (stem ext : string) :
  configs.hasExtension T (stem ++ ext) ext = true.
Proof.
  unfold configs.hasExtension. rewrite string_length_app.
  replace (String.length stem + String.length ext <? String.length ext)%nat
    with false by (symmetry; apply Nat.ltb_ge; lia).
  replace (String.length stem + String.length ext - String.length ext)%nat
    with (String.length stem) by lia.
  rewrite substring_app_r. apply EqualFold_refl.
Qed.

Lemma GetOutputPath_cases (f : configs.FormatCfg) :
  configs.GetOutputPath T f = configs.OutputPath f \/
  configs.OutputPath f <> ""%string /\
  configs.hasExtension T (configs.OutputPath f) ("." ++ configs.Type_ f) = false /\
  configs.GetOutputPath T f = (configs.OutputPath f ++ "." ++ configs.Type_ f)%string.
Proof.
  unfold configs.GetOutputPath.
  destruct (String.eqb_spec (configs.OutputPath f) "") as [->|Hne]; [now left|].
  cbv zeta.
  destruct (configs.hasExtension T (configs.OutputPath f) ("." ++ configs.Type_ f));
    cbn [negb]; auto.
Qed.

Lemma GetOutputPath_hasExtension (f : configs.FormatCfg) :
  configs.OutputPath f <> ""%string ->
  configs.hasExtension T (configs.GetOutputPath T f) ("." ++ configs.Type_ f) = true.
Proof.
  intros Hne. unfold configs.GetOutputPath.
  destruct (String.eqb_spec (configs.OutputPath f) "") as [|_]; [contradiction|].
  cbv zeta.
  destruct (configs.hasExtension T (configs.OutputPath f) ("." ++ configs.Type_ f))
    eqn:Hext; cbn [negb]; [exact Hext|apply configs_hasExtension_app].
Qed.

End OutputPath.

(** X21. [GetOutputPath] is empty exactly for an empty output path (the
    sign for standard output); otherwise its result carries the extension
    of the format, and applying it again changes nothing.  ([EqualFold]
    holds of equal strings.) *)
Theorem GetOutputPath_idempotent (T : GoText) (f : configs.FormatCfg) :
  (forall s, strings_EqualFold T s s = true) ->
  (configs.GetOutputPath T f = ""%string <-> configs.OutputPath f = ""%string) /\
  (configs.OutputPath f <> ""%string ->
   configs.hasExtension T (configs.GetOutputPath T f) ("." ++ configs.Type_ f) = true) /\
  configs.GetOutputPath T (withOutputPath f (configs.GetOutputPath T f))
  = configs.GetOutputPath T f.
Proof.
  intros Hrefl. split; [|split].
  - split.
    + intros H0. destruct (GetOutputPath_cases T f) as [H|(Hne & _ & H)];
        rewrite H in H0; [assumption|].
      destruct (configs.OutputPath f); [reflexivity|discriminate].
    + intros H0. unfold configs.GetOutputPath. now rewrite H0.
  - now apply GetOutputPath_hasExtension.
  - destruct (String.eqb_spec (configs.OutputPath f) "") as [H0|Hne].
    + unfold configs.GetOutputPath, withOutputPath. cbn [configs.OutputPath].
      rewrite H0. reflexivity.
    + pose proof (GetOutputPath_hasExtension T Hrefl f Hne) as Hext.
      unfold configs.GetOutputPath at 1.
      cbn [withOutputPath configs.OutputPath configs.Type_].
      rewrite Hext. cbn [negb].
      destruct (String.eqb_spec (configs.GetOutputPath T f) "") as [H0|_];
        [|reflexivity].
      exfalso. apply Hne.
      destruct (GetOutputPath_cases T f) as [H|(_ & _ & H)]; rewrite H in H0;
        [assumption|].
      destruct (configs.OutputPath f); [reflexivity|discriminate].
Qed.

Lemma EqualFold_sample_refl (s : string) : strings_EqualFold Sample.text s s = true.
Proof. apply String.eqb_refl. Qed.

Lemma GetOutputPath_idempotent_witness :
  let f := {| configs.Type_ := configs.JSON; configs.OutputPath := "file.txt";
              configs.Indent := 2; configs.ExcludeNodeFields := [] |} in
  configs.GetOutputPath Sample.text f = "file.txt.json"%string /\
  configs.GetOutputPath Sample.text (withOutputPath f (configs.GetOutputPath Sample.text f))
  = configs.GetOutputPath Sample.text f.
Proof.
  cbv zeta. split; [reflexivity|].
  exact (proj2 (proj2 (GetOutputPath_idempotent
                         Sample.text
                         {| configs.Type_ := configs.JSON;
                            configs.OutputPath := "file.txt";
                            configs.Indent := 2; configs.ExcludeNodeFields := [] |}
                         EqualFold_sample_refl))).
Defined.

(** X22. The library and the command name the output file alike up to the
    case of an extension that is already there: the name that [saveOutput]
    writes to is the result of [GetOutputPath] or that result with the
    extension appended, the latter only when the output path ends in the
    extension in another case. *)
Theorem saveOutput_name_and_GetOutputPath (T : GoText)
        (writeFile : string -> bytes -> option error) (data : bytes)
        (f : configs.FormatCfg) :
  (forall s, strings_EqualFold T s s = true) ->
  configs.OutputPath f <> ""%string ->
  let ext := ("." ++ configs.Type_ f)%string in
  writtenName (fst (cmd.saveOutput writeFile data f)) = Some (configs.GetOutputPath T f) \/
  writtenName (fst (cmd.saveOutput writeFile data f))
  = Some (configs.GetOutputPath T f ++ ext)%string /\
  configs.hasExtension T (configs.OutputPath f) ext = true /\
  cmd.hasExtension (configs.OutputPath f) ext = false.
Proof.
  intros Hrefl Hne. cbv zeta.
  unfold cmd.saveOutput, configs.GetOutputPath.
  destruct (String.eqb_spec (configs.OutputPath f) "") as [|_]; [contradiction|].
  cbv zeta.
  destruct (cmd.hasExtension (configs.OutputPath f) ("." ++ configs.Type_ f)) eqn:Hc;
    cbn [negb].
  - destruct (proj1 (cmd_hasExtension_suffix _ _) Hc) as [stem Hstem].
    assert (Hcfg : configs.hasExtension T (configs.OutputPath f)
                                        ("." ++ configs.Type_ f) = true)
      by (rewrite Hstem; apply (configs_hasExtension_app T Hrefl)).
    rewrite Hcfg. cbn [negb]. left. now destruct (writeFile _ _).
  - destruct (configs.hasExtension T (configs.OutputPath f) ("." ++ configs.Type_ f));
      cbn [negb]; [right|left]; destruct (writeFile _ _); auto.
Qed.

Lemma saveOutput_name_and_GetOutputPath_witness :
  let f := {| configs.Type_ := configs.JSON; configs.OutputPath := "file.JSON";
              configs.Indent := 2; configs.ExcludeNodeFields := [] |} in
  configs.GetOutputPath Sample.text f = "file.JSON"%string /\
  writtenName (fst (cmd.saveOutput (fun _ _ => None) "null" f))
  = Some "file.JSON.json"%string /\
  (writtenName (fst (cmd.saveOutput (fun _ _ => None) "null" f))
   = Some (configs.GetOutputPath Sample.text f) \/
   writtenName (fst (cmd.saveOutput (fun _ _ => None) "null" f))
   = Some (configs.GetOutputPath Sample.text f ++ ".json")%string /\
   configs.hasExtension Sample.text "file.JSON" ".json" = true /\
   cmd.hasExtension "file.JSON" ".json" = false).
Proof.
  cbv zeta. split; [reflexivity|]. split; [reflexivity|].
  apply (saveOutput_name_and_GetOutputPath
           Sample.text (fun _ _ => None) "null"
           {| configs.Type_ := configs.JSON; configs.OutputPath := "file.JSON";
              configs.Indent := 2; configs.ExcludeNodeFields := [] |}
           EqualFold_sample_refl).
  discriminate.
Defined.

(* ================================================================= *)
(** ** Comma-separated flags *)

Section CommaSeparated.
Variable T : GoText.

Lemma rangeParts_In parts : forall result x,
  In x (configs.rangeParts T parts result) <->
  In x result \/
  (x <> ""%string /\ exists part, In part parts /\ x = strings_TrimSpace T part).
Proof.
  induction parts as [|part parts IH]; intros result x; cbn [configs.rangeParts].
  - split; [auto|]. intros [H|(_ & p & [] & _)]. exact H.
  - destruct (String.eqb_spec (strings_TrimSpace T part) "") as [He|Hne]; cbn [negb];
      rewrite IH.
    + split.
      * intros [H|(Hx & p & Hp & Hxp)]; [auto|]. right. split; [assumption|].
        exists p. cbn. auto.
      * intros [H|(Hx & p & [<-|Hp] & Hxp)]; [auto|congruence|]. right. eauto.
    + rewrite in_app_iff. cbn [In]. split.
      * intros [[H|[<-|[]]]|(Hx & p & Hp & Hxp)]; [auto| |].
        -- right. split; [assumption|]. exists part. cbn. auto.
        -- right. split; [assumption|]. exists p. cbn. auto.
      * intros [H|(Hx & p & [<-|Hp] & ->)]; [auto|auto|]. right. eauto.
Qed.

Lemma rangeParts_fixed parts : forall result,
  Forall (fun x => x <> ""%string /\ strings_TrimSpace T x = x) parts ->
  configs.rangeParts T parts result = (result ++ parts)%list.
Proof.
  induction parts as [|part parts IH]; intros result Hall; cbn [configs.rangeParts].
  - now rewrite app_nil_r.
  - inversion Hall as [|? ? [Hne Hfix] Hrest]; subst. rewrite Hfix.
    destruct (String.eqb_spec part "") as [|_]; [contradiction|]. cbn [negb].
    rewrite IH by assumption. now rewrite <- app_assoc.
Qed.

End CommaSeparated.

Lemma Split_comma_cons (x rest : string) :
  noComma x = true ->
  Split_comma (x ++ "," ++ rest) = x :: Split_comma rest.
Proof.
  induction x as [|c x IH]; intros Hx; [reflexivity|].
  cbn [noComma] in Hx. apply andb_true_iff in Hx as [Hc Hx].
  cbn [append Split_comma]. apply negb_true_iff in Hc. rewrite Hc.
  change (x ++ String "," rest)%string with (x ++ "," ++ rest)%string.
  now rewrite (IH Hx).
Qed.

Lemma Split_comma_single (x : string) : noComma x = true -> Split_comma x = [x].
Proof.
  induction x as [|c x IH]; intros Hx; [reflexivity|].
  cbn [noComma] in Hx. apply andb_true_iff in Hx as [Hc Hx].
  cbn [Split_comma]. apply negb_true_iff in Hc. now rewrite Hc, (IH Hx).
Qed.

Lemma Split_comma_Join (x : string) (xs : list string) :
  Forall (fun y => noComma y = true) (x :: xs) ->
  Split_comma (strings_Join (x :: xs) ",") = x :: xs.
Proof.
  revert x. induction xs as [|y xs IH]; intros x Hall.
  - apply Split_comma_single. now inversion Hall.
  - inversion Hall as [|? ? Hx Hrest]; subst.
    change (strings_Join (x :: y :: xs) ",")
      with (x ++ "," ++ strings_Join (y :: xs) ",")%string.
    now rewrite (Split_comma_cons _ _ Hx), (IH y Hrest).
Qed.

(** X23. What [parseCommaSeparated] returns: for an input that is not
    empty, exactly the trimmed pieces between the commas that are not
    empty after trimming; for the empty input, nothing.  No element of the
    result is empty. *)
Theorem parseCommaSeparated_elements (T : GoText) (input x : string) :
  In x (configs.parseCommaSeparated T input) <->
  input <> ""%string /\ x <> ""%string /\
  exists part, In part (Split_comma input) /\ x = strings_TrimSpace T part.
Proof.
  unfold configs.parseCommaSeparated.
  destruct (String.eqb_spec input "") as [->|Hne].
  - split; [intros []|]. now intros [H _].
  - rewrite rangeParts_In. cbn [In]. split.
    + intros [[]|H]. tauto.
    + intros (_ & H). now right.
Qed.

(** X24. [parseCommaSeparated] reads back what [strings.Join] with a comma
    wrote, for elements that are not empty, hold no comma and have no space
    to trim at either end. *)
Theorem parseCommaSeparated_Join (T : GoText) (xs : list string) :
  Forall (fun x => x <> ""%string /\ noComma x = true /\ strings_TrimSpace T x = x) xs ->
  configs.parseCommaSeparated T (strings_Join xs ",") = xs.
Proof.
  intros Hall. destruct xs as [|x xs]; [reflexivity|].
  unfold configs.parseCommaSeparated.
  assert (Hne : strings_Join (x :: xs) "," <> ""%string).
  { inversion Hall as [|? ? (Hx & _) _]; subst.
    destruct xs; cbn [strings_Join]; [assumption|].
    destruct x; [contradiction|discriminate]. }
  destruct (String.eqb_spec (strings_Join (x :: xs) ",") "") as [|_]; [contradiction|].
  rewrite Split_comma_Join by (eapply Forall_impl; [|exact Hall]; cbn; tauto).
  apply rangeParts_fixed. eapply Forall_impl; [|exact Hall]. cbn. tauto.
Qed.

Lemma parseCommaSeparated_Join_witness :
  configs.parseCommaSeparated Sample.text
                              (strings_Join ["size"; "is_hidden"; "type"; "path"] ",")
  = ["size"; "is_hidden"; "type"; "path"].
Proof.
  apply parseCommaSeparated_Join.
  repeat (constructor; [split; [discriminate|split; reflexivity]|]).
  constructor.
Defined.

(** The flags of the command: spaces and empty pieces are dropped. *)
Example parseCommaSeparated_flags :
  configs.parseCommaSeparated Sample.text " .git, node_modules ,,build ," 
  = [".git"; "node_modules"; "build"] /\
  configs.parseCommaSeparated Sample.text "" = [] /\
  configs.parseCommaSeparated Sample.text " , ," = [].
Proof. repeat split. Qed.

(* ================================================================= *)
(** ** The convenience entry points *)



(** X26. [GenerateToFile] calls [os.WriteFile] at most once, and only
    after [Generate] returned without an error and with an output path
    that is not empty: the call has the name [GetOutputPath] gives, the
    bytes of [Generate] and mode 0644, and its error is the error
    returned.  Without a call the error returned is not nil: it is the
    error of [Generate], or the missing output path. *)
Theorem GenerateToFile_writes_after_success
        (L : GoLib) (fs : os.FileSystem) (E : formatter.Encoders) (T : GoText)
        (writeFile : string -> bytes -> option error) (fuel : nat)
        (cfg : configs.Config) (calls : list (string * bytes * Z))
        (err : option error) :
  dirtree.GenerateToFile L fs E T writeFile fuel cfg = Some (Ret (calls, err)) ->
  (calls = [] /\
   exists e, err = Some e /\
     ((exists data, dirtree.Generate L fs E fuel cfg = Some (Ret (data, Some e))) \/
      (e = "output path is required for file generation"%string /\
       configs.OutputPath (configs.Format cfg) = ""%string /\
       exists data, dirtree.Generate L fs E fuel cfg = Some (Ret (data, None))))) \/
  (exists data,
      dirtree.Generate L fs E fuel cfg = Some (Ret (data, None)) /\
      configs.OutputPath (configs.Format cfg) <> ""%string /\
      calls = [(configs.GetOutputPath T (configs.Format cfg), data, 420)] /\
      err = writeFile (configs.GetOutputPath T (configs.Format cfg)) data).
Proof.
  unfold dirtree.GenerateToFile.
  destruct (dirtree.Generate L fs E fuel cfg) as [[[d [e|]]|]|]; try discriminate.
  - intros [= <- <-]. left. split; [reflexivity|]. exists e. eauto.
  - cbv zeta.
    destruct (String.eqb_spec (configs.GetOutputPath T (configs.Format cfg)) "")
      as [Hempty|Hne]; intros [= <- <-].
    + left. split; [reflexivity|]. eexists. split; [reflexivity|]. right.
      split; [reflexivity|]. split; [|eauto].
      destruct (GetOutputPath_cases T (configs.Format cfg)) as [Hsame|(Hp & _ & Happ)].
      * now rewrite <- Hsame.
      * rewrite Happ in Hempty.
        destruct (configs.OutputPath (configs.Format cfg)); [reflexivity|discriminate].
    + right. exists d. repeat split; trivial.
      intros H0. apply Hne. unfold configs.GetOutputPath. now rewrite H0.
Qed.

Lemma GenerateToFile_writes_after_success_witness :
  let cfg :=
    {| configs.Path := "main.go"; configs.ExcludeTypes := [];
       configs.ExcludePaths := []; configs.IncludeFiles := true;
       configs.MaxDepth := 1; configs.FollowLinks := false;
       configs.Format := {| configs.Type_ := configs.TXT;
                            configs.OutputPath := "tree";
                            configs.Indent := 2;
                            configs.ExcludeNodeFields := [] |} |} in
  let text := (formatter.prefixFile ++ " main.go (12 bytes)" ++ formatter.newline)%string in
  let denied := fun (_ : string) (_ : bytes) => Some "permission denied"%string in
  dirtree.GenerateToFile Sample.lib Sample.fileRootFS Sample.encoders Sample.text
                         denied 1 cfg
  = Some (Ret ([("tree.txt"%string, text, 420)], Some "permission denied"%string)) /\
  ((([("tree.txt"%string, text, 420)] : list (string * bytes * Z)) = [] /\
    exists e, Some "permission denied"%string = Some e /\
      ((exists data, dirtree.Generate Sample.lib Sample.fileRootFS Sample.encoders 1 cfg
                     = Some (Ret (data, Some e))) \/
       (e = "output path is required for file generation"%string /\
        configs.OutputPath (configs.Format cfg) = ""%string /\
        exists data, dirtree.Generate Sample.lib Sample.fileRootFS Sample.encoders 1 cfg
                     = Some (Ret (data, None))))) \/
   (exists data,
       dirtree.Generate Sample.lib Sample.fileRootFS Sample.encoders 1 cfg
       = Some (Ret (data, None)) /\
       configs.OutputPath (configs.Format cfg) <> ""%string /\
       [("tree.txt"%string, text, 420)]
       = [(configs.GetOutputPath Sample.text (configs.Format cfg), data, 420)] /\
       Some "permission denied"%string
       = denied (configs.GetOutputPath Sample.text (configs.Format cfg)) data)).
Proof.
  cbv zeta. split; [reflexivity|].
  apply (GenerateToFile_writes_after_success
           Sample.lib Sample.fileRootFS Sample.encoders Sample.text
           (fun _ _ => Some "permission denied"%string) 1
           {| configs.Path := "main.go"; configs.ExcludeTypes := [];
              configs.ExcludePaths := []; configs.IncludeFiles := true;
              configs.MaxDepth := 1; configs.FollowLinks := false;
              configs.Format := {| configs.Type_ := configs.TXT;
                                   configs.OutputPath := "tree";
                                   configs.Indent := 2;
                                   configs.ExcludeNodeFields := [] |} |}).
  reflexivity.
Defined.

(* ================================================================= *)
(** ** Nothing is lost at unlimited depth *)

Section Complete.
Variable L : GoLib.
Variable currentPath : string.
Variable opts : BuildOptions.
Variable currentDepth : Z.

(** When the loop ends without an error, the call for every entry
    descended into has returned without one, and a node it gave is among
    the children. *)
Lemma rangeEntries_complete recur entries : forall children res entry entryInfo,
  rangeEntries L recur currentPath opts currentDepth entries children = Some (Ok res) ->
  In entry entries ->
  descended opts entry entryInfo ->
  exists n,
    recur (filepath_Join L currentPath (os.Name entryInfo)) entryInfo
          (int_add currentDepth 1) = Some (n, None) /\
    forall c, n = Some c -> In (Some c) res.
Proof.
  induction entries as [|e entries IH]; intros children res entry entryInfo H Hin Hd;
    [destruct Hin|].
  cbn [rangeEntries] in H. destruct Hin as [->|Hin].
  - destruct Hd as [Hi Hs]. rewrite Hi, Hs in H.
    destruct (recur _ _ _) as [[[c|] [err|]]|] eqn:Hr; try discriminate.
    + exists (Some c). split; [reflexivity|]. intros c' [= <-].
      destruct (rangeEntries_appends _ _ _ _ _ _ _ _ H) as (kids & -> & _).
      apply in_or_app. left. apply in_or_app. right. now left.
    + exists None. split; [reflexivity|discriminate].
  - destruct (os.Info e) as [ei|]; [|exact (IH _ _ _ _ H Hin Hd)].
    destruct (negb (IncludeFiles opts) && negb (os.IsDir ei));
      [exact (IH _ _ _ _ H Hin Hd)|].
    destruct (recur _ _ _) as [[[c|] [err|]]|]; try discriminate;
      exact (IH _ _ _ _ H Hin Hd).
Qed.

End Complete.

(** X27. With [maxDepth = -1] nothing is lost silently: in a returned
    tree, under every directory node, each entry of its listing whose
    metadata can be read, that passes the include-files test, whose path no
    pattern excludes and that is not a file with an excluded extension, has
    its node among the children, under its own name. *)
Theorem BuildTree_unlimited_keeps_every_entry (L : GoLib) (fs : os.FileSystem)
        (fuel : nat) (opts : BuildOptions) (t : Node) :
  MaxDepth opts = -1 ->
  BuildTree L fs fuel opts = Some (Some t, None) ->
  forall j m entries entry entryInfo,
    at_depth j t m ->
    Type_ m = Directory ->
    os.ReadDir fs (Path m) = Ok entries ->
    In entry entries ->
    descended opts entry entryInfo ->
    let childPath := filepath_Join L (Path m) (os.Name entryInfo) in
    isExcludedPath L childPath (ExcludePaths opts) = false ->
    (fst (nodeTypeAndSize fs childPath entryInfo opts) = File ->
     isExcludedType L childPath (ExcludeTypes opts) = false) ->
    exists c, In (Some c) (Children m) /\
              Name c = os.Name entryInfo /\ Path c = childPath.
Proof.
  intros Hmax. unfold BuildTree.
  destruct (os.Stat fs (Path_ opts)) as [info|]; [|discriminate].
  cbv zeta. intros H j m entries entry ei Hat Hdir Hread Hin Hdesc Hpath Htype.
  destruct (node_is_returned L fs opts j _ _ _ _ _ _ H Hat) as (f & p & i & d & Hm).
  destruct (returned_node L fs opts _ _ _ _ _ Hm) as (_ & Hp & _).
  destruct (returned_listing L fs opts _ _ _ _ _ Hm Hdir) as (f' & es & _ & Hes & Hloop).
  rewrite Hp in *. rewrite Hes in Hread. injection Hread as ->.
  destruct (rangeEntries_complete _ _ _ _ _ _ _ _ _ _ Hloop Hin Hdesc) as (n & Hcall & Hn).
  assert (Hkeep : filteredOut L fs (filepath_Join L p (os.Name ei)) ei opts
                              (int_add d 1) = false).
  { unfold filteredOut, depthExceeded. rewrite Hmax, Hpath. cbn [negb andb orb].
    destruct (String.eqb_spec (fst (nodeTypeAndSize fs (filepath_Join L p (os.Name ei))
                                                    ei opts)) File) as [HF|];
      [now rewrite (Htype HF)|reflexivity]. }
  destruct (kept_node_or_error L fs _ _ _ _ _ _ _ Hkeep Hcall) as [[Hsome _]|[_ Hneq]];
    [|contradiction].
  destruct n as [c|]; [|contradiction]. exists c.
  destruct (returned_node L fs opts _ _ _ _ _ Hcall) as (Hname & Hpc & _).
  auto.
Qed.

Lemma BuildTree_unlimited_keeps_every_entry_witness :
  exists t,
    BuildTree Sample.lib Sample.scenarioFS 3 (Sample.scenarioOpts (-1) [".go"])
    = Some (Some t, None) /\
    exists c, In (Some c) (Children t) /\ Name c = "a.txt"%string /\
              Path c = "root/a.txt"%string.
Proof.
  eexists. split; [reflexivity|].
  apply (BuildTree_unlimited_keeps_every_entry
           Sample.lib Sample.scenarioFS 3 (Sample.scenarioOpts (-1) [".go"]) _
           eq_refl eq_refl O _
           [Sample.entry (Sample.fileInfo "a.txt" 10);
            Sample.entry (Sample.fileInfo "b.go" 5);
            Sample.entry (Sample.dirInfo "sub")]
           (Sample.entry (Sample.fileInfo "a.txt" 10)) (Sample.fileInfo "a.txt" 10)
           (at_depth_root _) eq_refl eq_refl (or_introl eq_refl)
           (conj eq_refl eq_refl) eq_refl (fun _ => eq_refl)).
Defined.

(** An entry whose metadata cannot be read, between two that can. *)
Example BuildTree_unreadable_entry :
  BuildTree Sample.lib
            (Sample.tableFS
               [("root", Sample.dirInfo "root")]
               [("root", [Sample.entry (Sample.fileInfo "a.txt" 10);
                          {| os.Info := Err "stale file handle" |};
                          Sample.entry (Sample.fileInfo "b.txt" 2)])]
               [])
            2 (Sample.scenarioOpts 1 [])
  = Some (Some (mkNode "root" "root" Directory 0
                  [Some (mkNode "a.txt" "root/a.txt" File 10 [] false);
                   Some (mkNode "b.txt" "root/b.txt" File 2 [] false)] false), None).
Proof. reflexivity. Qed.
